(** * SwarmRouter: a shallow embedding of the routing core

    The development follows the Python package [swarm_router]:
    - [Float64]       the binary64 floats of Python;
    - [Py]            the builtins of Python the package relies on
                      ([str.split], [str.lower], [in], [splitlines],
                      truthiness, subscripting of decoded JSON);
    - [Config]        [config.py]: endpoints, model entries, [SwarmConfig];
    - [Health]        [health.py]: the [ServiceHealth] monitor;
    - [Swarm]         [swarm.py]: [call_model], [_score_result], [rank_results];
    - [Orchestrator]  [orchestrator.py]: [auto_route], [consensus], [pipeline];
    - [Machine]       the runtime the package runs on, and its thread pools.

    The notions of the specification come next ([Spec], [SortSpec],
    [SwarmSpec], [RouteSpec], [Frame]) with a scripted runtime for concrete
    runs ([Script]); the properties follow, one module for each part of the
    package.

    Conventions.  A Python [str] is a Rocq [string] whose characters are read
    as the code points 0..255.  The scores and the elapsed seconds of
    [swarm.py] are binary64 floats, with the operations of the IEEE 754
    specification of the Standard Library ([SpecFloat]); the clock of the
    world and the latencies of [orchestrator.py] are exact rationals of [Q].
    The network, the clock and the thread pools are an abstract world
    threaded through every call. *)

From Stdlib Require Import ZArith QArith Qminmax Qround Lqa Ascii String.
From Stdlib Require Import Floats.SpecFloat.
From stdpp Require Import base option list strings gmap pretty sorting.

Set Warnings "-register-all".
Local Open Scope string_scope.

(** ** Python floats

    A [float] is a binary64 number: [spec_float] with 53 bits of precision
    and the exponent 1024 for the infinities.  Every operation rounds to
    nearest, ties to even. *)
Module Float64.

Definition float : Type := spec_float.
Definition prec : Z := 53.
Definition emax : Z := 1024.

Definition add : float → float → float := SFadd prec emax.
Definition sub : float → float → float := SFsub prec emax.
Definition div : float → float → float := SFdiv prec emax.
Definition ltb : float → float → bool := SFltb.
Definition eqb : float → float → bool := SFeqb.
Definition leb : float → float → bool := SFleb.
Definition opp : float → float := SFopp.

(** [a / b] for two ints, [b] positive: the quotient, rounded once.  It is
    also the float a decimal literal denotes: [0.1] is [truediv 1 10]. *)
Definition truediv (a : Z) (b : positive) : float :=
  match a with
  | Z0 => S754_zero false
  | Zpos p => div (S754_finite false p 0) (S754_finite false b 0)
  | Zneg p => div (S754_finite true p 0) (S754_finite false b 0)
  end.

(** [float(z)] *)
Definition of_Z (z : Z) : float := truediv z 1.

(** The float nearest to a rational. *)
Definition of_Q (q : Q) : float := truediv (Qnum q) (Qden q).

(** [min(x, y)] and [max(x, y)] of two floats: the first argument unless
    the second is smaller, or larger. *)
Definition min (x y : float) : float := if ltb y x then y else x.
Definition max (x y : float) : float := if ltb x y then y else x.

(** *** Notions for the properties *)

Definition is_nan (x : float) : bool :=
  match x with S754_nan => true | _ => false end.

(** [x] is a number, and its sign bit is [s]. *)
Definition signed (s : bool) (x : float) : Prop :=
  match x with
  | S754_zero s' | S754_infinity s' | S754_finite s' _ _ => s' = s
  | S754_nan => False
  end.

(** The place of a number in the order of the floats: the comparison of
    two numbers is the lexicographic comparison of their ranks. *)
Definition rank (x : float) : Z * Z * Z :=
  match x with
  | S754_infinity true => (-2, 0, 0)
  | S754_finite true m e => (-1, - e, - Zpos m)
  | S754_zero _ => (0, 0, 0)
  | S754_nan => (0, 0, 0)
  | S754_finite false m e => (1, e, Zpos m)
  | S754_infinity false => (2, 0, 0)
  end%Z.

Definition lex_lt (a b : Z * Z * Z) : Prop :=
  (a.1.1 < b.1.1 ∨ a.1.1 = b.1.1 ∧ (a.1.2 < b.1.2 ∨ a.1.2 = b.1.2 ∧ a.2 < b.2))%Z.

End Float64.

(** ** Python builtins *)
Module Py.

(** [str.isspace] on one character: U+0009..U+000D, U+001C..U+0020,
    U+0085 and U+00A0 are the white space of the range. *)
Definition isspace (c : ascii) : bool :=
  let n := N_of_ascii c in
  ((9 <=? n) && (n <=? 13) || (28 <=? n) && (n <=? 32)
   || (n =? 133) || (n =? 160))%N.

(** [str.lower] on one character of the range U+0000..U+00FF: A..Z, and
    the upper-case letters U+00C0..U+00DE without the multiplication sign
    U+00D7.  In this range the lower case of a character is one character
    of the range and does not depend on its neighbours. *)
Definition lower_char (c : ascii) : ascii :=
  let n := N_of_ascii c in
  if ((65 <=? n) && (n <=? 90)
      || (192 <=? n) && (n <=? 222) && negb (n =? 215))%N
  then ascii_of_N (n + 32) else c.

Fixpoint lower (s : string) : string :=
  match s with
  | EmptyString => EmptyString
  | String c s' => String (lower_char c) (lower s')
  end.

(** [s.split()] with no separator: the maximal runs of characters that are
    not white space.  [cur] is the run being read. *)
Fixpoint split_go (cur : string) (s : string) : list string :=
  match s with
  | EmptyString => match cur with EmptyString => [] | _ => [cur] end
  | String c s' =>
      if isspace c
      then match cur with
           | EmptyString => split_go EmptyString s'
           | _ => cur :: split_go EmptyString s'
           end
      else split_go (cur +:+ String c EmptyString) s'
  end.

Definition split (s : string) : list string := split_go EmptyString s.

(** [s.startswith(p)] *)
Fixpoint startswith (p s : string) : bool :=
  match p, s with
  | EmptyString, _ => true
  | String a p', String b s' => if decide (a = b) then startswith p' s' else false
  | String _ _, EmptyString => false
  end.

(** [p in s] for two strings: [p] starts at some position of [s]. *)
Fixpoint contains (p s : string) : bool :=
  startswith p s ||
  match s with
  | EmptyString => false
  | String _ s' => contains p s'
  end.

(** The line boundaries of [str.splitlines] in the range: LF, VT, FF, CR,
    FS, GS, RS and NEL. *)
Definition islinebreak (c : ascii) : bool :=
  let n := N_of_ascii c in
  ((10 <=? n) && (n <=? 13) || (28 <=? n) && (n <=? 30) || (n =? 133))%N.

(** [s.splitlines()]: a CR LF pair is one boundary, and no empty line is
    reported after the last boundary. *)
Fixpoint splitlines_go (cur : string) (s : string) : list string :=
  match s with
  | EmptyString => match cur with EmptyString => [] | _ => [cur] end
  | String c s' =>
      if islinebreak c
      then cur :: match s' with
                  | String d s'' =>
                      if decide (c = "013"%char ∧ d = "010"%char)
                      then splitlines_go EmptyString s''
                      else splitlines_go EmptyString s'
                  | EmptyString => []
                  end
      else splitlines_go (cur +:+ String c EmptyString) s'
  end.

(** [s.rstrip("/")] *)
Fixpoint rstrip_slash (s : string) : string :=
  match s with
  | EmptyString => EmptyString
  | String c s' =>
      match rstrip_slash s' with
      | EmptyString => if decide (c = "/"%char) then EmptyString else String c EmptyString
      | t => String c t
      end
  end.

(** [s[:n]] for a string *)
Fixpoint str_take (n : nat) (s : string) : string :=
  match n, s with
  | S n', String c s' => String c (str_take n' s')
  | _, _ => EmptyString
  end.

(** [sep.join(l)] *)
Fixpoint join (sep : string) (l : list string) : string :=
  match l with
  | [] => EmptyString
  | [x] => x
  | x :: l' => x +:+ sep +:+ join sep l'
  end.

(** [round(x, 2)]: the nearest multiple of 1/100, ties to the even one. *)
Definition round2 (x : Q) : Q :=
  let y := (x * 100)%Q in
  let f := Qfloor y in
  let r := (y - inject_Z f)%Q in
  let n := match (r ?= 1 # 2)%Q with
           | Lt => f
           | Gt => (f + 1)%Z
           | Eq => if Z.even f then f else (f + 1)%Z
           end in
  (inject_Z n / 100)%Q.

(** *** Values decoded from JSON

    [json.loads] and [Response.json] return [None], a [bool], a number, a
    [str], a [list] or a [dict] with [str] keys.  A [dict] is the list of its
    items in insertion order, its keys pairwise distinct. *)
Inductive pyval : Type :=
  | PNone
  | PBool (b : bool)
  | PNum (q : Q)
  | PStr (s : string)
  | PList (l : list pyval)
  | PDict (d : list (string * pyval)).

(** Truth value of an object, as [if v:] and [not v] test it. *)
Definition truthy (v : pyval) : bool :=
  match v with
  | PNone => false
  | PBool b => b
  | PNum q => negb (Qeq_bool q 0)
  | PStr s => negb (bool_decide (s = EmptyString))
  | PList l => negb (bool_decide (l = []))
  | PDict d => negb (bool_decide (d = []))
  end.

Fixpoint dict_lookup (k : string) (d : list (string * pyval)) : option pyval :=
  match d with
  | [] => None
  | (k', v) :: d' => if decide (k = k') then Some v else dict_lookup k d'
  end.

(** The exceptions that cross the functions of the package. *)
Inductive exn_class : Type :=
  | TimeoutError | KeyError | IndexError | TypeError | AttributeError
  | ValueError | RuntimeError | TransportError.

#[global] Instance exn_class_eq_dec : EqDecision exn_class.
Proof. solve_decision. Defined.

(** An exception is its class and the text [str(exc)] gives for it. *)
Record exn : Type := Exn { exn_class_of : exn_class; exn_msg : string }.

Inductive result (A : Type) : Type :=
  | Ok (a : A)
  | Raise (e : exn).
Arguments Ok {A} a.
Arguments Raise {A} e.

Definition result_bind {A B} (r : result A) (k : A → result B) : result B :=
  match r with Ok a => k a | Raise e => Raise e end.

(** [[f(x) for x in l]] where [f] may raise: the first exception wins. *)
Fixpoint result_map {A B} (f : A → result B) (l : list A) : result (list B) :=
  match l with
  | [] => Ok []
  | x :: l' =>
      result_bind (f x) (λ y, result_bind (result_map f l') (λ ys, Ok (y :: ys)))
  end.

(** *** Subscripting and [dict.get]

    [msg] is the text the interpreter gives to the error it raises. *)
Section Subscript.
Variable msg : exn_class → pyval → string.

(** [v[k]] for a string key [k] *)
Definition getitem (v : pyval) (k : string) : result pyval :=
  match v with
  | PDict d =>
      match dict_lookup k d with
      | Some x => Ok x
      | None => Raise (Exn KeyError (msg KeyError v))
      end
  | _ => Raise (Exn TypeError (msg TypeError v))
  end.

(** [v[0]] *)
Definition getitem0 (v : pyval) : result pyval :=
  match v with
  | PList (x :: _) => Ok x
  | PList [] => Raise (Exn IndexError (msg IndexError v))
  | PStr (String c _) => Ok (PStr (String c EmptyString))
  | PStr EmptyString => Raise (Exn IndexError (msg IndexError v))
  | PDict _ => Raise (Exn KeyError (msg KeyError v))
  | _ => Raise (Exn TypeError (msg TypeError v))
  end.

(** [v.get(k, dflt)]: only a [dict] has the method. *)
Definition get (v : pyval) (k : string) (dflt : pyval) : result pyval :=
  match v with
  | PDict d => Ok (default dflt (dict_lookup k d))
  | _ => Raise (Exn AttributeError (msg AttributeError v))
  end.

(** [len(v)] *)
Definition len (v : pyval) : result nat :=
  match v with
  | PStr s => Ok (String.length s)
  | PList l => Ok (length l)
  | PDict d => Ok (length d)
  | _ => Raise (Exn TypeError (msg TypeError v))
  end.
End Subscript.

(** *** [sorted(l, key=..., reverse=...)]

    The keys, floats here, are computed once, for every element and in
    order; the sort is stable and compares keys with [<] only.  With
    [reverse=True] the list is reversed, sorted and reversed again, which
    keeps equal keys in their input order.  The stable sort is written as an
    insertion sort: on keys that are numbers [<] is a strict weak order, for
    which every stable sort gives the same list. *)
Fixpoint insert_key {A} (x : Float64.float * A) (l : list (Float64.float * A))
    : list (Float64.float * A) :=
  match l with
  | [] => [x]
  | y :: l' =>
      if Float64.ltb y.1 x.1 then y :: insert_key x l' else x :: y :: l'
  end.

Fixpoint sort_keys {A} (l : list (Float64.float * A)) : list (Float64.float * A) :=
  match l with
  | [] => []
  | x :: l' => insert_key x (sort_keys l')
  end.

Definition sorted {A} (key : A → result Float64.float) (reverse : bool) (l : list A)
    : result (list A) :=
  result_bind (result_map key l) (λ keys,
    let decorated := zip keys l in
    Ok (map snd (if reverse then rev (sort_keys (rev decorated))
                 else sort_keys decorated))).

End Py.

(** ** Effects: state and exceptions

    A computation reads and updates a state and either returns a value or
    raises.  [try_except] is [try: ... except Exception as e: ...]; all the
    exceptions of [Py.exn] are instances of [Exception]. *)
Module Eff.
Import Py.

Definition M (St A : Type) : Type := St → result A * St.

Section Monad.
Context {St : Type}.

Definition ret {A} (a : A) : M St A := λ s, (Ok a, s).

Definition raise {A} (e : exn) : M St A := λ s, (Raise e, s).

Definition bind {A B} (m : M St A) (k : A → M St B) : M St B :=
  λ s, match m s with
       | (Ok a, s') => k a s'
       | (Raise e, s') => (Raise e, s')
       end.

Definition try_except {A} (m : M St A) (handler : exn → M St A) : M St A :=
  λ s, match m s with
       | (Ok a, s') => (Ok a, s')
       | (Raise e, s') => handler e s'
       end.

(** The outcome of a computation as a value, the way a future keeps it. *)
Definition attempt {A} (m : M St A) : M St (result A) :=
  λ s, let '(r, s') := m s in (Ok r, s').

Definition lift {A} (r : result A) : M St A := λ s, (r, s).

Definition gets {A} (f : St → A) : M St A := λ s, (Ok (f s), s).

Definition modify (f : St → St) : M St unit := λ s, (Ok tt, f s).

(** A [for] loop that collects what its body returns. *)
Fixpoint for_each {A B} (l : list A) (body : A → M St B) : M St (list B) :=
  match l with
  | [] => ret []
  | x :: l' => bind (body x) (λ y, bind (for_each l' body) (λ ys, ret (y :: ys)))
  end.
End Monad.

Module Notations.
Notation "x <- m ;; k" := (bind m (λ x, k))
  (at level 100, m at next level, right associativity,
   format "'[v' x  <-  m  ;;  '/' k ']'").
Notation "m ;;; k" := (bind m (λ _, k))
  (at level 100, right associativity).
End Notations.

End Eff.

(** ** config.py *)
Module Config.
Import Py.

Record Endpoint : Type := {
  url : string;
  api_key : string;
  name : string
}.

Record ModelEntry : Type := {
  model_id : string;
  tier : string;                (* "fast", "power", "deep" *)
  endpoint : Endpoint;
  expected_latency_s : Q
}.

Record SwarmConfig : Type := {
  primary : Endpoint;
  secondary : option Endpoint;
  knowledge_url : option string;
  timeout_fast : Q * Q;
  timeout_power : Q * Q;
  timeout_deep : Q * Q;
  models : list ModelEntry;
  t1_max_words : Z;
  t2_max_words : Z;
  deep_keywords : gset string
}.

(** The default of the field [deep_keywords]. *)
Definition default_deep_keywords : gset string :=
  list_to_set
    [ "compare"; "analyze"; "tradeoffs"; "architecture"; "design"; "research";
      "explain in detail"; "step by step"; "why"; "how does"; "evaluate";
      "pros and cons"; "difference between" ].

(** [SwarmConfig(primary=p)] with every other field at its default and an
    environment that sets none of the [SWARM_*] variables. *)
Definition SwarmConfig_default (p : Endpoint) : SwarmConfig := {|
  primary := p;
  secondary := None;
  knowledge_url := None;
  timeout_fast := (5, 30)%Q;
  timeout_power := (5, 60)%Q;
  timeout_deep := (5, 120)%Q;
  models := [];
  t1_max_words := 20;
  t2_max_words := 60;
  deep_keywords := default_deep_keywords
|}.

Definition with_models (cfg : SwarmConfig) (ms : list ModelEntry) : SwarmConfig := {|
  primary := primary cfg;
  secondary := secondary cfg;
  knowledge_url := knowledge_url cfg;
  timeout_fast := timeout_fast cfg;
  timeout_power := timeout_power cfg;
  timeout_deep := timeout_deep cfg;
  models := ms;
  t1_max_words := t1_max_words cfg;
  t2_max_words := t2_max_words cfg;
  deep_keywords := deep_keywords cfg
|}.

(** [cfg.add_model(model_id, tier, endpoint, expected_latency_s)] appends to
    [cfg.models]; [endpoint or self.primary] picks the primary endpoint when
    none is given. *)
Definition add_model (cfg : SwarmConfig) (mid : string) (t : string)
    (ep : option Endpoint) (lat : Q) : SwarmConfig :=
  with_models cfg
    (models cfg ++ [ {| model_id := mid; tier := t;
                        endpoint := default (primary cfg) ep;
                        expected_latency_s := lat |} ]).

Definition get_tier_models (cfg : SwarmConfig) (t : string) : list ModelEntry :=
  filter (λ m, tier m = t) (models cfg).

Definition get_tier_timeout (cfg : SwarmConfig) (t : string) : Q * Q :=
  if decide (t = "T1") then timeout_fast cfg
  else if decide (t = "T2") then timeout_power cfg
  else if decide (t = "T3") then timeout_deep cfg
  else if decide (t = "fast") then timeout_fast cfg
  else if decide (t = "power") then timeout_power cfg
  else if decide (t = "deep") then timeout_deep cfg
  else timeout_power cfg.

Definition classify_complexity (cfg : SwarmConfig) (prompt : string) : string :=
  let words := Z.of_nat (length (split prompt)) in
  let has_deep :=
    existsb (λ kw, contains kw (lower prompt)) (elements (deep_keywords cfg)) in
  if has_deep || (t2_max_words cfg <? words)%Z then "T3"
  else if (t1_max_words cfg <? words)%Z then "T2"
  else "T1".

End Config.

(** ** health.py: the monitor as a value *)
Module Health.

(** [_endpoints] maps a service name to its probe URL and headers, [_status]
    maps it to the outcome of the last probe. *)
Record ServiceHealth : Type := {
  _endpoints : gmap string (string * list (string * string));
  _status : gmap string bool
}.

(** [ServiceHealth()] *)
Definition init : ServiceHealth := {| _endpoints := ∅; _status := ∅ |}.

Definition register (self : ServiceHealth) (name health_url : string)
    (headers : option (list (string * string))) : ServiceHealth := {|
  _endpoints := <[name := (health_url, default [] headers)]> (_endpoints self);
  _status := <[name := false]> (_status self)
|}.

Definition is_up (self : ServiceHealth) (service : string) : bool :=
  default false (_status self !! service).

Definition get_all (self : ServiceHealth) : gmap string bool := _status self.

End Health.

(** ** The world outside the package

    [requests], [urllib], the clock, the thread pools and the texts the
    interpreter prints are not code of the package: they are the operations
    of a [Runtime], about which nothing is assumed. *)
Module Machine.
Import Py Eff.

(** What [requests] hands back: the status code and what [r.json()] gives. *)
Record Response : Type := {
  status_code : Z;
  json : result pyval
}.

Class Runtime : Type := {
  World : Type;
  (** [_SESSION.post(url, headers=..., json=..., timeout=...)], retries
      included *)
  session_post : string → option (list (string * string)) → pyval → Q * Q →
                 World → result Response * World;
  (** [requests.get(url, headers=..., timeout=...)] *)
  requests_get : string → list (string * string) → Q * Q →
                 World → result Response * World;
  (** [await asyncio.wait_for(loop.run_in_executor(None, _http_post, ...),
      timeout)]: the decoded body, or the exception, [TimeoutError] when the
      wait ends first; [None] when the task is cancelled while it waits *)
  wait_for_http_post : string → list (string * string) → pyval → Z →
                       World → option (result pyval) * World;
  (** [time.monotonic()] *)
  monotonic : World → Q;
  (** [time.strftime("%Y-%m-%dT%H:%M:%SZ", time.gmtime())] *)
  gmtime_stamp : World → string;
  (** the order in which the futures of a pool complete before the deadline
      of [as_completed]: each number picks one of the futures still pending *)
  completion_picks : nat → Q → World → list nat;
  (** [repr(v)] and [json.dumps(v)] *)
  repr : pyval → string;
  json_dumps : pyval → string;
  (** the text of a builtin error about the object [v] *)
  errmsg : exn_class → pyval → string
}.

(** A state that contains the world. *)
Class HasWorld `{Runtime} (St : Type) : Type := {
  world_of : St → World;
  with_world : World → St → St
}.

#[global] Instance World_HasWorld `{Runtime} : HasWorld World :=
  {| world_of := λ w, w; with_world := λ w _, w |}.

(** [as_completed]: the futures leave [pending] in the order of the picks;
    what is left when the picks run out has missed the deadline. *)
Fixpoint pick_order {A} (picks : list nat) (pending : list A) : list A * list A :=
  match picks with
  | [] => ([], pending)
  | k :: picks' =>
      let i := (k mod length pending)%nat in
      match pending !! i with
      | Some x =>
          let '(done, late) := pick_order picks' (delete i pending) in
          (x :: done, late)
      | None => ([], pending)
      end
  end.

Section Primitives.
Context `{HasWorld St}.

(** Run an operation of the runtime on the world of the state. *)
Definition on_world {A} (op : World → result A * World) : M St A :=
  λ s, let '(r, w) := op (world_of s) in (r, with_world w s).

(** Await an operation of the runtime.  The cancellation of the task is
    raised at the [await] as [asyncio.CancelledError], which is no
    [Exception]: no [except] clause of the package catches it, and the
    coroutine ends without a value, here [None]. *)
Definition await {A} (op : World → option (result A) * World)
    : M St (option (result A)) :=
  λ s, let '(r, w) := op (world_of s) in (Ok r, with_world w s).

Definition time_monotonic : M St Q := gets (λ s, monotonic (world_of s)).

(** [r.raise_for_status()]: an [HTTPError] for 4xx and 5xx. *)
Definition raise_for_status (r : Response) : M St unit :=
  if ((400 <=? status_code r) && (status_code r <? 600))%Z
  then raise (Exn TransportError (errmsg TransportError (PNum (inject_Z (status_code r)))))
  else ret tt.

(** [str(v)]: a string is itself, anything else is printed by [repr]. *)
Definition str (v : pyval) : string :=
  match v with PStr s => s | _ => repr v end.

Import Eff.Notations.

(** A pool running [tasks] and a loop over
    [as_completed(futs, timeout=timeout)].  The futures complete in the
    order the runtime picks; the loop sees the outcome of each.  When some
    future misses the deadline the iterator raises [TimeoutError]; leaving
    the [with] block then waits for the late ones, whose outcomes nobody
    reads. *)
Definition pool_as_completed {A} (tasks : list (M St A)) (timeout : Q)
    : M St (list (result A)) :=
  picks <- gets (λ s, completion_picks (length tasks) timeout (world_of s)) ;;
  let '(done, late) := pick_order picks tasks in
  outcomes <- for_each done attempt ;;
  match late with
  | [] => ret outcomes
  | _ => for_each late attempt ;;;
         raise (Exn TimeoutError (errmsg TimeoutError PNone))
  end.
End Primitives.

End Machine.

(** ** health.py: [ServiceHealth.refresh] *)
Module Monitor.
Import Py Eff Eff.Notations Health Machine.

Section Refresh.
Context `{HasWorld St}.

(** The nested function [_probe] of [refresh]. *)
Definition _probe (name url : string) (headers : list (string * string))
    : M St (string * bool) :=
  try_except
    (r <- on_world (requests_get url headers (2, 5)%Q) ;;
     ret (name, (status_code r <? 400)%Z))
    (λ _, ret (name, false)).

(** [self.refresh()]: the monitor after the call; the [dict] the method
    returns is its [_status].  A probe that misses the deadline of ten
    seconds makes [as_completed] raise, and the status is left as it was. *)
Definition refresh (self : ServiceHealth) : M St ServiceHealth :=
  outcomes <- pool_as_completed
                (map (λ '(name, (url, hdrs)), _probe name url hdrs)
                     (map_to_list (_endpoints self)))
                10 ;;
  let result : gmap string bool :=
    foldl (λ acc o, match o with
                    | Ok (n, ok) => <[n := ok]> acc
                    | Raise _ => acc
                    end) ∅ outcomes in
  ret {| _endpoints := _endpoints self; _status := result ∪ _status self |}.
End Refresh.

End Monitor.

(** ** swarm.py *)
Module Swarm.
Import Py Eff Eff.Notations Config Machine.

(** The [dict] that [call_model] returns. *)
Record CallResult : Type := {
  model : string;
  status : string;              (* "ok", "timeout", "error" *)
  elapsed_s : Float64.float;
  content : pyval;
  error : option string;
  tokens : pyval
}.

(** [round(elapsed, 2)] of the seconds read from the clock: the float
    nearest to the multiple of 1/100. *)
Definition rounded_seconds (elapsed : Q) : Float64.float :=
  Float64.of_Q (round2 elapsed).

Section CallModel.
Context `{HasWorld St}.

(** [call_model]: [None] when the task is cancelled at the [await]. *)
Definition call_model (entry : ModelEntry) (prompt : string) (timeout : Z)
    : M St (option CallResult) :=
  let url := rstrip_slash (url (endpoint entry)) +:+ "/v1/chat/completions" in
  let headers := [ ("Content-Type", "application/json");
                   ("Authorization", "Bearer " +:+ api_key (endpoint entry)) ] in
  let payload := PDict [ ("model", PStr (model_id entry));
                         ("messages", PList [ PDict [ ("role", PStr "user");
                                                      ("content", PStr prompt) ] ]);
                         ("max_tokens", PNum 2048) ] in
  start <- time_monotonic ;;
  awaited <- await (wait_for_http_post url headers payload timeout) ;;
  match awaited with
  | None => ret None
  | Some outcome =>
      result <-
        try_except
          (response <- lift outcome ;;
           t1 <- time_monotonic ;;
           let elapsed := (t1 - start)%Q in
           choices <- lift (getitem errmsg response "choices") ;;
           first <- lift (getitem0 errmsg choices) ;;
           message <- lift (getitem errmsg first "message") ;;
           content <- lift (getitem errmsg message "content") ;;
           usage <- lift (get errmsg response "usage" (PDict [])) ;;
           total <- lift (get errmsg usage "total_tokens" PNone) ;;
           ret {| model := model_id entry; status := "ok";
                  elapsed_s := rounded_seconds elapsed; content := content;
                  error := None; tokens := total |})
          (λ exc,
             t1 <- time_monotonic ;;
             if decide (exn_class_of exc = TimeoutError)
             then ret {| model := model_id entry; status := "timeout";
                         elapsed_s := rounded_seconds (t1 - start);
                         content := PNone; error := None; tokens := PNone |}
             else ret {| model := model_id entry; status := "error";
                         elapsed_s := rounded_seconds (t1 - start);
                         content := PNone; error := Some (exn_msg exc);
                         tokens := PNone |}) ;;
      ret (Some result)
  end.
End CallModel.

Section Ranking.
Context `{Runtime}.

(** [_score_result], in floats.  [len], [in] and [splitlines] are the ones
    of a [str]: content that is true and not a string ends in an error, at
    [content.splitlines()] for a list or a dict and at [len(content)] for
    a number or [True]. *)
Definition _score_result (result : CallResult) : Py.result Float64.float :=
  if negb (bool_decide (status result = "ok")) || negb (truthy (content result))
  then Ok (Float64.opp (Float64.of_Z 1))
  else
    match content result with
    | PStr text =>
        let length_score :=
          Float64.min
            (Float64.div (Float64.of_Z (Z.of_nat (String.length text)))
                         (Float64.of_Z 500))
            (Float64.of_Z 3) in
        let length_score :=
          if (String.length text <? 50)%nat then Float64.truediv 1 10
          else length_score in
        let structure_score := Float64.of_Z 0 in
        let structure_score :=
          if contains "```" text
          then Float64.add structure_score (Float64.truediv 5 10)
          else structure_score in
        let structure_score :=
          if existsb (startswith "#") (splitlines_go EmptyString text)
          then Float64.add structure_score (Float64.truediv 3 10)
          else structure_score in
        let speed_score :=
          Float64.max (Float64.of_Z 0)
            (Float64.sub (Float64.of_Z 1)
               (Float64.div (elapsed_s result) (Float64.of_Z 30))) in
        Ok (Float64.add (Float64.add length_score structure_score) speed_score)
    | PList _ | PDict _ =>
        Raise (Exn AttributeError (errmsg AttributeError (content result)))
    | _ => Raise (Exn TypeError (errmsg TypeError (content result)))
    end.

Definition rank_results (results : list CallResult) : Py.result (list CallResult) :=
  sorted _score_result true results.
End Ranking.

(** [l[:n]] for a list: a negative [n] counts from the end. *)
Definition slice_to {A} (n : Z) (l : list A) : list A :=
  if (0 <=? n)%Z then take (Z.to_nat n) l
  else take (Z.to_nat (Z.of_nat (length l) + n)) l.

(** What [asyncio.gather] hands back for coroutines that have ended: their
    values in the order of the coroutines, or, when one of them was
    cancelled, the [CancelledError], here [None]. *)
Fixpoint gather {A} (ended : list (option A)) : option (list A) :=
  match ended with
  | [] => Some []
  | None :: _ => None
  | Some a :: ended' =>
      match gather ended' with
      | Some l => Some (a :: l)
      | None => None
      end
  end.

Section SwarmCall.
Context `{HasWorld St}.

(** [swarm_call]: [None] when a call was cancelled; the calls are made one
    after the other, in the order of the tasks. *)
Definition swarm_call (prompt : string) (tier : string) (max_models : Z)
    (timeout : Z) (cfg : SwarmConfig) : M St (option (list CallResult)) :=
  let candidates := get_tier_models cfg tier in
  let selected := slice_to max_models candidates in
  ended <- for_each selected (λ m, call_model m prompt timeout) ;;
  match gather ended with
  | None => ret None
  | Some results =>
      ranked <- lift (rank_results results) ;;
      ret (Some ranked)
  end.
End SwarmCall.

End Swarm.

(** ** orchestrator.py *)
Module Orchestrator.
Import Py Eff Eff.Notations Config Health Machine.

(** The [dict] of [auto_route]. *)
Record RouteResult : Type := {
  r_model : string;
  r_tier : string;
  r_response : pyval;
  r_latency_s : Q
}.

(** One entry of [individual]: [latency_s] is present for a call that
    returned, [error] is [None] for it. *)
Record Answer : Type := {
  a_model : string;
  a_response : pyval;
  a_latency_s : option Q;
  a_error : option string
}.

(** The [dict] of [consensus]. *)
Record ConsensusResult : Type := {
  merged : pyval;
  individual : list Answer;
  model_count : nat
}.

(** The [dict] of [pipeline]. *)
Record PipelineResult : Type := {
  answer : pyval;
  prompt_original : string;
  prompt_enriched : string;
  context_results_count : nat;
  model_info : pyval;
  total_latency_s : Q;
  stored : bool
}.

Section Orchestrator.
Context `{Runtime}.

(** The state of a run: the world, the [ServiceHealth] object the caller
    shares with the package, and, as a ghost, the completion requests that
    were issued, oldest first: the model entry of each and the exception
    the request ended in, if any. *)
Record state : Type := {
  world : World;
  monitor : ServiceHealth;
  dispatched : list (ModelEntry * option exn)
}.

#[global] Instance state_HasWorld : HasWorld state := {|
  world_of := world;
  with_world := λ w s, {| world := w; monitor := monitor s;
                          dispatched := dispatched s |}
|}.

(** Run the request [m] made for [entry] and note it in the ghost log. *)
Definition logged {A} (entry : ModelEntry) (m : M state A) : M state A :=
  λ s, let '(r, s') := m s in
       (r, {| world := world s'; monitor := monitor s';
              dispatched := dispatched s'
                            ++ [(entry, match r with
                                        | Ok _ => None
                                        | Raise e => Some e
                                        end)] |}).

(** [health.refresh()] on the shared monitor *)
Definition health_refresh : M state unit :=
  h <- gets monitor ;;
  h' <- Monitor.refresh h ;;
  modify (λ s, {| world := world s; monitor := h'; dispatched := dispatched s |}).

(** [if health: health.refresh()].  [health] tells whether the caller
    passed the monitor; a [ServiceHealth] object is always true. *)
Definition refresh_if (health : bool) : M state unit :=
  if health then health_refresh else ret tt.

Definition _chat_completion (model : string) (messages : pyval)
    (base_url api_key : string) (timeout : Q * Q) : M state pyval :=
  let url := rstrip_slash base_url +:+ "/v1/chat/completions" in
  let headers := [ ("Authorization", "Bearer " +:+ api_key);
                   ("Content-Type", "application/json") ] in
  let payload := PDict [ ("model", PStr model);
                         ("messages", messages);
                         ("temperature", PNum (7 # 10));
                         ("max_tokens", PNum 2048) ] in
  r <- on_world (session_post url (Some headers) payload timeout) ;;
  raise_for_status r ;;;
  lift (json r).

(** [_extract_text]: subscripting raises [KeyError], [IndexError] or
    [TypeError] only, which are the three the function catches. *)
Definition _extract_text (response : pyval) : pyval :=
  match result_bind (getitem errmsg response "choices") (λ choices,
        result_bind (getitem0 errmsg choices) (λ first,
        result_bind (getitem errmsg first "message") (λ message,
        getitem errmsg message "content")))
  with
  | Ok text => text
  | Raise _ => PStr (str response)
  end.

(** [if s:] for an optional string *)
Definition opt_truthy (s : option string) : bool :=
  match s with
  | Some (String _ _) => true
  | _ => false
  end.

Definition build_messages (system : option string) (prompt : string) : pyval :=
  PList ((match system with
          | Some (String c s) =>
              [ PDict [ ("role", PStr "system"); ("content", PStr (String c s)) ] ]
          | _ => []
          end)
         ++ [ PDict [ ("role", PStr "user"); ("content", PStr prompt) ] ]).

(** [tier_map.get(detected_tier, ["fast"])] *)
Definition search_order (detected_tier : string) : list string :=
  if decide (detected_tier = "T1") then ["fast"]
  else if decide (detected_tier = "T2") then ["power"; "fast"]
  else if decide (detected_tier = "T3") then ["deep"; "power"; "fast"]
  else ["fast"].

(** [tier or cfg.classify_complexity(prompt)] *)
Definition detect_tier (cfg : SwarmConfig) (tier : option string) (prompt : string)
    : string :=
  match tier with
  | Some (String c s) => String c s
  | _ => classify_complexity cfg prompt
  end.

(** The inner loop of [auto_route] over the candidates of the tier [t]:
    [inl] is the [return] of the function, [inr] the value of [last_error]
    when the loop ends. *)
Fixpoint try_candidates (health : bool) (messages : pyval) (t : string)
    (timeout : Q * Q) (candidates : list ModelEntry) (last_error : option exn)
    : M state (RouteResult + option exn) :=
  match candidates with
  | [] => ret (inr last_error)
  | entry :: rest =>
      up <- gets (λ s, is_up (monitor s) (name (endpoint entry))) ;;
      if health && negb up
      then try_candidates health messages t timeout rest last_error
      else
        outcome <- attempt
          (t0 <- time_monotonic ;;
           resp <- logged entry
                     (_chat_completion (model_id entry) messages
                        (url (endpoint entry)) (api_key (endpoint entry)) timeout) ;;
           t1 <- time_monotonic ;;
           let latency := (t1 - t0)%Q in
           let text := _extract_text resp in
           ret {| r_model := model_id entry; r_tier := t;
                  r_response := text; r_latency_s := round2 latency |}) ;;
        match outcome with
        | Ok res => ret (inl res)
        | Raise exc => try_candidates health messages t timeout rest (Some exc)
        end
  end.

(** The outer loop of [auto_route] over the search order. *)
Fixpoint search_tiers (cfg : SwarmConfig) (health : bool) (messages : pyval)
    (order : list string) (last_error : option exn)
    : M state (RouteResult + option exn) :=
  match order with
  | [] => ret (inr last_error)
  | t :: order' =>
      let candidates := get_tier_models cfg t in
      let timeout := get_tier_timeout cfg t in
      r <- try_candidates health messages t timeout candidates last_error ;;
      match r with
      | inl res => ret (inl res)
      | inr last_error' => search_tiers cfg health messages order' last_error'
      end
  end.

(** The text of the [RuntimeError] that ends [auto_route]. *)
Definition exhausted_msg (detected_tier : string) (last_error : option exn) : string :=
  "All models exhausted for tier " +:+ detected_tier +:+ ". Last error: "
  +:+ match last_error with Some exc => exn_msg exc | None => "None" end.

Definition auto_route (prompt : string) (system : option string)
    (tier : option string) (cfg : SwarmConfig) (health : bool)
    : M state RouteResult :=
  refresh_if health ;;;
  let detected_tier := detect_tier cfg tier prompt in
  let messages := build_messages system prompt in
  r <- search_tiers cfg health messages (search_order detected_tier) None ;;
  match r with
  | inl res => ret res
  | inr last_error =>
      raise (Exn RuntimeError (exhausted_msg detected_tier last_error))
  end.

(** [consensus]: the default choice of models, the first registered entry
    of each tier that has one. *)
Definition default_models (cfg : SwarmConfig) : list ModelEntry :=
  flat_map (λ t, match get_tier_models cfg t with
                 | m :: _ => [m]
                 | [] => []
                 end)
           ["fast"; "power"; "deep"].

(** The nested function [_call] of [consensus]. *)
Definition _call (cfg : SwarmConfig) (health : bool) (messages_base : pyval)
    (entry : ModelEntry) : M state Answer :=
  up <- gets (λ s, is_up (monitor s) (name (endpoint entry))) ;;
  if health && negb up
  then ret {| a_model := model_id entry; a_response := PNone;
              a_latency_s := None;
              a_error := Some (name (endpoint entry) +:+ " unavailable") |}
  else
    let timeout := get_tier_timeout cfg (tier entry) in
    try_except
      (t0 <- time_monotonic ;;
       resp <- logged entry
                 (_chat_completion (model_id entry) messages_base
                    (url (endpoint entry)) (api_key (endpoint entry)) timeout) ;;
       t1 <- time_monotonic ;;
       let latency := (t1 - t0)%Q in
       ret {| a_model := model_id entry; a_response := _extract_text resp;
              a_latency_s := Some (round2 latency); a_error := None |})
      (λ exc, ret {| a_model := model_id entry; a_response := PNone;
                     a_latency_s := None; a_error := Some (exn_msg exc) |}).

(** What the loop over [as_completed] appends for one future. *)
Definition collect (outcome : result Answer) : Answer :=
  match outcome with
  | Ok r => r
  | Raise exc => {| a_model := "unknown"; a_response := PNone;
                    a_latency_s := None; a_error := Some (exn_msg exc) |}
  end.

(** [[r for r in results if r.get("response")]] *)
Definition successful_of (results : list Answer) : list Answer :=
  filter (λ r, truthy (a_response r) = true) results.

(** One block of the synthesis prompt, [i] counting from 1. *)
Definition synthesis_block (i : nat) (r : Answer) : string :=
  String "010" "--- Model " +:+ pretty i +:+ ": " +:+ a_model r +:+ " ---"
  +:+ String "010" (str (a_response r)) +:+ String "010" "".

Definition synthesis_prompt_of (prompt : string) (successful : list Answer) : string :=
  "You are a synthesis agent. Multiple AI models answered the same question."
  +:+ String "010" "Combine their insights into a single, comprehensive, non-redundant answer."
  +:+ String "010" (String "010" "ORIGINAL QUESTION:")
  +:+ String "010" prompt
  +:+ String "010" (String "010" "MODEL RESPONSES:") +:+ String "010" ""
  +:+ String.concat "" (imap (λ i r, synthesis_block (S i) r) successful)
  +:+ String "010" "SYNTHESIZED ANSWER:".

(** The literal concatenation that replaces a synthesis that failed. *)
Definition concatenation_of (successful : list Answer) : string :=
  join (String "010" (String "010" "---" +:+ String "010" (String "010" "")))
       (map (λ r, "[" +:+ a_model r +:+ "]" +:+ String "010" (str (a_response r)))
            successful).

(** The end of [consensus], from [successful = ...] on: the failure when
    nothing succeeded, and the synthesis with its fallback. *)
Definition synthesize (prompt : string) (cfg : SwarmConfig) (health : bool)
    (results : list Answer) : M state ConsensusResult :=
  let successful := successful_of results in
  match successful with
  | [] => raise (Exn RuntimeError "All consensus models failed.")
  | _ =>
      let synthesis_prompt := synthesis_prompt_of prompt successful in
      merged <- try_except
                  (merged_result <- auto_route synthesis_prompt None (Some "T2")
                                      cfg health ;;
                   ret (r_response merged_result))
                  (λ _, ret (PStr (concatenation_of successful))) ;;
      ret {| merged := merged; individual := results;
             model_count := length successful |}
  end.

Definition consensus (prompt : string) (models : option (list ModelEntry))
    (system : option string) (max_workers : Z) (call_timeout : Q)
    (cfg : SwarmConfig) (health : bool) : M state ConsensusResult :=
  refresh_if health ;;;
  let models := default (default_models cfg) models in
  let messages_base := build_messages system prompt in
  (* ThreadPoolExecutor(max_workers=max_workers) *)
  (if (max_workers <=? 0)%Z
   then raise (Exn ValueError (errmsg ValueError (PNum (inject_Z max_workers))))
   else ret tt) ;;;
  outcomes <- pool_as_completed (map (_call cfg health messages_base) models)
                (call_timeout + 10) ;;
  synthesize prompt cfg health (map collect outcomes).

(** The [try] block of [_knowledge_search]. *)
Definition search_request (knowledge_url query : string) : M state pyval :=
  let url := rstrip_slash knowledge_url +:+ "/search" in
  r <- on_world (session_post url None
                   (PDict [ ("query", PStr query);
                            ("query_type", PStr "GRAPH_COMPLETION") ])
                   (5, 30)%Q) ;;
  raise_for_status r ;;;
  data <- lift (json r) ;;
  match data with
  | PList _ => ret data
  | _ => lift (get errmsg data "results" (PList [data]))
  end.

Definition _knowledge_search (knowledge_url query : string) : M state pyval :=
  try_except (search_request knowledge_url query) (λ _, ret (PList [])).

Definition _knowledge_add (knowledge_url text dataset : string) : M state bool :=
  try_except
    (let url := rstrip_slash knowledge_url +:+ "/add" in
     r <- on_world (session_post url None
                      (PDict [ ("text", PStr text); ("dataset_name", PStr dataset) ])
                      (5, 60)%Q) ;;
     raise_for_status r ;;;
     ret true)
    (λ _, ret false).

(** [a or b] *)
Definition py_or (a b : pyval) : pyval := if truthy a then a else b.

(** [dict.get(k)] on a value known to be a [dict] *)
Definition dict_get (d : list (string * pyval)) (k : string) : pyval :=
  default PNone (dict_lookup k d).

(** The text of one item and the line made of its first 500 characters.
    A text that is a list is cut to 500 elements; a number, [True] or a
    [dict] cannot be sliced. *)
Definition context_line (i : nat) (item : pyval) : result string :=
  let text :=
    match item with
    | PDict d =>
        py_or (dict_get d "text")
          (py_or (dict_get d "content")
             (py_or (dict_get d "summary") (PStr (json_dumps item))))
    | _ => PStr (str item)
    end in
  result_bind
    (match text with
     | PStr s => Ok (PStr (str_take 500 s))
     | PList l => Ok (PList (take 500 l))
     | _ => Raise (Exn TypeError (errmsg TypeError text))
     end)
    (λ cut, Ok ("[" +:+ pretty i +:+ "] " +:+ str cut)).

(** [results[:5]]: the first five elements of a list, the first five
    characters of a string. *)
Definition first_five (results : pyval) : result (list pyval) :=
  match results with
  | PList l => Ok (take 5 l)
  | PStr s =>
      Ok (map (λ c, PStr (String c EmptyString)) (take 5 (list_ascii_of_string s)))
  | _ => Raise (Exn TypeError (errmsg TypeError results))
  end.

Fixpoint context_lines (i : nat) (items : list pyval) : result (list string) :=
  match items with
  | [] => Ok []
  | item :: items' =>
      result_bind (context_line i item) (λ line,
      result_bind (context_lines (S i) items') (λ lines, Ok (line :: lines)))
  end.

Definition _format_context (results : pyval) : result string :=
  if negb (truthy results) then Ok EmptyString
  else
    result_bind (first_five results) (λ items,
    result_bind (context_lines 1 items) (λ lines,
    Ok (join (String "010" "") ("RELEVANT KNOWLEDGE FROM MEMORY:" :: lines)))).

(** Step 2 of [pipeline]: the answer and [model_info]. *)
Definition generate (enriched_prompt : string) (use_consensus : bool)
    (tier : option string) (cfg : SwarmConfig) (health : bool)
    : M state (pyval * pyval) :=
  if use_consensus
  then
    result <- consensus enriched_prompt None None 5 90 cfg health ;;
    ret (merged result,
         PDict [ ("consensus", PBool true);
                 ("model_count", PNum (inject_Z (Z.of_nat (model_count result)))) ])
  else
    result <- auto_route enriched_prompt None tier cfg health ;;
    ret (r_response result,
         PDict [ ("model", PStr (r_model result));
                 ("tier", PStr (r_tier result)) ]).

Definition pipeline (prompt : string) (enrich store use_consensus : bool)
    (tier : option string) (cfg : SwarmConfig) (health : bool)
    : M state PipelineResult :=
  refresh_if health ;;;
  (* Step 1: retrieve context *)
  step1 <-
    (if enrich && opt_truthy (knowledge_url cfg)
     then
       context_results <- _knowledge_search (default EmptyString (knowledge_url cfg))
                            prompt ;;
       context_str <- lift (_format_context context_results) ;;
       match context_str with
       | EmptyString => ret (context_results, prompt)
       | _ => ret (context_results,
                   context_str +:+ String "010" (String "010" "USER QUESTION:")
                   +:+ String "010" prompt)
       end
     else ret (PList [], prompt)) ;;
  let '(context_results, enriched_prompt) := step1 in
  (* Step 2: generate the answer *)
  t0 <- time_monotonic ;;
  step2 <- generate enriched_prompt use_consensus tier cfg health ;;
  let '(answer, model_info) := step2 in
  t1 <- time_monotonic ;;
  let total_latency := (t1 - t0)%Q in
  (* Step 3: store the result; the thread is started and never joined *)
  (if store && opt_truthy (knowledge_url cfg)
   then
     stamp <- gets (λ s, gmtime_stamp (world s)) ;;
     let memory_text :=
       "Q: " +:+ prompt +:+ String "010" (String "010" "A: ") +:+ str answer
       +:+ String "010" (String "010" "Generated by: ") +:+ json_dumps model_info
       +:+ " at " +:+ stamp in
     _knowledge_add (default EmptyString (knowledge_url cfg)) memory_text
       "orchestrator" ;;;
     ret tt
   else ret tt) ;;;
  count <- lift (len errmsg context_results) ;;
  ret {| answer := answer;
         prompt_original := prompt;
         prompt_enriched := if enrich then enriched_prompt else prompt;
         context_results_count := count;
         model_info := model_info;
         total_latency_s := round2 total_latency;
         stored := store |}.

End Orchestrator.
End Orchestrator.


(** ** The words of the specification

    Notions the specification uses and the code computes in its own way. *)
Module Spec.
Import Py Config.

(** [p] occurs in [s] as a substring. *)
Definition occurs (p s : string) : Prop := ∃ a b, s = a +:+ p +:+ b.

(** [p] occurs in [s] when the case of letters is ignored. *)
Definition occurs_ignoring_case (p s : string) : Prop :=
  occurs (lower p) (lower s).

(** The number of white-space separated words: the positions where a
    character that is not white space follows white space or starts the
    string. *)
Fixpoint word_starts (after_space : bool) (s : string) : nat :=
  match s with
  | EmptyString => 0
  | String c s' =>
      (if after_space && negb (isspace c) then 1 else 0)
      + word_starts (isspace c) s'
  end.

Definition word_count (s : string) : nat := word_starts true s.

(** Some deep keyword is found in the lower-cased prompt, the way the code
    looks for it: the keyword itself is taken as it is written. *)
Definition deep_hit (cfg : SwarmConfig) (prompt : string) : Prop :=
  ∃ kw, kw ∈ deep_keywords cfg ∧ occurs kw (lower prompt).

(** [a] is never listed after [b] in [l]. *)
Definition ranked_above {A} (l : list A) (a b : A) : Prop :=
  ∀ l1 l2, l = (l1 ++ b :: l2)%list → a ∉ l2.

End Spec.

(** ** The words of the specification about sorting *)
Module SortSpec.
Import Py.

Section Keys.
Context {A : Type}.
Implicit Types (x y : Float64.float * A).

(** Ascending order of the keys, both numbers. *)
Definition key_le x y : Prop := Float64.leb x.1 y.1 = true.

(** The key is a number. *)
Definition numbered x : Prop := Float64.is_nan x.1 = false.

(** The elements whose key equals [k]. *)
Definition with_key (k : Float64.float) x : bool := Float64.eqb x.1 k.

(** The decorated list behind [sorted(l, key=key, reverse=True)]. *)
Definition decorated_desc (ks : list Float64.float) (l : list A)
    : list (Float64.float * A) :=
  rev (sort_keys (rev (zip ks l))).

Variable key : A → result Float64.float.

(** The pair carries the key of its element. *)
Definition keyed (p : Float64.float * A) : Prop := key p.2 = Ok p.1.

(** [a] and [b] have keys, and the key of [a] is at least the key of [b]. *)
Definition key_ge (a b : A) : Prop :=
  ∃ qa qb, key a = Ok qa ∧ key b = Ok qb ∧ Float64.leb qb qa = true.

(** [a] has a key, and it equals [k]. *)
Definition has_key (k : Float64.float) (a : A) : bool :=
  match key a with Ok q => Float64.eqb q k | Raise _ => false end.

(** Every key that [l] gives is a number. *)
Definition number_keys (l : list A) : Prop :=
  ∀ a q, a ∈ l → key a = Ok q → Float64.is_nan q = false.

End Keys.
End SortSpec.

(** ** The words of the specification about call results *)
Module SwarmSpec.
Import Py Config Machine Swarm.

(** The score of an "ok" result whose content is the non-empty text [text]:
    length, structure and speed, each a float, and their sum taken from the
    left. *)
Definition length_score (text : string) : Float64.float :=
  if (String.length text <? 50)%nat then Float64.truediv 1 10
  else Float64.min
         (Float64.div (Float64.of_Z (Z.of_nat (String.length text)))
                      (Float64.of_Z 500))
         (Float64.of_Z 3).

Definition structure_score (text : string) : Float64.float :=
  Float64.add
    (if contains "```" text then Float64.truediv 5 10 else Float64.of_Z 0)
    (if existsb (startswith "#") (splitlines_go EmptyString text)
     then Float64.truediv 3 10 else Float64.of_Z 0).

Definition speed_score (elapsed : Float64.float) : Float64.float :=
  Float64.max (Float64.of_Z 0)
    (Float64.sub (Float64.of_Z 1) (Float64.div elapsed (Float64.of_Z 30))).

Definition score_formula (text : string) (elapsed : Float64.float) : Float64.float :=
  Float64.add (Float64.add (length_score text) (structure_score text))
              (speed_score elapsed).

(** The score of a result that failed. *)
Definition failed_score : Float64.float := Float64.opp (Float64.of_Z 1).

(** A result [_score_result] can score: it is not "ok", or its content is
    false, or its content is text. *)
Definition scorable (r : CallResult) : Prop :=
  status r ≠ "ok" ∨ truthy (content r) = false ∨ ∃ text, content r = PStr text.

Section Envelope.
Context `{Runtime}.

(** [response["choices"][0]["message"]["content"]] *)
Definition message_content (response : pyval) : result pyval :=
  result_bind (getitem errmsg response "choices") (λ choices,
  result_bind (getitem0 errmsg choices) (λ first,
  result_bind (getitem errmsg first "message") (λ message,
  getitem errmsg message "content"))).

(** The request [call_model] awaits. *)
Definition awaited_post (entry : ModelEntry) (prompt : string) (timeout : Z)
    : World → option (result pyval) * World :=
  wait_for_http_post
    (rstrip_slash (url (endpoint entry)) +:+ "/v1/chat/completions")
    [ ("Content-Type", "application/json");
      ("Authorization", "Bearer " +:+ api_key (endpoint entry)) ]
    (PDict [ ("model", PStr (model_id entry));
             ("messages", PList [ PDict [ ("role", PStr "user");
                                          ("content", PStr prompt) ] ]);
             ("max_tokens", PNum 2048) ])
    timeout.

End Envelope.
End SwarmSpec.

(** ** A scripted runtime

    A world whose network answers are read from a script, for the concrete
    runs of the theorems below. *)
Module Script.
Import Py Config Health Machine Swarm.

Record world : Type := {
  posts : list (result Response);   (* what each [_SESSION.post] ends in *)
  probes : list (result Response);  (* what each [requests.get] ends in *)
  urlopens : list (result pyval);   (* what each awaited [_http_post] ends in *)
  picks : option (list nat);        (* [None]: every future meets the deadline *)
  clock : Q
}.

Definition refused : exn := Exn TransportError "connection refused".

Definition tick (w : world) (ps gs us : list _) : world :=
  {| posts := ps; probes := gs; urlopens := us; picks := picks w;
     clock := (clock w + 1)%Q |}.

Definition script_post (w : world) : result Response * world :=
  match posts w with
  | r :: ps => (r, tick w ps (probes w) (urlopens w))
  | [] => (Raise refused, tick w [] (probes w) (urlopens w))
  end.

Definition script_get (w : world) : result Response * world :=
  match probes w with
  | r :: gs => (r, tick w (posts w) gs (urlopens w))
  | [] => (Raise refused, tick w (posts w) [] (urlopens w))
  end.

Definition script_urlopen (w : world) : result pyval * world :=
  match urlopens w with
  | r :: us => (r, tick w (posts w) (probes w) us)
  | [] => (Raise refused, tick w (posts w) (probes w) [])
  end.

Definition runtime : Runtime := {|
  World := world;
  session_post := λ _ _ _ _, script_post;
  requests_get := λ _ _ _, script_get;
  wait_for_http_post := λ _ _ _ _ w, let '(r, w') := script_urlopen w in (Some r, w');
  monotonic := clock;
  gmtime_stamp := λ _, "1970-01-01T00:00:00Z";
  completion_picks := λ n _ w, default (replicate n 0%nat) (picks w);
  repr := λ _, "<object>";
  json_dumps := λ _, "<json>";
  errmsg := λ _ _, "<error>"
|}.

(** A world with the given scripts, every future in time, the clock at 0. *)
Definition world_of_scripts (ps gs : list (result Response))
    (us : list (result pyval)) : world :=
  {| posts := ps; probes := gs; urlopens := us; picks := None; clock := 0 |}.

(** A completion envelope whose message content is [v]. *)
Definition envelope (v : pyval) : pyval :=
  PDict [ ("choices", PList [ PDict [ ("message", PDict [ ("content", v) ]) ] ]) ].

Definition http_ok (body : pyval) : result Response :=
  Ok {| status_code := 200; json := Ok body |}.

Definition local : Endpoint :=
  {| url := "http://localhost:4000"; api_key := "sk-default"; name := "primary" |}.

Definition entry (mid t : string) : ModelEntry :=
  {| model_id := mid; tier := t; endpoint := local; expected_latency_s := 10 |}.

(** The configuration whose only model is registered in the tier "fast". *)
Definition cfg_fast_only : SwarmConfig :=
  add_model (SwarmConfig_default local) "fast-model-id" "fast" None 10.

(** A configuration whose single deep keyword has a capital letter. *)
Definition cfg_capital_keyword : SwarmConfig := {|
  primary := local; secondary := None; knowledge_url := None;
  timeout_fast := (5, 30)%Q; timeout_power := (5, 60)%Q; timeout_deep := (5, 120)%Q;
  models := []; t1_max_words := 20; t2_max_words := 60;
  deep_keywords := {[ "Why" ]}
|}.

(** A text of [n] characters without structure. *)
Fixpoint filler (n : nat) : string :=
  match n with
  | O => EmptyString
  | S n' => String "x" (filler n')
  end.

(** Results whose elapsed time is a whole number of seconds. *)
Definition ok_result (mid : string) (text : string) (elapsed : Z) : CallResult :=
  {| model := mid; status := "ok"; elapsed_s := Float64.of_Z elapsed;
     content := PStr text; error := None; tokens := PNone |}.

Definition timeout_result (mid : string) (elapsed : Z) : CallResult :=
  {| model := mid; status := "timeout"; elapsed_s := Float64.of_Z elapsed;
     content := PNone; error := None; tokens := PNone |}.

Definition r_long : CallResult := ok_result "a" (filler 600) 2.
Definition r_short : CallResult := ok_result "b" (filler 30) 2.
Definition r_short' : CallResult := ok_result "c" (filler 30) 2.
Definition r_timeout : CallResult := timeout_result "d" 60.
(** An answer of the backend whose text is empty. *)
Definition r_empty : CallResult := ok_result "e" EmptyString 2.
(** Two results whose scores are 4/5 in the rationals and differ by one
    unit in the last place in floats: 0.1 + 0.7 and 0.2 + 0.6. *)
Definition r_20_at_9 : CallResult := ok_result "f" (filler 20) 9.
Definition r_100_at_12 : CallResult := ok_result "g" (filler 100) 12.

(** The state a run starts in: a fresh monitor and an empty ghost log. *)
Definition start (w : world) : @Orchestrator.state runtime :=
  @Orchestrator.Build_state runtime w init [].

(** The only model of [cfg_fast_only]. *)
Definition fast_entry : ModelEntry := entry "fast-model-id" "fast".

(** A backend that answers "Hello" to the first completion request. *)
Definition hello_world : world :=
  world_of_scripts [ http_ok (envelope (PStr "Hello")) ] [] [].

(** Two models, the first of which answers while the second is still
    running when the wait ends. *)
Definition cfg_two : SwarmConfig :=
  add_model (add_model (SwarmConfig_default local) "quick" "fast" None 10)
            "slow" "deep" None 10.

Definition one_late_world : world :=
  {| posts := [ http_ok (envelope (PStr "A")); http_ok (envelope (PStr "B")) ];
     probes := []; urlopens := []; picks := Some [0%nat]; clock := 0 |}.

(** A knowledge store that cannot be reached, and a backend that answers. *)
Definition cfg_knowledge : SwarmConfig := {|
  primary := local; secondary := None; knowledge_url := Some "http://localhost:8080/api/v1";
  timeout_fast := (5, 30)%Q; timeout_power := (5, 60)%Q; timeout_deep := (5, 120)%Q;
  models := [fast_entry]; t1_max_words := 20; t2_max_words := 60;
  deep_keywords := default_deep_keywords
|}.

Definition store_down_world : world :=
  world_of_scripts [ Raise refused; http_ok (envelope (PStr "Hello")) ] [] [].

(** [store_down_world] after the search request was refused. *)
Definition store_down_after : world :=
  {| posts := [ http_ok (envelope (PStr "Hello")) ]; probes := []; urlopens := [];
     picks := None; clock := 1 |}.

Definition dead_world : world := world_of_scripts [] [] [].

End Script.


(** ** The words of the specification about routing *)
Module RouteSpec.
Import Py Eff Config Health Machine Orchestrator.
Local Open Scope list_scope.

(** The candidates of a detected tier, in the order of the search: the tiers
    of the fallback order, each with its entries in registration order. *)
Definition candidates_of (cfg : SwarmConfig) (detected_tier : string) : list ModelEntry :=
  flat_map (get_tier_models cfg) (search_order detected_tier).

(** The candidate is not skipped: no monitor was passed, or the monitor [h]
    reports the endpoint of the entry up. *)
Definition eligible (health : bool) (h : ServiceHealth) (e : ModelEntry) : bool :=
  negb health || is_up h (name (endpoint e)).

(** The request of the ghost log ended in an exception. *)
Definition failed (p : ModelEntry * option exn) : Prop := is_Some p.2.

(** The value of [last_error] after the requests of [trace], starting from
    [last]. *)
Fixpoint final_error (last : option exn) (trace : list (ModelEntry * option exn))
    : option exn :=
  match trace with
  | [] => last
  | (_, err) :: trace' =>
      final_error (match err with Some e => Some e | None => last end) trace'
  end.

(** The monitor [h] has never heard of the service [n]. *)
Definition unknown_to (h : ServiceHealth) (n : string) : Prop :=
  _endpoints h !! n = None ∧ _status h !! n = None.

(** The outcomes of the probes of [self] name registered services only. *)
Definition probed (self : ServiceHealth) (o : result (string * bool)) : Prop :=
  match o with
  | Ok (n, _) => is_Some (_endpoints self !! n)
  | Raise _ => True
  end.

(** What one run of the search gives: [trace] is what it adds to the ghost
    log.  A result comes from the first eligible candidate whose request
    succeeds, every eligible candidate before it having failed; without a
    result every eligible candidate was asked, in order, and failed. *)
Definition search_outcome (cands : list ModelEntry) (last : option exn)
    (trace : list (ModelEntry * option exn)) (r : RouteResult + option exn) : Prop :=
  match r with
  | inl res =>
      ∃ before e rest,
        cands = before.*1 ++ e :: rest
        ∧ trace = before ++ [(e, None)]
        ∧ Forall failed before
        ∧ r_model res = model_id e ∧ r_tier res = tier e
  | inr last' =>
      trace.*1 = cands ∧ Forall failed trace ∧ last' = final_error last trace
  end.

Section Tasks.
Context `{Runtime}.

(** "[model]" and, on the next line, the answer. *)
Definition labelled (a : Answer) : string :=
  "[" +:+ a_model a +:+ "]" +:+ String "010" (str (a_response a)).

(** A blank line, three dashes and another blank line. *)
Definition separator : string :=
  String "010" (String "010" ("---" +:+ String "010" (String "010" EmptyString))).

(** The literal concatenation of the labelled answers: the first, and then
    each of the others after a separator. *)
Definition labelled_answers (successful : list Answer) : string :=
  match successful with
  | [] => EmptyString
  | a :: others =>
      foldl (λ text b, text +:+ separator +:+ labelled b) (labelled a) others
  end.

(** The search request failed: the store could not be reached, or answered
    with an error status, or with a body that is no JSON, or with JSON that
    is neither a list nor an object. *)
Definition search_fails (outcome : result Response) : Prop :=
  match outcome with
  | Raise _ => True
  | Ok r =>
      (400 ≤ status_code r < 600)%Z
      ∨ match json r with
        | Raise _ => True
        | Ok (PList _) | Ok (PDict _) => False
        | Ok _ => True
        end
  end.

(** The tasks [consensus] submits to its pool. *)
Definition consensus_tasks (prompt : string) (models : option (list ModelEntry))
    (system : option string) (cfg : SwarmConfig) (health : bool)
    : list (M state Answer) :=
  map (_call cfg health (build_messages system prompt))
      (default (default_models cfg) models).

End Tasks.

End RouteSpec.

(** ** What a computation leaves alone *)
Module Frame.
Import Py Eff.

(** The computation [m] never changes the part [f] of the state. *)
Definition keeps {St X A} (f : St → X) (m : M St A) : Prop :=
  ∀ s, f (m s).2 = f s.

End Frame.

(** ** config.py: the configuration read from the environment

    [os.environ] is a finite map from names to values; [float] is the
    builtin that reads a number, a [ValueError] when the text is none. *)
Module ConfigEnv.
Import Py Config.

Section Environ.
Variable float : string → result Q.

(** [if v:] for what [os.environ.get] returned *)
Definition env_set (v : option string) : bool :=
  match v with
  | Some (String _ _) => true
  | _ => false
  end.

(** The default of the field [primary]. *)
Definition primary_of_env (env : gmap string string) : Endpoint := {|
  url := default "http://localhost:4000" (env !! "SWARM_PRIMARY_URL");
  api_key := default "sk-default" (env !! "SWARM_PRIMARY_KEY");
  name := "primary"
|}.

(** One of the three blocks [tf = os.environ.get(...); if tf: ...]. *)
Definition timeout_of_env (env : gmap string string) (variable : string)
    (current : Q * Q) : result (Q * Q) :=
  if env_set (env !! variable)
  then result_bind (float (default EmptyString (env !! variable)))
         (λ seconds, Ok (5%Q, seconds))
  else Ok current.

(** [__post_init__], run on the fields the constructor was given. *)
Definition __post_init__ (env : gmap string string) (self : SwarmConfig)
    : result SwarmConfig :=
  let sec_url := env !! "SWARM_SECONDARY_URL" in
  let sec_key := env !! "SWARM_SECONDARY_KEY" in
  let secondary' :=
    match secondary self with
    | None =>
        if env_set sec_url && env_set sec_key
        then Some {| url := default EmptyString sec_url;
                     api_key := default EmptyString sec_key;
                     name := "secondary" |}
        else None
    | Some given => Some given
    end in
  let knowledge_url' :=
    match knowledge_url self with
    | None => env !! "SWARM_KNOWLEDGE_URL"
    | Some given => Some given
    end in
  result_bind (timeout_of_env env "SWARM_TIMEOUT_FAST" (timeout_fast self)) (λ tf,
  result_bind (timeout_of_env env "SWARM_TIMEOUT_POWER" (timeout_power self)) (λ tp,
  result_bind (timeout_of_env env "SWARM_TIMEOUT_DEEP" (timeout_deep self)) (λ td,
  Ok {| primary := primary self;
        secondary := secondary';
        knowledge_url := knowledge_url';
        timeout_fast := tf;
        timeout_power := tp;
        timeout_deep := td;
        models := models self;
        t1_max_words := t1_max_words self;
        t2_max_words := t2_max_words self;
        deep_keywords := deep_keywords self |}))).

(** [SwarmConfig()] with no argument. *)
Definition SwarmConfig_new (env : gmap string string) : result SwarmConfig :=
  __post_init__ env (SwarmConfig_default (primary_of_env env)).

Definition default_config (env : gmap string string) : result SwarmConfig :=
  result_bind (SwarmConfig_new env) (λ cfg,
    if bool_decide (models cfg = [])
       && negb (bool_decide (api_key (primary cfg) = "sk-default"))
    then Ok (add_model cfg "default" "fast" None 5)
    else Ok cfg).

End Environ.
End ConfigEnv.

(** ** Further notions for the properties of the package *)
Module MoreSpec.
Import Py Config.

(** The tiers of complexity in their order; anything else ranks lowest. *)
Definition tier_rank (t : string) : nat :=
  if decide (t = "T3") then 3
  else if decide (t = "T2") then 2
  else if decide (t = "T1") then 1
  else 0.

(** The entry [add_model] registers. *)
Definition registered (cfg : SwarmConfig) (mid t : string) (ep : option Endpoint)
    (lat : Q) : ModelEntry :=
  {| model_id := mid; tier := t; endpoint := default (primary cfg) ep;
     expected_latency_s := lat |}.

(** Every registered service has a status and nothing else has one. *)
Definition tracked (h : Health.ServiceHealth) : Prop :=
  ∀ n, is_Some (Health._endpoints h !! n) ↔ is_Some (Health._status h !! n).

(** An entry of [individual] has a latency exactly when it has no error,
    and a response only when it has no error. *)
Definition well_formed (a : Orchestrator.Answer) : Prop :=
  (Orchestrator.a_error a = None ↔ is_Some (Orchestrator.a_latency_s a))
  ∧ (Orchestrator.a_response a ≠ PNone → Orchestrator.a_error a = None).

End MoreSpec.

(** ** cli.py: the monitor built from a configuration *)
Module Cli.
Import Py Config Health.

(** [s.replace(old, new)] for a non-empty [old]: the occurrences are found
    from the left and do not overlap.  [skip] counts the characters of an
    occurrence still to be dropped. *)
Fixpoint replace_go (old new : string) (skip : nat) (s : string) : string :=
  match s with
  | EmptyString => EmptyString
  | String c s' =>
      match skip with
      | S k => replace_go old new k s'
      | O =>
          if startswith old s
          then new +:+ replace_go old new (String.length old - 1) s'
          else String c (replace_go old new 0 s')
      end
  end.

Definition replace (old new s : string) : string := replace_go old new 0 s.

Definition _build_health (config : SwarmConfig) : ServiceHealth :=
  let h := init in
  let h :=
    register h "primary" (url (primary config) +:+ "/health/liveliness")
      (Some [ ("Authorization", "Bearer " +:+ api_key (primary config)) ]) in
  let h :=
    match secondary config with
    | Some sec =>
        register h "secondary" (url sec +:+ "/health/liveliness")
          (Some [ ("Authorization", "Bearer " +:+ api_key sec) ])
    | None => h
    end in
  match knowledge_url config with
  | Some (String c k) =>
      let base := rstrip_slash (replace "/api/v1" EmptyString (String c k)) in
      register h "knowledge" (base +:+ "/") None
  | _ => h
  end.

End Cli.

(** ** mcp_bridge.py: the JSON-RPC dispatcher

    The three tools and the list [TOOLS] that describes them are left
    open: the dispatcher treats them alike. *)
Module Bridge.
Import Py Eff Eff.Notations Config Machine.

Section Dispatcher.
Context `{Runtime} {St : Type}.
Variable TOOLS : pyval.
Variables _tool_query _tool_swarm _tool_status : pyval → SwarmConfig → M St string.

Definition TOOL_HANDLERS (tool_name : string)
    : option (pyval → SwarmConfig → M St string) :=
  if decide (tool_name = "swarm_query") then Some _tool_query
  else if decide (tool_name = "swarm_call") then Some _tool_swarm
  else if decide (tool_name = "swarm_status") then Some _tool_status
  else None.

(** [TOOL_HANDLERS.get(tool_name)]: a list or a dict cannot be hashed. *)
Definition handlers_get (tool_name : pyval)
    : result (option (pyval → SwarmConfig → M St string)) :=
  match tool_name with
  | PStr n => Ok (TOOL_HANDLERS n)
  | PList _ | PDict _ => Raise (Exn TypeError (errmsg TypeError tool_name))
  | _ => Ok None
  end.

(** The answer to [tools/call]. *)
Definition text_result (req_id : pyval) (text : string) (is_error : bool) : pyval :=
  PDict [ ("jsonrpc", PStr "2.0");
          ("id", req_id);
          ("result", PDict [ ("content", PList [ PDict [ ("type", PStr "text");
                                                         ("text", PStr text) ] ]);
                             ("isError", PBool is_error) ]) ].

Definition handle_request (request : pyval) (config : SwarmConfig)
    : M St (option pyval) :=
  method <- lift (get errmsg request "method" (PStr EmptyString)) ;;
  params <- lift (get errmsg request "params" (PDict [])) ;;
  req_id <- lift (get errmsg request "id" PNone) ;;
  match method with
  | PStr m =>
      if decide (m = "initialize")
      then ret (Some (PDict
             [ ("jsonrpc", PStr "2.0");
               ("id", req_id);
               ("result",
                PDict [ ("protocolVersion", PStr "2024-11-05");
                        ("capabilities",
                         PDict [ ("tools", PDict [ ("listChanged", PBool false) ]) ]);
                        ("serverInfo",
                         PDict [ ("name", PStr "swarm-router-mcp");
                                 ("version", PStr "0.1.0") ]) ]) ]))
      else if startswith "notifications/" m then ret None
      else if decide (m = "tools/list")
      then ret (Some (PDict [ ("jsonrpc", PStr "2.0");
                              ("id", req_id);
                              ("result", PDict [ ("tools", TOOLS) ]) ]))
      else if decide (m = "tools/call")
      then
        tool_name <- lift (get errmsg params "name" (PStr EmptyString)) ;;
        arguments <- lift (get errmsg params "arguments" (PDict [])) ;;
        handler <- lift (handlers_get tool_name) ;;
        match handler with
        | None =>
            ret (Some (text_result req_id ("Unknown tool: " +:+ str tool_name) true))
        | Some h =>
            try_except
              (result_text <- h arguments config ;;
               ret (Some (text_result req_id result_text false)))
              (λ exc,
                 ret (Some (text_result req_id ("Tool error: " +:+ exn_msg exc) true)))
        end
      else
        ret (Some (PDict [ ("jsonrpc", PStr "2.0");
                           ("id", req_id);
                           ("error",
                            PDict [ ("code", PNum (-32601));
                                    ("message",
                                     PStr ("Method not found: " +:+ m)) ]) ]))
  | _ =>
      (* [method == "initialize"] is false, [method.startswith] is missing *)
      raise (Exn AttributeError (errmsg AttributeError method))
  end.

End Dispatcher.
End Bridge.

(** ** Further concrete runs *)
Module Runs.
Import Py Config Health Machine.

(** A [float] that reads the decimal numerals without sign or point. *)
Fixpoint digits (acc : Z) (s : string) : option Z :=
  match s with
  | EmptyString => Some acc
  | String c s' =>
      let n := Z.of_nat (nat_of_ascii c) in
      if ((48 <=? n) && (n <=? 57))%Z then digits (10 * acc + (n - 48)) s' else None
  end.

Definition float (s : string) : result Q :=
  match s, digits 0 s with
  | String _ _, Some z => Ok (inject_Z z)
  | _, _ => Raise (Exn ValueError ("could not convert string to float: " +:+ s))
  end.

(** An environment that sets the timeout of the tier "fast" and the
    knowledge store. *)
Definition env_fast_45 : gmap string string :=
  {[ "SWARM_TIMEOUT_FAST" := "45"; "SWARM_KNOWLEDGE_URL" := "http://localhost:8080/api/v1" ]}.

(** A monitor that watches the primary endpoint, and a world in which the
    first probe is answered. *)
Definition watched : ServiceHealth :=
  register init "primary" "http://localhost:4000/health/liveliness" None.

Definition primary_up : Script.world :=
  Script.world_of_scripts [] [ Script.http_ok PNone ] [].

(** A configuration without models. *)
Definition cfg_empty : SwarmConfig := SwarmConfig_default Script.local.

(** A knowledge store that answers the search with one fact, and a backend
    that answers the completion request. *)
Definition one_fact : pyval := PList [ PDict [ ("text", PStr "fact") ] ].

Definition store_up_world : Script.world :=
  Script.world_of_scripts
    [ Script.http_ok one_fact; Script.http_ok (Script.envelope (PStr "Hello")) ] [] [].

(** A knowledge store whose answer holds a number where the results go. *)
Definition store_odd_world : Script.world :=
  Script.world_of_scripts [ Script.http_ok (PDict [ ("results", PNum 5) ]) ] [] [].

(** The context [_format_context] makes of [one_fact]. *)
Definition one_fact_context : string :=
  "RELEVANT KNOWLEDGE FROM MEMORY:" +:+ String "010" "[1] fact".

(** [store_odd_world] after the search request. *)
Definition store_odd_after : Script.world :=
  {| Script.posts := []; Script.probes := []; Script.urlopens := [];
     Script.picks := None; Script.clock := 1 |}.

(** A tool that answers "done" and one that fails. *)
Definition tool_done : pyval → SwarmConfig → Eff.M Script.world string :=
  λ _ _, Eff.ret "done".

Definition tool_fails : pyval → SwarmConfig → Eff.M Script.world string :=
  λ _ _, Eff.raise (Exn RuntimeError "backend down").

(** A request that calls the tool "swarm_call" and one for a method the
    bridge does not have. *)
Definition call_request : pyval :=
  PDict [ ("jsonrpc", PStr "2.0"); ("id", PNum 7); ("method", PStr "tools/call");
          ("params", PDict [ ("name", PStr "swarm_call");
                             ("arguments", PDict [ ("prompt", PStr "Hi") ]) ]) ].

(** Three models in the tier "fast". *)
Definition cfg_three_fast : SwarmConfig :=
  add_model (add_model (add_model (SwarmConfig_default Script.local)
                          "one" "fast" None 10)
               "two" "fast" None 10)
    "three" "fast" None 10.

(** A backend whose only answer is the empty text. *)
Definition empty_answer_world : Script.world :=
  Script.world_of_scripts [ Script.http_ok (Script.envelope (PStr EmptyString)) ] [] [].

(** A backend that answers "A", then "B", and then refuses. *)
Definition two_answer_world : Script.world :=
  Script.world_of_scripts
    [ Script.http_ok (Script.envelope (PStr "A"));
      Script.http_ok (Script.envelope (PStr "B")) ] [] [].

(** The state after the two calls of [consensus] on [Script.cfg_two] were
    answered. *)
Definition two_answer_after : @Orchestrator.state Script.runtime :=
  @Orchestrator.Build_state Script.runtime
    {| Script.posts := []; Script.probes := []; Script.urlopens := [];
       Script.picks := None; Script.clock := 2 |}
    Health.init
    [ (Script.entry "quick" "fast", None); (Script.entry "slow" "deep", None) ].

(** A knowledge store whose answer holds [true] where the results go, and a
    backend that would answer. *)
Definition store_true_world : Script.world :=
  Script.world_of_scripts
    [ Script.http_ok (PDict [ ("results", PBool true) ]);
      Script.http_ok (Script.envelope (PStr "Hello")) ] [] [].

End Runs.

(** * Properties *)

(** ** The builtins against the words of the specification *)
Module PyFacts.
Import Py Spec.

Lemma app_cons (c : ascii) (s t : string) :
  String c s +:+ t = String c (s +:+ t).
Proof. reflexivity. Qed.

Lemma app_nil (t : string) : EmptyString +:+ t = t.
Proof. reflexivity. Qed.

Ltac norm_app := rewrite ?app_cons, ?app_nil in *.

Lemma startswith_spec (p s : string) :
  startswith p s = true ↔ ∃ b, s = p +:+ b.
Proof.
  revert s. induction p as [|a p IH]; intros s; simpl.
  - split; [intros _; by exists s | done].
  - destruct s as [|c s]; simpl.
    + split; [done | intros [b Hb]; norm_app; discriminate].
    + destruct (decide (a = c)) as [->|Hne].
      * rewrite IH. split; intros [b Hb]; exists b; norm_app; congruence.
      * split; [done | intros [b Hb]; norm_app; congruence].
Qed.

Lemma contains_spec (p s : string) : contains p s = true ↔ occurs p s.
Proof.
  unfold occurs. induction s as [|c s IH]; simpl.
  - rewrite orb_false_r, startswith_spec. split.
    + intros [b Hb]. by exists EmptyString, b.
    + intros [a [b Hab]]. destruct a; norm_app; [by exists b | discriminate].
  - rewrite orb_true_iff, startswith_spec, IH. split.
    + intros [[b Hb]|[a [b Hab]]].
      * by exists EmptyString, b.
      * exists (String c a), b. norm_app. by rewrite Hab.
    + intros [a [b Hab]]. destruct a as [|c' a]; norm_app.
      * left. by exists b.
      * right. exists a, b. congruence.
Qed.

Lemma app_empty_r (s : string) : s +:+ EmptyString = s.
Proof. induction s as [|c s IH]; [done|]. by rewrite app_cons, IH. Qed.

Lemma app_assoc_str (a b c : string) : (a +:+ b) +:+ c = a +:+ b +:+ c.
Proof. induction a as [|x a IH]; [done|]. by rewrite !app_cons, IH. Qed.

Lemma occurs_empty (s : string) : occurs EmptyString s.
Proof. by exists EmptyString, s. Qed.

Lemma occurs_refl (s : string) : occurs s s.
Proof. exists EmptyString, EmptyString. by rewrite app_nil, app_empty_r. Qed.

Lemma occurs_app_r (p s t : string) : occurs s t → occurs s (p +:+ t).
Proof.
  intros (a & b & ->). exists (p +:+ a), b. by rewrite app_assoc_str.
Qed.

Lemma occurs_app_l (p s t : string) : occurs s t → occurs s (t +:+ p).
Proof.
  intros (a & b & ->). exists a, (b +:+ p). by rewrite !app_assoc_str.
Qed.

Lemma occurs_cons (c : ascii) (s t : string) : occurs s t → occurs s (String c t).
Proof. intros (a & b & ->). by exists (String c a), b. Qed.

Lemma occurs_concat {A} (g : A → string) (f : nat → A → string) (l : list A) (x : A) :
  (∀ i y, occurs (g y) (f i y)) → x ∈ l →
  occurs (g x) (String.concat EmptyString (imap f l)).
Proof.
  revert f. induction l as [|y l IH]; intros f Hf Hin.
  - by apply elem_of_nil in Hin.
  - rewrite imap_cons. apply elem_of_cons in Hin as [->|Hin].
    + simpl. destruct (imap (f ∘ S) l); [apply Hf|].
      apply occurs_app_l, Hf.
    + specialize (IH (f ∘ S) (λ i y, Hf (S i) y) Hin). simpl.
      destruct (imap (f ∘ S) l) eqn:E.
      * simpl in IH. destruct IH as (a & b & Hab).
        destruct a; norm_app; [|discriminate].
        destruct (g x); norm_app; [|discriminate]. apply occurs_empty.
      * rewrite app_nil. by apply occurs_app_r.
Qed.

Lemma split_go_length (cur s : string) :
  length (split_go cur s) =
  match cur with
  | EmptyString => word_starts true s
  | _ => S (word_starts false s)
  end.
Proof.
  revert cur. induction s as [|c s IH]; intros cur; simpl.
  - by destruct cur.
  - destruct (isspace c) eqn:Hc; simpl.
    + destruct cur; simpl; by rewrite IH.
    + rewrite IH. destruct cur; simpl; done.
Qed.

Lemma split_length (s : string) : length (split s) = word_count s.
Proof. apply (split_go_length EmptyString). Qed.

End PyFacts.

(** ** config.py: the classifier *)
Module ConfigFacts.
Import Py Spec Config PyFacts.

Lemma has_deep_spec (cfg : SwarmConfig) (prompt : string) :
  existsb (λ kw, contains kw (lower prompt)) (elements (deep_keywords cfg)) = true
  ↔ deep_hit cfg prompt.
Proof.
  unfold deep_hit. rewrite existsb_exists. split.
  - intros [kw [Hin Hc]]. exists kw. split.
    + apply elem_of_elements. by apply list_elem_of_In.
    + by apply contains_spec.
  - intros [kw [Hin Hc]]. exists kw. split.
    + apply list_elem_of_In. by apply elem_of_elements.
    + by apply contains_spec.
Qed.

Lemma classify_cases (cfg : SwarmConfig) (prompt : string) :
  let w := Z.of_nat (word_count prompt) in
  (deep_hit cfg prompt ∨ (t2_max_words cfg < w)%Z)
    ∧ classify_complexity cfg prompt = "T3"
  ∨ ¬ (deep_hit cfg prompt ∨ (t2_max_words cfg < w)%Z)
    ∧ (t1_max_words cfg < w)%Z ∧ classify_complexity cfg prompt = "T2"
  ∨ ¬ (deep_hit cfg prompt ∨ (t2_max_words cfg < w)%Z)
    ∧ (w ≤ t1_max_words cfg)%Z ∧ classify_complexity cfg prompt = "T1".
Proof.
  intros w. unfold classify_complexity. rewrite split_length. fold w.
  destruct (existsb _ _) eqn:Hd; simpl.
  - left. split; [left; by apply has_deep_spec | done].
  - assert (¬ deep_hit cfg prompt) as Hnd.
    { intros Hh. apply has_deep_spec in Hh. congruence. }
    destruct (Z.ltb_spec (t2_max_words cfg) w) as [H2|H2].
    + left. split; [by right | done].
    + destruct (Z.ltb_spec (t1_max_words cfg) w) as [H1|H1].
      * right. left. split; [|done]. intros [?|?]; [done | lia].
      * right. right. split; [|done]. intros [?|?]; [done | lia].
Qed.

Lemma why_is_default_keyword : "why" ∈ default_deep_keywords.
Proof. unfold default_deep_keywords. set_solver. Qed.

Lemma default_keywords_lower (kw : string) :
  kw ∈ default_deep_keywords → lower kw = kw.
Proof.
  unfold default_deep_keywords. rewrite elem_of_list_to_set.
  rewrite !elem_of_cons, elem_of_nil.
  intros H. repeat (destruct H as [->|H]; [reflexivity|]). done.
Qed.

(** C2 (as the code has it): the tier is a function of the prompt, the two
    thresholds and the keyword set.  It is "T3" exactly when some deep
    keyword occurs, as it is written, in the lower-cased prompt or the number
    of white-space separated words exceeds [t2_max_words]; otherwise "T2"
    exactly when that number exceeds [t1_max_words]; otherwise "T1".  For
    keywords written in lower case the test is the search that ignores case,
    and with the default keywords the prompt "why" is "T3" whatever the
    thresholds. *)
Theorem classify_complexity_tiers (cfg : SwarmConfig) (prompt : string) :
  let w := Z.of_nat (word_count prompt) in
  let deep := deep_hit cfg prompt ∨ (t2_max_words cfg < w)%Z in
  (classify_complexity cfg prompt = "T3" ↔ deep)
  ∧ (classify_complexity cfg prompt = "T2" ↔ ¬ deep ∧ (t1_max_words cfg < w)%Z)
  ∧ (classify_complexity cfg prompt = "T1" ↔ ¬ deep ∧ (w ≤ t1_max_words cfg)%Z)
  ∧ ((∀ kw, kw ∈ deep_keywords cfg → lower kw = kw) →
     (deep_hit cfg prompt ↔
      ∃ kw, kw ∈ deep_keywords cfg ∧ occurs_ignoring_case kw prompt))
  ∧ (deep_keywords cfg = default_deep_keywords →
     classify_complexity cfg "why" = "T3").
Proof.
  intros w deep. repeat split.
  - intros HT. destruct (classify_cases cfg prompt) as [[? ?]|[(?&?&?)|(?&?&?)]];
      [done | congruence | congruence].
  - intros Hd. destruct (classify_cases cfg prompt) as [[? ?]|[(?&?&?)|(?&?&?)]];
      [done | by exfalso | by exfalso].
  - destruct (classify_cases cfg prompt) as [[? ?]|[(?&?&?)|(?&?&?)]];
      [congruence | done | congruence].
  - destruct (classify_cases cfg prompt) as [[? ?]|[(?&?&?)|(?&?&?)]];
      [congruence | done | congruence].
  - intros [Hd Hw]. destruct (classify_cases cfg prompt) as [[? ?]|[(?&?&?)|(?&?&?)]];
      [by exfalso | done | subst w; lia].
  - destruct (classify_cases cfg prompt) as [[? ?]|[(?&?&?)|(?&?&?)]];
      [congruence | congruence | done].
  - destruct (classify_cases cfg prompt) as [[? ?]|[(?&?&?)|(?&?&?)]];
      [congruence | congruence | done].
  - intros [Hd Hw]. destruct (classify_cases cfg prompt) as [[? ?]|[(?&?&?)|(?&?&?)]];
      [by exfalso | subst w; lia | done].
  - intros [kw [Hin Ho]]. exists kw. split; [done|].
    unfold occurs_ignoring_case. by rewrite (H kw Hin).
  - intros [kw [Hin Ho]]. exists kw. split; [done|].
    unfold occurs_ignoring_case in Ho. by rewrite (H kw Hin) in Ho.
  - intros HK.
    assert (deep_hit cfg "why") as Hh.
    { exists "why". split; [rewrite HK; apply why_is_default_keyword|].
      by exists EmptyString, EmptyString. }
    destruct (classify_cases cfg "why") as [[? ?]|[(Hn&?&?)|(Hn&?&?)]];
      [done | exfalso; apply Hn; by left | exfalso; apply Hn; by left].
Qed.

(** The default configuration classifies the one-word prompt "why" as "T3",
    by the search that ignores case. *)
Lemma classify_complexity_tiers_witness :
  (∀ kw, kw ∈ deep_keywords (SwarmConfig_default Script.local) → lower kw = kw)
  ∧ (∃ kw, kw ∈ deep_keywords (SwarmConfig_default Script.local)
           ∧ occurs_ignoring_case kw "why")
  ∧ classify_complexity (SwarmConfig_default Script.local) "why" = "T3".
Proof.
  pose proof (classify_complexity_tiers (SwarmConfig_default Script.local) "why")
    as (H3 & _ & _ & Hci & Hwhy).
  split; [exact default_keywords_lower|]. split.
  - apply (Hci default_keywords_lower).
    destruct (proj1 H3 (Hwhy eq_refl)) as [Hd|Hlt];
      [exact Hd | vm_compute in Hlt; discriminate].
  - exact (Hwhy eq_refl).
Defined.

(** C2 (as stated) fails for a keyword with a capital letter: "Why" occurs in
    the prompt "Why", with or without regard to case, and the prompt is
    classified "T1". *)
Lemma classify_capital_keyword_T1 :
  (∃ kw, kw ∈ deep_keywords Script.cfg_capital_keyword
         ∧ occurs_ignoring_case kw "Why")
  ∧ classify_complexity Script.cfg_capital_keyword "Why" = "T1".
Proof.
  split.
  - exists "Why". split; [set_solver|]. by exists EmptyString, EmptyString.
  - vm_compute. reflexivity.
Qed.

End ConfigFacts.

(** ** Floats: the order of the numbers and the signs of the results *)
Module FloatFacts.
Import Float64.
Local Open Scope Z_scope.

Lemma ltb_rank (x y : float) :
  is_nan x = false → is_nan y = false →
  ltb x y = true ↔ lex_lt (rank x) (rank y).
Proof.
  unfold ltb, SFltb, lex_lt.
  destruct x as [sx|sx| |sx mx ex], y as [sy|sy| |sy my ey]; try done; intros _ _;
    simpl.
  all: try (destruct sx; simpl; split; (done || lia)).
  all: try (destruct sy; simpl; split; (done || lia)).
  all: try (destruct sx, sy; simpl; split; (done || lia)).
  destruct sx, sy; simpl; try (split; (done || lia)).
  - destruct (Z.compare_spec ex ey) as [->|Hlt|Hgt]; simpl.
    + change (Pos.compare_cont Eq mx my) with (mx ?= my)%positive.
      destruct (Pos.compare_spec mx my) as [->|Hm|Hm]; simpl; split; (done || lia).
    + split; (done || lia).
    + split; (done || lia).
  - destruct (Z.compare_spec ex ey) as [->|Hlt|Hgt]; simpl.
    + change (Pos.compare_cont Eq mx my) with (mx ?= my)%positive.
      destruct (Pos.compare_spec mx my) as [->|Hm|Hm]; simpl; split; (done || lia).
    + split; (done || lia).
    + split; (done || lia).
Qed.

Lemma eqb_rank (x y : float) :
  eqb x y = true ↔ is_nan x = false ∧ is_nan y = false ∧ rank x = rank y.
Proof.
  unfold eqb, SFeqb.
  destruct x as [sx|sx| |sx mx ex], y as [sy|sy| |sy my ey]; simpl;
    try (split; [done | by intros (? & ? & ?)]).
  all: try (destruct sx; simpl; split; (done || (by intros (? & ? & ?)))).
  all: try (destruct sy; simpl; split; (done || (by intros (? & ? & ?)))).
  all: try (destruct sx, sy; simpl; split; (done || (by intros (? & ? & ?)))).
  destruct sx, sy; simpl; try (split; (done || (by intros (? & ? & ?)))).
  - destruct (Z.compare_spec ex ey) as [->|Hlt|Hgt]; simpl.
    + change (Pos.compare_cont Eq mx my) with (mx ?= my)%positive.
      destruct (Pos.compare_spec mx my) as [->|Hm|Hm]; simpl; split; try done;
        intros (_ & _ & [= ?]); lia.
    + split; [done|]. intros (_ & _ & [= ? ?]); lia.
    + split; [done|]. intros (_ & _ & [= ? ?]); lia.
  - destruct (Z.compare_spec ex ey) as [->|Hlt|Hgt]; simpl.
    + change (Pos.compare_cont Eq mx my) with (mx ?= my)%positive.
      destruct (Pos.compare_spec mx my) as [->|Hm|Hm]; simpl; split; try done;
        intros (_ & _ & [= ?]); lia.
    + split; [done|]. intros (_ & _ & [= ? ?]); lia.
    + split; [done|]. intros (_ & _ & [= ? ?]); lia.
Qed.

Lemma leb_ltb (x y : float) :
  leb x y = true ↔ is_nan x = false ∧ is_nan y = false ∧ ltb y x = false.
Proof.
  unfold leb, SFleb, ltb, SFltb.
  destruct x as [sx|sx| |sx mx ex], y as [sy|sy| |sy my ey]; simpl;
    try (split; [done | by intros (? & ? & ?)]).
  all: try (destruct sx; simpl; split; (done || (by intros (? & ? & ?)))).
  all: try (destruct sy; simpl; split; (done || (by intros (? & ? & ?)))).
  all: try (destruct sx, sy; simpl; split; (done || (by intros (? & ? & ?)))).
  destruct sx, sy; simpl; try (split; (done || (by intros (? & ? & ?)))).
  - rewrite (Z.compare_antisym ex ey).
    destruct (ex ?= ey); simpl; try (split; (done || (by intros (? & ? & ?)))).
    change (Pos.compare_cont Eq mx my) with (mx ?= my)%positive.
    change (Pos.compare_cont Eq my mx) with (my ?= mx)%positive.
    rewrite (Pos.compare_antisym mx my).
    destruct (mx ?= my)%positive; simpl; split; (done || (by intros (? & ? & ?))).
  - rewrite (Z.compare_antisym ex ey).
    destruct (ex ?= ey); simpl; try (split; (done || (by intros (? & ? & ?)))).
    change (Pos.compare_cont Eq mx my) with (mx ?= my)%positive.
    change (Pos.compare_cont Eq my mx) with (my ?= mx)%positive.
    rewrite (Pos.compare_antisym mx my).
    destruct (mx ?= my)%positive; simpl; split; (done || (by intros (? & ? & ?))).
Qed.

Lemma leb_numbers (x y : float) :
  leb x y = true → is_nan x = false ∧ is_nan y = false.
Proof. intros (? & ? & _)%leb_ltb. by split. Qed.

Lemma ltb_numbers (x y : float) :
  ltb x y = true → is_nan x = false ∧ is_nan y = false.
Proof. by destruct x, y. Qed.

Lemma ltb_leb (x y : float) : ltb x y = true → leb x y = true.
Proof.
  intros Hlt. destruct (ltb_numbers x y Hlt) as [Hx Hy].
  apply leb_ltb. split; [done|]. split; [done|].
  destruct (ltb y x) eqn:Hyx; [|done].
  apply ltb_rank in Hlt, Hyx; try done. unfold lex_lt in *. lia.
Qed.

Lemma leb_trans (x y z : float) : leb x y = true → leb y z = true → leb x z = true.
Proof.
  intros (Hx & Hy & Hxy)%leb_ltb (_ & Hz & Hyz)%leb_ltb.
  apply leb_ltb. split; [done|]. split; [done|].
  destruct (ltb z x) eqn:Hzx; [|done]. exfalso.
  apply ltb_rank in Hzx; try done.
  assert (¬ lex_lt (rank y) (rank x)) as Hn1.
  { intros Hl. apply ltb_rank in Hl; try done. congruence. }
  assert (¬ lex_lt (rank z) (rank y)) as Hn2.
  { intros Hl. apply ltb_rank in Hl; try done. congruence. }
  unfold lex_lt in *. lia.
Qed.

Lemma eqb_not_ltb (x y k : float) :
  eqb x k = true → eqb y k = true → ltb y x = false.
Proof.
  intros (Hx & _ & Hxk)%eqb_rank (Hy & _ & Hyk)%eqb_rank.
  destruct (ltb y x) eqn:Hyx; [|done]. exfalso.
  apply ltb_rank in Hyx; try done. rewrite Hxk, Hyk in Hyx.
  unfold lex_lt in Hyx. lia.
Qed.

Lemma shr_1_nonneg (mrs : shr_record) : 0 ≤ shr_m mrs → 0 ≤ shr_m (shr_1 mrs).
Proof.
  destruct mrs as [m r s]. simpl. destruct m as [|[p|p|]|[p|p|]]; simpl; lia.
Qed.

Lemma iter_pos_nonneg (p : positive) (mrs : shr_record) :
  0 ≤ shr_m mrs → 0 ≤ shr_m (SpecFloat.iter_pos shr_1 p mrs).
Proof.
  revert mrs. induction p as [p IH|p IH|]; intros mrs Hm; simpl.
  - by apply IH, IH, shr_1_nonneg.
  - by apply IH, IH.
  - by apply shr_1_nonneg.
Qed.

Lemma shr_fexp_nonneg (m e : Z) (l : location) :
  0 ≤ m → 0 ≤ shr_m (shr_fexp prec emax m e l).1.
Proof.
  intros Hm. unfold shr_fexp, shr.
  assert (shr_m (shr_record_of_loc m l) = m) as Hrec by (by destruct l as [|[]]).
  destruct (fexp prec emax (Zdigits2 m + e) - e) as [|p|p]; simpl; rewrite ?Hrec;
    try done.
  apply iter_pos_nonneg. by rewrite Hrec.
Qed.

Lemma round_nearest_even_nonneg (m : Z) (l : location) :
  0 ≤ m → 0 ≤ round_nearest_even m l.
Proof.
  intros Hm. destruct l as [|[]]; simpl; try lia. destruct (Z.even m); lia.
Qed.

(** Rounding a magnitude gives a number of the sign asked for: zero, finite
    or, on overflow, infinite. *)
Lemma binary_round_aux_signed (s : bool) (m e : Z) (l : location) :
  0 ≤ m → signed s (binary_round_aux prec emax s m e l).
Proof.
  intros Hm. unfold binary_round_aux.
  pose proof (shr_fexp_nonneg m e l Hm) as H1.
  destruct (shr_fexp prec emax m e l) as [mrs' e']. simpl in H1.
  pose proof (shr_fexp_nonneg _ e' loc_Exact
                (round_nearest_even_nonneg _ (loc_of_shr_record mrs') H1)) as H2.
  destruct (shr_fexp prec emax _ e' loc_Exact) as [mrs'' e'']. simpl in H2.
  destruct (shr_m mrs'') as [|p|p]; [done| |lia].
  by destruct (e'' <=? emax - prec).
Qed.

Lemma binary_round_signed (s : bool) (m : positive) (e : Z) :
  signed s (binary_round prec emax s m e).
Proof.
  unfold binary_round. destruct (shl_align m e _) as [mz ez].
  by apply binary_round_aux_signed.
Qed.

Lemma add_signed (x y : float) :
  signed false x → signed false y → signed false (add x y).
Proof.
  destruct x as [sx|sx| |sx mx ex], y as [sy|sy| |sy my ey]; simpl; try done.
  - by intros -> ->.
  - by intros -> ->.
  - intros -> ->. simpl. apply binary_round_signed.
Qed.

Lemma div_signed (x : float) (m : positive) (e : Z) :
  signed false x → signed false (div x (S754_finite false m e)).
Proof.
  destruct x as [sx|sx| |sx mx ex]; simpl; try done.
  - by intros ->.
  - by intros ->.
  - intros ->. unfold div, SFdiv, SFdiv_core_binary.
    set (m' := match _ with Z0 => _ | Zpos _ => _ | Zneg _ => _ end).
    assert (0 ≤ m') as Hm'.
    { subst m'. destruct (_ - _ - _) as [|p|p]; [lia| |lia].
      apply Z.shiftl_nonneg. lia. }
    pose proof (Z.div_pos m' (Z.pos m) Hm' ltac:(lia)) as Hq.
    unfold Z.div in Hq. destruct (Z.div_eucl m' (Z.pos m)) as [q r]. simpl in Hq.
    by apply binary_round_aux_signed.
Qed.

Lemma truediv_signed (a : Z) (b : positive) : 0 ≤ a → signed false (truediv a b).
Proof.
  intros Ha. destruct a as [|p|p]; [done| |lia].
  unfold truediv. by apply div_signed.
Qed.

Lemma min_signed (x y : float) :
  signed false x → signed false y → signed false (min x y).
Proof. intros Hx Hy. unfold min. by destruct (ltb y x). Qed.

Lemma signed_number (s : bool) (x : float) : signed s x → is_nan x = false.
Proof. by destruct x. Qed.

(** [max(0.0, x)] is a number that is not negative, whatever [x] is. *)
Lemma max_zero_signed (x : float) : signed false (max (of_Z 0) x).
Proof.
  unfold max. change (of_Z 0) with (S754_zero false).
  destruct (ltb (S754_zero false) x) eqn:Hlt; [|done].
  by destruct x as [s|[]| |[] m e].
Qed.

(** A negative number is below every number that is not negative. *)
Lemma ltb_negative (m : positive) (e : Z) (x : float) :
  signed false x → ltb (S754_finite true m e) x = true.
Proof. destruct x as [s|s| |s m' e']; simpl; try done; by intros ->. Qed.

End FloatFacts.

(** ** [sorted]: permutation, order, stability *)
Module SortFacts.
Import Py SortSpec FloatFacts.

Section Keys.
Context {A : Type}.
Implicit Types (x y : Float64.float * A) (l : list (Float64.float * A)).

Lemma insert_key_perm x l : insert_key x l ≡ₚ x :: l.
Proof.
  induction l as [|y l IH]; simpl; [done|].
  destruct (Float64.ltb y.1 x.1); [|done].
  rewrite IH. apply Permutation_swap.
Qed.

Lemma sort_keys_perm l : sort_keys l ≡ₚ l.
Proof.
  induction l as [|x l IH]; simpl; [done|].
  by rewrite insert_key_perm, IH.
Qed.

Lemma insert_key_sorted x l :
  numbered x → Forall numbered l →
  StronglySorted key_le l → StronglySorted key_le (insert_key x l).
Proof.
  intros Hx Hl. induction 1 as [|y l Hs IH Hy]; simpl.
  - repeat constructor.
  - apply Forall_cons in Hl as [Hny Hl].
    destruct (Float64.ltb y.1 x.1) eqn:E.
    + constructor; [by apply IH|].
      rewrite insert_key_perm. constructor; [|done].
      by apply ltb_leb.
    + assert (key_le x y) as Hxy by (by apply leb_ltb).
      constructor; [by constructor|].
      constructor; [done|].
      eapply Forall_impl; [exact Hy|]. intros z Hz.
      unfold key_le in *. by apply leb_trans with y.1.
Qed.

Lemma sort_keys_sorted l : Forall numbered l → StronglySorted key_le (sort_keys l).
Proof.
  induction 1 as [|x l Hx Hl IH]; simpl; [constructor|].
  apply insert_key_sorted; [done| |done]. by rewrite sort_keys_perm.
Qed.

Lemma filter_insert_key k x l :
  List.filter (with_key k) (insert_key x l) = List.filter (with_key k) (x :: l).
Proof.
  induction l as [|y l IH]; [done|].
  cbn [insert_key]. destruct (Float64.ltb y.1 x.1) eqn:E; [|done].
  cbn [List.filter] in *. rewrite IH.
  destruct (with_key k y) eqn:Ey, (with_key k x) eqn:Ex; try done.
  exfalso. unfold with_key in *.
  rewrite (eqb_not_ltb _ _ k Ex Ey) in E. done.
Qed.

Lemma filter_sort_keys k l :
  List.filter (with_key k) (sort_keys l) = List.filter (with_key k) l.
Proof.
  induction l as [|x l IH]; [done|].
  cbn [sort_keys]. rewrite filter_insert_key. cbn [List.filter].
  by rewrite IH.
Qed.

Lemma sort_keys_id l : StronglySorted key_le l → sort_keys l = l.
Proof.
  induction 1 as [|x l Hs IH Hx]; [done|].
  cbn [sort_keys]. rewrite IH.
  destruct l as [|y l]; [done|]. cbn [insert_key].
  apply Forall_cons in Hx as [Hxy _].
  apply leb_ltb in Hxy as (_ & _ & Hxy). by rewrite Hxy.
Qed.

Lemma StronglySorted_rev (R : relation (Float64.float * A)) l :
  StronglySorted R l → StronglySorted (flip R) (rev l).
Proof.
  induction 1 as [|x l Hs IH Hx]; simpl; [constructor|].
  apply StronglySorted_app_2; [|done|repeat constructor].
  intros x1 x2 H1 H2. apply list_elem_of_singleton in H2 as ->.
  rewrite Forall_forall in Hx. apply Hx.
  apply list_elem_of_In, in_rev, list_elem_of_In, H1.
Qed.

End Keys.

Section Sorted.
Context {A : Type} (key : A → result Float64.float).
Implicit Types (l out : list A) (d : list (Float64.float * A)).
Local Abbreviation keyed := (SortSpec.keyed key).
Local Abbreviation key_ge := (SortSpec.key_ge key).
Local Abbreviation has_key := (SortSpec.has_key key).
Local Abbreviation number_keys := (SortSpec.number_keys key).

Lemma result_map_zip l ks :
  result_map key l = Ok ks → Forall keyed (zip ks l) ∧ map snd (zip ks l) = l.
Proof.
  revert ks. induction l as [|x l IH]; intros ks; simpl.
  - intros [= <-]. by split.
  - destruct (key x) as [q|e] eqn:Hx; [|done]. simpl.
    destruct (result_map key l) as [ks'|e]; [|done]. simpl.
    intros [= <-]. destruct (IH ks' eq_refl) as [Hk Hm].
    split; [by constructor|]. simpl. by rewrite Hm.
Qed.

Lemma result_map_total l :
  (∀ x, x ∈ l → ∃ q, key x = Ok q) → ∃ ks, result_map key l = Ok ks.
Proof.
  induction l as [|x l IH]; intros Hl; simpl; [by eexists|].
  destruct (Hl x) as [q ->]; [by left|].
  destruct IH as [ks ->]; [intros y Hy; apply Hl; by right|].
  by eexists.
Qed.

Lemma result_map_keyed d :
  Forall keyed d → result_map key (map snd d) = Ok (map fst d).
Proof.
  induction 1 as [|p d Hp _ IH]; [done|].
  simpl. rewrite Hp. simpl. by rewrite IH.
Qed.

Lemma zip_fst_snd_map d : zip (map fst d) (map snd d) = d.
Proof. induction d as [|[q a] d IH]; simpl; [done | by rewrite IH]. Qed.

Lemma filter_keyed k d :
  Forall keyed d →
  List.filter (has_key k) (map snd d) = map snd (List.filter (with_key k) d).
Proof.
  induction 1 as [|p d Hp _ IH]; [done|].
  cbn [map List.filter]. unfold has_key at 1. rewrite Hp.
  unfold with_key at 1. destruct (Float64.eqb p.1 k); simpl; by rewrite IH.
Qed.

Lemma sorted_keyed d :
  Forall keyed d → StronglySorted (flip key_le) d →
  StronglySorted key_ge (map snd d).
Proof.
  intros Hk Hs. induction Hs as [|p d Hs IH Hp]; simpl; [constructor|].
  apply Forall_cons in Hk as [Hkp Hk]. constructor; [by apply IH|].
  rewrite Forall_forall in Hp, Hk. apply Forall_forall. intros b Hb.
  apply list_elem_of_In, in_map_iff in Hb as [p' [<- Hin]].
  apply list_elem_of_In in Hin.
  exists p.1, p'.1. split; [done|]. split; [by apply Hk|]. by apply Hp.
Qed.

Lemma sorted_reverse_inv l out :
  sorted key true l = Ok out →
  ∃ ks, result_map key l = Ok ks ∧ out = map snd (decorated_desc ks l).
Proof.
  unfold sorted. destruct (result_map key l) as [ks|e] eqn:Hks; [|done].
  simpl. intros [= <-]. by exists ks.
Qed.

Lemma decorated_desc_perm ks l : decorated_desc ks l ≡ₚ zip ks l.
Proof.
  unfold decorated_desc.
  rewrite <- Permutation_rev, sort_keys_perm. symmetry. apply Permutation_rev.
Qed.

Lemma decorated_desc_keyed ks l :
  result_map key l = Ok ks → Forall keyed (decorated_desc ks l).
Proof.
  intros Hks. rewrite decorated_desc_perm. by apply result_map_zip.
Qed.

Lemma zip_numbered l ks :
  number_keys l → result_map key l = Ok ks → Forall numbered (zip ks l).
Proof.
  intros Hn Hks. destruct (result_map_zip l ks Hks) as [Hk Hm].
  apply Forall_forall. intros p Hp. rewrite Forall_forall in Hk.
  apply (Hn p.2 p.1); [|by apply Hk].
  rewrite <- Hm. apply list_elem_of_In, in_map, list_elem_of_In, Hp.
Qed.

Lemma sorted_reverse_total l :
  (∀ x, x ∈ l → ∃ q, key x = Ok q) → ∃ out, sorted key true l = Ok out.
Proof.
  intros Hl. destruct (result_map_total l Hl) as [ks Hks].
  unfold sorted. rewrite Hks. by eexists.
Qed.

Lemma sorted_reverse_perm l out : sorted key true l = Ok out → out ≡ₚ l.
Proof.
  intros (ks & Hks & ->)%sorted_reverse_inv.
  destruct (result_map_zip l ks Hks) as [_ Hm].
  rewrite <- Hm at 2. apply Permutation_map, decorated_desc_perm.
Qed.

Lemma sorted_reverse_ordered l out :
  number_keys l → sorted key true l = Ok out → StronglySorted key_ge out.
Proof.
  intros Hn (ks & Hks & ->)%sorted_reverse_inv.
  apply sorted_keyed; [by apply decorated_desc_keyed|].
  apply StronglySorted_rev, sort_keys_sorted.
  rewrite <- Permutation_rev. by apply zip_numbered.
Qed.

Lemma sorted_reverse_stable l out k :
  sorted key true l = Ok out →
  List.filter (has_key k) out = List.filter (has_key k) l.
Proof.
  intros (ks & Hks & ->)%sorted_reverse_inv.
  destruct (result_map_zip l ks Hks) as [Hk Hm].
  rewrite filter_keyed by (by apply decorated_desc_keyed).
  unfold decorated_desc.
  rewrite filter_rev, filter_sort_keys, filter_rev, rev_involutive.
  rewrite <- filter_keyed by done. by rewrite Hm.
Qed.

Lemma sorted_reverse_idem l out :
  number_keys l → sorted key true l = Ok out → sorted key true out = Ok out.
Proof.
  intros Hn (ks & Hks & ->)%sorted_reverse_inv.
  pose proof (decorated_desc_keyed ks l Hks) as Hk.
  unfold sorted. rewrite (result_map_keyed _ Hk). simpl.
  rewrite zip_fst_snd_map. unfold decorated_desc at 1.
  rewrite rev_involutive, (sort_keys_id (sort_keys _)); [done|].
  apply sort_keys_sorted. rewrite <- Permutation_rev. by apply zip_numbered.
Qed.

End Sorted.
End SortFacts.

(** ** swarm.py: scoring and ranking *)
Module SwarmFacts.
Import Py Spec Config Machine Swarm SortSpec SwarmSpec FloatFacts SortFacts.

Section Ranking.
Context `{Runtime}.

Lemma score_failed (r : CallResult) :
  status r ≠ "ok" ∨ truthy (content r) = false → _score_result r = Ok failed_score.
Proof.
  unfold _score_result. intros [Hs|Hc].
  - rewrite bool_decide_eq_false_2 by done. done.
  - rewrite Hc. by rewrite orb_true_r.
Qed.

(** The bonuses of the structure, as the code adds them up and as the sum
    of the two. *)
Lemma structure_score_sum (fence heading : bool) :
  (let s0 := Float64.of_Z 0 in
   let s1 := if fence then Float64.add s0 (Float64.truediv 5 10) else s0 in
   if heading then Float64.add s1 (Float64.truediv 3 10) else s1)
  = Float64.add (if fence then Float64.truediv 5 10 else Float64.of_Z 0)
                (if heading then Float64.truediv 3 10 else Float64.of_Z 0).
Proof. destruct fence, heading; vm_compute; reflexivity. Qed.

Lemma score_text (r : CallResult) (text : string) :
  status r = "ok" → content r = PStr text → text ≠ EmptyString →
  _score_result r = Ok (score_formula text (elapsed_s r)).
Proof.
  intros Hs Hc Ht. unfold _score_result. rewrite Hs, Hc.
  rewrite bool_decide_eq_true_2 by done. cbn [negb orb truthy].
  rewrite bool_decide_eq_false_2 by done. cbn [negb]. cbv zeta.
  unfold score_formula, length_score, structure_score, speed_score.
  rewrite <- (structure_score_sum (contains "```" text)). cbv zeta.
  by destruct (String.length text <? 50)%nat.
Qed.

Lemma scorable_scores (r : CallResult) : scorable r → ∃ q, _score_result r = Ok q.
Proof.
  intros [Hs|[Hc|[text Hc]]].
  - eexists. apply score_failed. by left.
  - eexists. apply score_failed. by right.
  - destruct (decide (status r = "ok")) as [Hok|Hno].
    + destruct (decide (text = EmptyString)) as [->|Hne].
      * eexists. apply score_failed. right. by rewrite Hc.
      * eexists. by apply (score_text r text).
    + eexists. apply score_failed. by left.
Qed.

Lemma length_score_signed (text : string) :
  Float64.signed false (length_score text).
Proof.
  unfold length_score. destruct (String.length text <? 50)%nat; [done|].
  apply min_signed; [|done].
  change (Float64.of_Z 500) with (S754_finite false 8796093022208000 (-44)).
  apply div_signed, truediv_signed. lia.
Qed.

Lemma structure_score_signed (text : string) :
  Float64.signed false (structure_score text).
Proof.
  unfold structure_score.
  by destruct (contains "```" text),
    (existsb (startswith "#") (splitlines_go EmptyString text)).
Qed.

(** The score of a text is a number that is not negative, whatever the
    elapsed time is, a number or not. *)
Lemma score_formula_signed (text : string) (elapsed : Float64.float) :
  Float64.signed false (score_formula text elapsed).
Proof.
  unfold score_formula, speed_score.
  apply add_signed; [apply add_signed|apply max_zero_signed].
  - apply length_score_signed.
  - apply structure_score_signed.
Qed.

(** Every score is a number. *)
Lemma score_number (results : list CallResult) :
  number_keys _score_result results.
Proof.
  intros r q _. unfold _score_result.
  destruct (negb (bool_decide (status r = "ok")) || negb (truthy (content r))) eqn:Hf.
  - by intros [= <-].
  - apply orb_false_iff in Hf as [Hs Hc].
    apply negb_false_iff, bool_decide_eq_true in Hs. apply negb_false_iff in Hc.
    destruct (content r) as [| | |text| |] eqn:Hcont; try done.
    assert (text ≠ EmptyString) as Hne by (intros ->; done).
    pose proof (score_text r text Hs Hcont Hne) as Hq.
    unfold _score_result in Hq. rewrite Hcont in Hq.
    rewrite Hs in Hq. rewrite bool_decide_eq_true_2 in Hq by done.
    cbn [negb orb truthy] in Hq. rewrite bool_decide_eq_false_2 in Hq by done.
    cbn [negb] in Hq. rewrite Hq. intros [= <-].
    eapply signed_number, score_formula_signed.
Qed.

Lemma ranked_above_by_score (results out : list CallResult) (a b : CallResult)
    (qa qb : Float64.float) :
  rank_results results = Ok out →
  _score_result a = Ok qa → _score_result b = Ok qb → Float64.ltb qb qa = true →
  ranked_above out a b.
Proof.
  intros Hout Ha Hb Hlt l1 l2 -> Hin.
  apply sorted_reverse_ordered, StronglySorted_app_1_r in Hout;
    [|apply score_number].
  apply StronglySorted_cons in Hout as [Hall _].
  rewrite Forall_forall in Hall.
  destruct (Hall a Hin) as (q1 & q2 & H1 & H2 & Hle).
  rewrite Hb in H1. rewrite Ha in H2. injection H1 as <-. injection H2 as <-.
  apply leb_ltb in Hle as (_ & _ & Hle). congruence.
Qed.

Lemma long_beats_short (a b : CallResult) (ta tb : string) :
  status a = "ok" → status b = "ok" →
  content a = PStr ta → content b = PStr tb →
  String.length ta = 600%nat → String.length tb = 30%nat →
  elapsed_s a = Float64.of_Z 2 → elapsed_s b = Float64.of_Z 2 →
  ∃ qa qb, _score_result a = Ok qa ∧ _score_result b = Ok qb
           ∧ Float64.ltb qb qa = true.
Proof.
  intros Hsa Hsb Hca Hcb Hla Hlb Hea Heb.
  assert (ta ≠ EmptyString) as Hna by (intros ->; discriminate).
  assert (tb ≠ EmptyString) as Hnb by (intros ->; discriminate).
  do 2 eexists. split; [by apply (score_text a ta)|].
  split; [by apply (score_text b tb)|].
  rewrite Hea, Heb. unfold score_formula, length_score, structure_score.
  rewrite Hla, Hlb.
  by destruct (contains "```" ta),
    (existsb (startswith "#") (splitlines_go EmptyString ta)),
    (contains "```" tb),
    (existsb (startswith "#") (splitlines_go EmptyString tb)); vm_compute.
Qed.

(** C5 (as the code has it): [rank_results] returns the results sorted by
    descending [_score_result], computed in floats.  A result that is not
    "ok" or has no content scores -1.0; an "ok" result with text scores
    min(length/500, 3.0), or 0.1 below 50 characters, plus 0.5 for a code
    fence, plus 0.3 for a line that starts with "#", plus
    max(0, 1 - elapsed/30), each operation rounded.  So 600 characters at 2s
    are never listed after 30 characters at 2s, and an "ok" result with
    non-empty text is never listed after a result that is not "ok". *)
Theorem rank_results_orders (results : list CallResult) :
  (∀ r, r ∈ results → scorable r) →
  ∃ out, rank_results results = Ok out
    ∧ out ≡ₚ results
    ∧ StronglySorted (key_ge _score_result) out
    ∧ (∀ r, status r ≠ "ok" ∨ truthy (content r) = false →
            _score_result r = Ok failed_score)
    ∧ (∀ r text, status r = "ok" → content r = PStr text → text ≠ EmptyString →
         _score_result r = Ok (score_formula text (elapsed_s r)))
    ∧ (∀ a b ta tb,
         status a = "ok" → status b = "ok" →
         content a = PStr ta → content b = PStr tb →
         String.length ta = 600%nat → String.length tb = 30%nat →
         elapsed_s a = Float64.of_Z 2 → elapsed_s b = Float64.of_Z 2 →
         ranked_above out a b)
    ∧ (∀ t r text,
         status t ≠ "ok" →
         status r = "ok" → content r = PStr text → text ≠ EmptyString →
         ranked_above out r t).
Proof.
  intros Hall.
  destruct (sorted_reverse_total _score_result results) as [out Hout].
  { intros r Hr. by apply scorable_scores, Hall. }
  exists out. split; [exact Hout|].
  split; [by apply (sorted_reverse_perm _score_result)|].
  split; [apply (sorted_reverse_ordered _score_result results);
            [apply score_number | done]|].
  split; [exact score_failed|]. split; [exact score_text|]. split.
  - intros a b ta tb Hsa Hsb Hca Hcb Hla Hlb Hea Heb.
    destruct (long_beats_short a b ta tb) as (qa & qb & Hqa & Hqb & Hlt); try done.
    by apply (ranked_above_by_score results out a b qa qb).
  - intros t r text Ht Hs Hc Hne.
    apply (ranked_above_by_score results out r t
             (score_formula text (elapsed_s r)) failed_score); try done.
    + by apply score_text.
    + apply score_failed. by left.
    + apply ltb_negative, score_formula_signed.
Qed.

(** C9: the tier depends on the prompt, the thresholds and the keywords
    only, so that classifying twice gives the same tier; [rank_results] is a
    stable sort, the results of any one score keeping their input order;
    and ranking a ranked list gives the list back.  The scores are the
    floats the code computes. *)
Theorem classify_and_rank_stable :
  (∀ cfg cfg' prompt,
     t1_max_words cfg = t1_max_words cfg' →
     t2_max_words cfg = t2_max_words cfg' →
     deep_keywords cfg = deep_keywords cfg' →
     classify_complexity cfg prompt = classify_complexity cfg' prompt)
  ∧ (∀ results out,
       rank_results results = Ok out →
       (∀ k, List.filter (has_key _score_result k) out
             = List.filter (has_key _score_result k) results)
       ∧ rank_results out = Ok out).
Proof.
  split.
  - intros cfg cfg' prompt H1 H2 HK. unfold classify_complexity.
    by rewrite H1, H2, HK.
  - intros results out Hout. split.
    + intros k. by apply sorted_reverse_stable.
    + apply (sorted_reverse_idem _score_result results); [|done].
      apply score_number.
Qed.

End Ranking.

Section CallModel.
Context `{HasWorld St}.

(** The handler of [call_model] took over: the result is "timeout" or
    "error" and has no content. *)
Ltac failed_call :=
  destruct (decide _); do 2 eexists; (split; [reflexivity|]); simpl;
  (split; [by auto|]); (split; [done|]); split; intros; done.

(** C8 (as the code has it): [call_model] ends with a result unless the
    task is cancelled while it waits for the backend.  The result is "ok",
    "timeout" or "error"; a "timeout" or "error" result carries no content;
    an "ok" result carries what the envelope holds at
    [choices[0].message.content], which is [None] when the backend put
    [null] there. *)
Theorem call_model_content (entry : ModelEntry) (prompt : string) (timeout : Z)
    (s : St) :
  ∃ ended s', call_model entry prompt timeout s = (Ok ended, s')
    ∧ match ended with
      | None => (awaited_post entry prompt timeout (world_of s)).1 = None
      | Some cr =>
          (status cr = "ok" ∨ status cr = "timeout" ∨ status cr = "error")
          ∧ (status cr ≠ "ok" → content cr = PNone)
          ∧ (content cr ≠ PNone → status cr = "ok")
          ∧ (status cr = "ok" →
             ∃ response w,
               awaited_post entry prompt timeout (world_of s)
               = (Some (Ok response), w)
               ∧ message_content response = Ok (content cr))
      end.
Proof.
  unfold call_model, awaited_post.
  unfold Eff.bind, Eff.try_except, time_monotonic, Eff.gets, await, Eff.lift, Eff.ret.
  destruct (wait_for_http_post _ _ _ _ (world_of s)) as [[[response|e]|] w].
  - destruct (getitem errmsg response "choices") as [choices|e1] eqn:E1; simpl;
      [|by failed_call].
    destruct (getitem0 errmsg choices) as [first|e1] eqn:E2; simpl;
      [|by failed_call].
    destruct (getitem errmsg first "message") as [message|e1] eqn:E3; simpl;
      [|by failed_call].
    destruct (getitem errmsg message "content") as [text|e1] eqn:E4; simpl;
      [|by failed_call].
    destruct (get errmsg response "usage" (PDict [])) as [usage|e1]; simpl;
      [|by failed_call].
    destruct (get errmsg usage "total_tokens" PNone) as [total|e1]; simpl;
      [|by failed_call].
    do 2 eexists. split; [reflexivity|]. simpl.
    split; [by left|]. split; [by intros Hn|]. split; [done|].
    intros _. exists response, w. split; [done|].
    unfold message_content. rewrite E1. simpl. rewrite E2. simpl.
    rewrite E3. simpl. exact E4.
  - by failed_call.
  - by do 2 eexists.
Qed.

End CallModel.

(** C8 (as stated) fails on an envelope whose message content is [null]: the
    result is "ok" and its content is [None]. *)
Lemma call_model_null_content :
  match fst (@call_model Script.runtime _ (@World_HasWorld Script.runtime)
                (Script.entry "m" "fast") "Hi" 60
                (Script.world_of_scripts [] [] [Ok (Script.envelope PNone)]))
  with
  | Ok (Some cr) => status cr = "ok" ∧ content cr = PNone
  | _ => False
  end.
Proof. vm_compute. split; reflexivity. Qed.

(** Three results: the long answer comes first, the two short ones, whose
    scores are equal, keep their order, and ranking again changes nothing.
    And two results whose scores would be equal without rounding: 20
    characters at 9 s come to 0.1 + 0.7, the float below 0.8, and 100
    characters at 12 s to 0.2 + 0.6, which is 0.8, so that the second is
    listed first. *)
Lemma classify_and_rank_stable_witness :
  classify_complexity Script.cfg_fast_only "Hi"
  = classify_complexity (SwarmConfig_default Script.local) "Hi"
  ∧ @rank_results Script.runtime [Script.r_short; Script.r_long; Script.r_short']
    = Ok [Script.r_long; Script.r_short; Script.r_short']
  ∧ @rank_results Script.runtime [Script.r_long; Script.r_short; Script.r_short']
    = Ok [Script.r_long; Script.r_short; Script.r_short']
  ∧ @rank_results Script.runtime [Script.r_20_at_9; Script.r_100_at_12]
    = Ok [Script.r_100_at_12; Script.r_20_at_9]
  ∧ @rank_results Script.runtime [Script.r_100_at_12; Script.r_20_at_9]
    = Ok [Script.r_100_at_12; Script.r_20_at_9].
Proof.
  pose proof (@classify_and_rank_stable Script.runtime) as [Hc Hr].
  split; [by apply Hc|].
  assert (@rank_results Script.runtime
            [Script.r_short; Script.r_long; Script.r_short']
          = Ok [Script.r_long; Script.r_short; Script.r_short']) as Hrun
    by (vm_compute; reflexivity).
  assert (@rank_results Script.runtime [Script.r_20_at_9; Script.r_100_at_12]
          = Ok [Script.r_100_at_12; Script.r_20_at_9]) as Hnear
    by (vm_compute; reflexivity).
  split; [exact Hrun|]. split; [exact (proj2 (Hr _ _ Hrun))|].
  split; [exact Hnear|]. exact (proj2 (Hr _ _ Hnear)).
Defined.

(** The three results of the claim: long, short and timed out. *)
Lemma rank_results_orders_witness :
  (∀ r, r ∈ [Script.r_timeout; Script.r_short; Script.r_long] → scorable r)
  ∧ ∃ out, @rank_results Script.runtime
             [Script.r_timeout; Script.r_short; Script.r_long] = Ok out
           ∧ ranked_above out Script.r_long Script.r_short
           ∧ ranked_above out Script.r_short Script.r_timeout.
Proof.
  assert (∀ r, r ∈ [Script.r_timeout; Script.r_short; Script.r_long] →
               @scorable r) as Hall.
  { intros r Hr. rewrite !elem_of_cons, elem_of_nil in Hr.
    destruct Hr as [->|[->|[->|[]]]].
    - left. discriminate.
    - right. right. by eexists.
    - right. right. by eexists. }
  split; [exact Hall|].
  destruct (@rank_results_orders Script.runtime _ Hall)
    as (out & Hout & _ & _ & _ & _ & Hlong & Hfail).
  exists out. split; [exact Hout|]. split.
  - by apply (Hlong _ _ (Script.filler 600) (Script.filler 30)).
  - by apply (Hfail _ _ (Script.filler 30)).
Defined.

(** C5 (as stated) fails when an "ok" result has no text: it scores -1 like
    the result that timed out, and the stable sort leaves the timed-out
    result, listed first, above it. *)
Lemma timeout_above_empty_ok :
  status Script.r_timeout = "timeout" ∧ status Script.r_empty = "ok"
  ∧ @rank_results Script.runtime [Script.r_timeout; Script.r_empty]
    = Ok [Script.r_timeout; Script.r_empty]
  ∧ ¬ ranked_above [Script.r_timeout; Script.r_empty] Script.r_empty Script.r_timeout.
Proof.
  split; [done|]. split; [done|]. split; [vm_compute; reflexivity|].
  intros Habove. apply (Habove [] [Script.r_empty] eq_refl). by left.
Qed.

End SwarmFacts.

(** ** The monad and the pool *)
Module EffFacts.
Import Py Eff Eff.Notations Machine Frame.

Section Keeps.
Context {St X : Type} (f : St → X).

Lemma keeps_ret {A} (a : A) : keeps f (ret a).
Proof. by intros s. Qed.

Lemma keeps_raise {A} (e : exn) : keeps f (raise (A := A) e).
Proof. by intros s. Qed.

Lemma keeps_lift {A} (r : result A) : keeps f (lift r).
Proof. by intros s. Qed.

Lemma keeps_gets {A} (g : St → A) : keeps f (gets g).
Proof. by intros s. Qed.

Lemma keeps_bind {A B} (m : M St A) (k : A → M St B) :
  keeps f m → (∀ a, keeps f (k a)) → keeps f (bind m k).
Proof.
  intros Hm Hk s. unfold bind. specialize (Hm s).
  destruct (m s) as [[a|e] s1]; simpl in *; [|done].
  by rewrite (Hk a s1).
Qed.

Lemma keeps_try_except {A} (m : M St A) (h : exn → M St A) :
  keeps f m → (∀ e, keeps f (h e)) → keeps f (try_except m h).
Proof.
  intros Hm Hh s. unfold try_except. specialize (Hm s).
  destruct (m s) as [[a|e] s1]; simpl in *; [done|].
  by rewrite (Hh e s1).
Qed.

Lemma keeps_attempt {A} (m : M St A) : keeps f m → keeps f (attempt m).
Proof.
  intros Hm s. unfold attempt. specialize (Hm s). by destruct (m s).
Qed.

Lemma keeps_for_each {A B} (l : list A) (body : A → M St B) :
  (∀ x, x ∈ l → keeps f (body x)) → keeps f (for_each l body).
Proof.
  induction l as [|x l IH]; intros Hl; simpl; [apply keeps_ret|].
  apply keeps_bind; [apply Hl; by left|]. intros y.
  apply keeps_bind; [apply IH; intros z Hz; apply Hl; by right|].
  intros ys. apply keeps_ret.
Qed.

End Keeps.

Lemma pick_order_perm {A} (picks : list nat) (pending : list A) :
  (pick_order picks pending).1 ++ (pick_order picks pending).2 ≡ₚ pending.
Proof.
  revert pending. induction picks as [|k picks IH]; intros pending; simpl; [done|].
  destruct (pending !! (k mod length pending)%nat) as [x|] eqn:Hx; [|done].
  specialize (IH (delete (k mod length pending)%nat pending)).
  destruct (pick_order picks _) as [done late]. simpl in *.
  rewrite IH. symmetry. by apply delete_Permutation.
Qed.

Lemma pick_order_elem_of {A} (picks : list nat) (pending : list A) (x : A) :
  x ∈ (pick_order picks pending).1 ∨ x ∈ (pick_order picks pending).2 →
  x ∈ pending.
Proof.
  rewrite <- (pick_order_perm picks pending) at 3.
  rewrite elem_of_app. done.
Qed.

Section Pool.
Context `{HasWorld St}.

Lemma for_each_attempt {A} (tasks : list (M St A)) (s : St) :
  ∃ outs s', for_each tasks attempt s = (Ok outs, s')
             ∧ length outs = length tasks.
Proof.
  revert s. induction tasks as [|t tasks IH]; intros s; simpl.
  - by exists [], s.
  - unfold bind, attempt at 1. destruct (t s) as [r s1].
    destruct (IH s1) as (outs & s2 & -> & Hlen). simpl.
    exists (r :: outs), s2. split; [done|]. simpl. by rewrite Hlen.
Qed.

Lemma for_each_attempt_Forall {A} (P : result A → Prop) (tasks : list (M St A))
    (s : St) (outs : list (result A)) (s' : St) :
  (∀ t, t ∈ tasks → ∀ s0, P (t s0).1) →
  for_each tasks attempt s = (Ok outs, s') → Forall P outs.
Proof.
  revert s outs. induction tasks as [|t tasks IH]; intros s outs Ht; simpl.
  - unfold ret. intros [= <- _]. constructor.
  - unfold bind, attempt at 1.
    pose proof (Ht t (list_elem_of_here _ _) s) as Hp.
    destruct (t s) as [r s1]. simpl in Hp.
    destruct (for_each tasks attempt s1) as [[outs'|e] s2] eqn:E; simpl; [|done].
    intros [= <- <-]. constructor; [done|].
    apply (IH s1 outs'); [|done]. intros t' Ht'. apply Ht. by right.
Qed.

(** The loop over [as_completed] ends normally exactly when no future is
    late, and it raises [TimeoutError] otherwise. *)
Lemma pool_as_completed_cases {A} (tasks : list (M St A)) (timeout : Q) (s : St) :
  let picks := completion_picks (length tasks) timeout (world_of s) in
  let '(done, late) := pick_order picks tasks in
  match late with
  | [] => ∃ outs s', pool_as_completed tasks timeout s = (Ok outs, s')
                     ∧ for_each done attempt s = (Ok outs, s')
  | _ => ∃ s', pool_as_completed tasks timeout s
               = (Raise (Exn TimeoutError (errmsg TimeoutError PNone)), s')
  end.
Proof.
  intros picks. subst picks.
  destruct (pick_order _ tasks) as [done late] eqn:Ep.
  destruct (for_each_attempt done s) as (outs & s1 & Hrun & _).
  destruct late as [|t late].
  - exists outs, s1. split; [|done].
    unfold pool_as_completed, bind, gets. cbv beta iota.
    rewrite Ep. cbv beta iota. by rewrite Hrun.
  - destruct (for_each_attempt (t :: late) s1) as (outs' & s2 & Hlate & _).
    exists s2. unfold pool_as_completed, bind, gets. cbv beta iota.
    rewrite Ep. cbv beta iota. rewrite Hrun. by rewrite Hlate.
Qed.

Lemma pool_as_completed_Forall {A} (P : result A → Prop) (tasks : list (M St A))
    (timeout : Q) (s : St) (outs : list (result A)) (s' : St) :
  (∀ t, t ∈ tasks → ∀ s0, P (t s0).1) →
  pool_as_completed tasks timeout s = (Ok outs, s') → Forall P outs.
Proof.
  intros Ht Hrun.
  pose proof (pool_as_completed_cases tasks timeout s) as Hc. cbv zeta in Hc.
  pose proof (pick_order_elem_of
                (completion_picks (length tasks) timeout (world_of s)) tasks) as Hin.
  destruct (pick_order _ tasks) as [done late]. simpl in Hin.
  destruct late as [|t late].
  - destruct Hc as (outs' & s1 & Hp & Hf). rewrite Hrun in Hp.
    injection Hp as <- <-.
    apply (for_each_attempt_Forall P done s outs s'); [|done].
    intros t Hin'. apply Ht, Hin. by left.
  - destruct Hc as (s1 & Hp). rewrite Hrun in Hp. discriminate.
Qed.

Lemma keeps_pool_as_completed {A X} (f : St → X) (tasks : list (M St A))
    (timeout : Q) :
  (∀ t, t ∈ tasks → keeps f t) → keeps f (pool_as_completed tasks timeout).
Proof.
  intros Ht. unfold pool_as_completed.
  apply keeps_bind; [apply keeps_gets|]. intros picks.
  pose proof (pick_order_elem_of picks tasks) as Hin.
  destruct (pick_order picks tasks) as [done late]. simpl in Hin.
  apply keeps_bind.
  { apply keeps_for_each. intros t Hin'. apply keeps_attempt, Ht, Hin. by left. }
  intros outs. destruct late as [|t late]; [apply keeps_ret|].
  apply keeps_bind; [|intros; apply keeps_raise].
  apply keeps_for_each. intros t' Hin'. apply keeps_attempt, Ht, Hin. by right.
Qed.

Lemma for_each_attempt_Forall2 {A} (tasks : list (M St A)) (s : St)
    (outs : list (result A)) (s' : St) :
  for_each tasks attempt s = (Ok outs, s') →
  Forall2 (λ t o, ∃ s0, o = (t s0).1) tasks outs.
Proof.
  revert s outs. induction tasks as [|t tasks IH]; intros s outs; simpl.
  - unfold ret. intros [= <- _]. constructor.
  - unfold bind, attempt at 1. destruct (t s) as [r s1] eqn:Et.
    destruct (for_each tasks attempt s1) as [[outs'|e] s2] eqn:E; simpl; [|done].
    intros [= <- <-]. constructor; [|by apply (IH s1)].
    exists s. by rewrite Et.
Qed.

(** When the loop over [as_completed] ends normally it has seen every
    future, once, in the order of completion. *)
Lemma pool_as_completed_Forall2 {A} (tasks : list (M St A)) (timeout : Q) (s : St)
    (outs : list (result A)) (s' : St) :
  pool_as_completed tasks timeout s = (Ok outs, s') →
  ∃ fin, fin ≡ₚ tasks ∧ Forall2 (λ t o, ∃ s0, o = (t s0).1) fin outs.
Proof.
  intros Hrun.
  pose proof (pool_as_completed_cases tasks timeout s) as Hc. cbv zeta in Hc.
  pose proof (pick_order_perm
                (completion_picks (length tasks) timeout (world_of s)) tasks) as Hp.
  destruct (pick_order _ tasks) as [fin late]. simpl in Hp.
  destruct late as [|t late].
  - destruct Hc as (outs' & s1 & Hpool & Hf). rewrite Hrun in Hpool.
    injection Hpool as <- <-. exists fin. rewrite app_nil_r in Hp.
    split; [done|]. by apply (for_each_attempt_Forall2 fin s outs s').
  - destruct Hc as (s1 & Hpool). rewrite Hrun in Hpool. discriminate.
Qed.

(** A pool without futures returns at once. *)
Lemma pool_as_completed_nil {A} (timeout : Q) (s : St) :
  pool_as_completed (A := A) [] timeout s = (Ok [], s).
Proof.
  unfold pool_as_completed, bind, gets. cbv beta iota.
  destruct (completion_picks _ _ _) as [|k picks]; reflexivity.
Qed.

End Pool.
End EffFacts.

(** ** health.py *)
Module HealthFacts.
Import Py Eff Eff.Notations Health Machine Monitor Frame EffFacts RouteSpec.

Lemma is_up_init (service : string) : is_up init service = false.
Proof. unfold is_up, init. simpl. by rewrite lookup_empty. Qed.

Lemma is_up_register (self : ServiceHealth) (name health_url : string)
    (headers : option (list (string * string))) :
  is_up (register self name health_url headers) name = false.
Proof. unfold is_up, register. simpl. by rewrite lookup_insert_eq. Qed.

Lemma is_up_no_status (self : ServiceHealth) (service : string) :
  _status self !! service = None → is_up self service = false.
Proof. unfold is_up. by intros ->. Qed.

Section Refresh.
Context `{HasWorld St}.

(** A probe answers for the service it was started for. *)
Lemma _probe_name (name url : string) (headers : list (string * string)) (s : St) :
  ∃ ok, (_probe name url headers s).1 = Ok (name, ok).
Proof.
  unfold _probe, try_except, bind, on_world, ret.
  destruct (requests_get url headers _ (world_of s)) as [[r|e] w]; simpl;
    by eexists.
Qed.

Lemma refresh_fold_other (self : ServiceHealth) (outs : list (result (string * bool)))
    (acc : gmap string bool) (n : string) :
  Forall (probed self) outs → _endpoints self !! n = None →
  foldl (λ acc o, match o with
                  | Ok (n, ok) => <[n := ok]> acc
                  | Raise _ => acc
                  end) acc outs !! n = acc !! n.
Proof.
  intros Hall Hn. revert acc.
  induction Hall as [|o outs Ho _ IH]; intros acc; simpl; [done|].
  rewrite IH. destruct o as [[m ok]|e]; [|done].
  simpl in Ho. apply lookup_insert_ne. intros ->.
  rewrite Hn in Ho. by destruct Ho.
Qed.

(** [refresh] either raises the [TimeoutError] of [as_completed] or returns
    the monitor with the same services, the status of every name that was
    never registered being what it was. *)
Lemma refresh_result (self : ServiceHealth) (s : St) :
  match (refresh self s).1 with
  | Ok self' =>
      _endpoints self' = _endpoints self
      ∧ ∀ n, _endpoints self !! n = None → _status self' !! n = _status self !! n
  | Raise e => exn_class_of e = TimeoutError
  end.
Proof.
  unfold refresh, bind.
  set (tasks := map _ (map_to_list (_endpoints self))).
  pose proof (pool_as_completed_cases tasks 10 s) as Hc. cbv zeta in Hc.
  pose proof (pool_as_completed_Forall (probed self) tasks 10 s) as Hall.
  destruct (pool_as_completed tasks 10 s) as [[outs|e] s1]; simpl.
  - split; [done|]. intros n Hn.
    rewrite lookup_union_r; [done|].
    rewrite (refresh_fold_other self); [apply lookup_empty| |done].
    apply (Hall outs s1); [|done].
    intros t Ht s0. subst tasks.
    apply list_elem_of_In, in_map_iff in Ht as [[name [url hdrs]] [<- Hin]].
    apply list_elem_of_In, elem_of_map_to_list in Hin.
    destruct (_probe_name name url hdrs s0) as [ok ->]. simpl. by eexists.
  - destruct (pick_order _ tasks) as [done [|t late]].
    + destruct Hc as (? & ? & ? & ?). discriminate.
    + destruct Hc as (? & [= -> _]). done.
Qed.

End Refresh.
End HealthFacts.

(** ** orchestrator.py: the router *)
Module RouteFacts.
Import Py Eff Eff.Notations Config Health Machine Orchestrator.
Import Frame EffFacts HealthFacts RouteSpec PyFacts.
Local Open Scope list_scope.

Section Route.
Context `{Runtime}.

Lemma keeps_monitor_on_world {A} (op : World → result A * World) :
  keeps monitor (on_world op).
Proof. intros s. unfold on_world. simpl. by destruct (op (world s)). Qed.

Lemma keeps_dispatched_on_world {A} (op : World → result A * World) :
  keeps dispatched (on_world op).
Proof. intros s. unfold on_world. simpl. by destruct (op (world s)). Qed.

Lemma keeps_raise_for_status {X} (f : state → X) (r : Response) :
  keeps f (raise_for_status r).
Proof.
  unfold raise_for_status. destruct (_ && _); [apply keeps_raise | apply keeps_ret].
Qed.

Lemma _chat_completion_keeps_monitor model messages base_url api_key timeout :
  keeps monitor (_chat_completion model messages base_url api_key timeout).
Proof.
  unfold _chat_completion.
  apply keeps_bind; [apply keeps_monitor_on_world|]. intros r.
  apply keeps_bind; [apply keeps_raise_for_status|]. intros _. apply keeps_lift.
Qed.

Lemma _chat_completion_keeps_dispatched model messages base_url api_key timeout :
  keeps dispatched (_chat_completion model messages base_url api_key timeout).
Proof.
  unfold _chat_completion.
  apply keeps_bind; [apply keeps_dispatched_on_world|]. intros r.
  apply keeps_bind; [apply keeps_raise_for_status|]. intros _. apply keeps_lift.
Qed.

Lemma refresh_keeps {X} (f : state → X) (self : ServiceHealth) :
  (∀ A (op : World → result A * World), keeps f (on_world op)) →
  keeps f (Monitor.refresh self).
Proof.
  intros Hop. unfold Monitor.refresh.
  apply keeps_bind; [|intros; apply keeps_ret].
  apply keeps_pool_as_completed. intros t Ht.
  apply list_elem_of_In, in_map_iff in Ht as [[name [url hdrs]] [<- _]].
  unfold Monitor._probe. apply keeps_try_except; [|intros; apply keeps_ret].
  apply keeps_bind; [apply Hop | intros; apply keeps_ret].
Qed.

(** [health.refresh()] on the shared monitor: no request for a completion
    is made, and either the wait for the probes ends in [TimeoutError], the
    monitor being left as it was, or the monitor knows the same services and
    nothing new about a name that was never registered. *)
Lemma health_refresh_run (s : state) :
  ∃ r s', health_refresh s = (r, s')
    ∧ dispatched s' = dispatched s
    ∧ match r with
      | Ok _ =>
          _endpoints (monitor s') = _endpoints (monitor s)
          ∧ ∀ n, _endpoints (monitor s) !! n = None →
                 _status (monitor s') !! n = _status (monitor s) !! n
      | Raise e => monitor s' = monitor s ∧ exn_class_of e = TimeoutError
      end.
Proof.
  unfold health_refresh, bind, gets, modify.
  pose proof (refresh_result (monitor s) s) as Hres.
  pose proof (refresh_keeps dispatched (monitor s)
                (@keeps_dispatched_on_world) s) as Hd.
  pose proof (refresh_keeps monitor (monitor s)
                (@keeps_monitor_on_world) s) as Hm.
  destruct (Monitor.refresh (monitor s) s) as [[h'|e] s1]; simpl in *.
  - do 2 eexists. split; [reflexivity|]. simpl. split; [done|]. exact Hres.
  - do 2 eexists. split; [reflexivity|]. by split.
Qed.

(** One request of the router: the state after it keeps the monitor and
    has one more entry in the ghost log. *)
Lemma logged_chat_run (entry : ModelEntry) model messages base_url api_key timeout
    (s : state) :
  ∃ r s', logged entry (_chat_completion model messages base_url api_key timeout) s
          = (r, s')
    ∧ monitor s' = monitor s
    ∧ dispatched s' = dispatched s
                      ++ [(entry, match r with Ok _ => None | Raise e => Some e end)].
Proof.
  unfold logged.
  pose proof (_chat_completion_keeps_monitor model messages base_url api_key timeout s).
  pose proof (_chat_completion_keeps_dispatched model messages base_url api_key timeout s).
  destruct (_chat_completion _ _ _ _ _ s) as [r s1]. simpl in *.
  do 2 eexists. split; [reflexivity|]. simpl. split; [done|]. congruence.
Qed.

Lemma try_candidates_run health messages t timeout
    (cands : list ModelEntry) (last : option exn) (s : state) :
  ∃ r trace s',
    try_candidates health messages t timeout cands last s = (Ok r, s')
    ∧ monitor s' = monitor s
    ∧ dispatched s' = dispatched s ++ trace
    ∧ match r with
      | inl res =>
          ∃ before e rest,
            filter (λ e, eligible health (monitor s) e = true) cands
            = before.*1 ++ e :: rest
            ∧ trace = before ++ [(e, None)]
            ∧ Forall failed before
            ∧ r_model res = model_id e ∧ r_tier res = t
      | inr last' =>
          trace.*1 = filter (λ e, eligible health (monitor s) e = true) cands
          ∧ Forall failed trace
          ∧ last' = final_error last trace
      end.
Proof.
  revert last s. induction cands as [|e cands IH]; intros last s.
  - exists (inr last), [], s. simpl. rewrite app_nil_r. repeat split; by constructor.
  - cbn [try_candidates]. unfold bind at 1, gets.
    destruct (health && negb (is_up (monitor s) (name (endpoint e)))) eqn:Hskip.
    + destruct (IH last s) as (r & trace & s' & Hrun & Hm & Hd & Hr).
      exists r, trace, s'. split; [exact Hrun|]. split; [done|]. split; [done|].
      rewrite filter_cons_False; [done|].
      unfold eligible. apply andb_true_iff in Hskip as [-> Hup].
      apply negb_true_iff in Hup. rewrite Hup. done.
    + assert (eligible health (monitor s) e = true) as Hel.
      { unfold eligible. destruct health; [|done]. simpl in *.
        by apply negb_false_iff in Hskip. }
      rewrite filter_cons_True by done.
      unfold bind at 1, attempt, bind at 1, time_monotonic, gets, bind at 1.
      destruct (logged_chat_run e (model_id e) messages (url (endpoint e))
                  (api_key (endpoint e)) timeout s) as (rc & s1 & -> & Hm1 & Hd1).
      destruct rc as [resp|exc].
      * unfold bind, ret. simpl.
        eexists (inl _), [(e, None)], s1. split; [reflexivity|].
        split; [done|]. split; [done|].
        exists [], e, (filter (λ e, eligible health (monitor s) e = true) cands).
        repeat split; by constructor.
      * destruct (IH (Some exc) s1) as (r & trace & s' & Hrun & Hm & Hd & Hr).
        exists r, ((e, Some exc) :: trace), s'. split; [exact Hrun|].
        split; [congruence|]. split.
        { rewrite Hd, Hd1, <- app_assoc. done. }
        rewrite Hm1 in Hr. destruct r as [res|last'].
        -- destruct Hr as (before & e' & rest & Hf & -> & Hb & Hmod & Htier).
           exists ((e, Some exc) :: before), e', rest.
           split; [rewrite Hf; by csimpl|]. split; [done|].
           split; [constructor; [by eexists | done]|]. done.
        -- destruct Hr as (Hf & Hb & ->). split; [rewrite <- Hf; by csimpl|].
           split; [constructor; [by eexists | done]|]. done.
Qed.

Lemma final_error_app (last : option exn) (tr1 tr2 : list (ModelEntry * option exn)) :
  final_error last (tr1 ++ tr2) = final_error (final_error last tr1) tr2.
Proof.
  revert last. induction tr1 as [|[e err] tr1 IH]; intros last; simpl; [done|].
  apply IH.
Qed.

Lemma final_error_last (last : option exn) (tr : list (ModelEntry * option exn))
    (e : ModelEntry) (exc : exn) :
  final_error last (tr ++ [(e, Some exc)]) = Some exc.
Proof. by rewrite final_error_app. Qed.

Lemma search_tiers_run cfg health messages (order : list string)
    (last : option exn) (s : state) :
  ∃ r trace s',
    search_tiers cfg health messages order last s = (Ok r, s')
    ∧ monitor s' = monitor s
    ∧ dispatched s' = dispatched s ++ trace
    ∧ search_outcome
        (filter (λ e, eligible health (monitor s) e = true)
                (flat_map (get_tier_models cfg) order))
        last trace r.
Proof.
  revert last s. induction order as [|t order IH]; intros last s.
  - exists (inr last), [], s. simpl. rewrite app_nil_r. repeat split; by constructor.
  - cbn [search_tiers flat_map]. unfold bind at 1.
    destruct (try_candidates_run health messages t (get_tier_timeout cfg t)
                (get_tier_models cfg t) last s)
      as (r1 & tr1 & s1 & -> & Hm1 & Hd1 & Hr1).
    rewrite filter_app. destruct r1 as [res|last1].
    + exists (inl res), tr1, s1. split; [done|]. split; [done|]. split; [done|].
      destruct Hr1 as (before & e & rest & Hf & -> & Hb & Hmod & Htier).
      exists before, e, (rest ++ filter (λ e, eligible health (monitor s) e = true)
                                   (flat_map (get_tier_models cfg) order)).
      split; [by rewrite Hf, <- app_assoc|]. split; [done|]. split; [done|].
      split; [done|]. rewrite Htier.
      assert (e ∈ filter (λ e, eligible health (monitor s) e = true)
                         (get_tier_models cfg t)) as Hin.
      { rewrite Hf. apply elem_of_app. right. by left. }
      apply list_elem_of_filter in Hin as [_ Hin].
      unfold get_tier_models in Hin. by apply list_elem_of_filter in Hin as [-> _].
    + destruct Hr1 as (Hf1 & Hb1 & ->).
      destruct (IH (final_error last tr1) s1) as (r & tr2 & s' & Hrun & Hm & Hd & Hr).
      exists r, (tr1 ++ tr2), s'. split; [exact Hrun|].
      split; [congruence|]. split; [by rewrite Hd, Hd1, app_assoc|].
      rewrite Hm1 in Hr. rewrite <- Hf1. destruct r as [res|last'].
      * destruct Hr as (before & e & rest & Hf & -> & Hb & Hmod & Htier).
        exists (tr1 ++ before), e, rest.
        split; [by rewrite Hf, fmap_app, <- app_assoc|].
        split; [by rewrite app_assoc|]. split; [by apply Forall_app|]. done.
      * destruct Hr as (Hf & Hb & ->).
        split; [by rewrite fmap_app, Hf|]. split; [by apply Forall_app|].
        by rewrite final_error_app.
Qed.

(** [auto_route] when the refresh raises: the exception is the one of the
    refresh, and no request was made. *)
Lemma auto_route_refresh_raises prompt system tier cfg health (s s1 : state)
    (exc : exn) :
  refresh_if health s = (Raise exc, s1) →
  auto_route prompt system tier cfg health s = (Raise exc, s1).
Proof. intros Hr. unfold auto_route, bind at 1. by rewrite Hr. Qed.

(** [auto_route] after the refresh, [s1] being the state it starts the
    search in. *)
Lemma auto_route_run prompt system tier cfg health (s s1 : state) :
  refresh_if health s = (Ok tt, s1) →
  let detected := detect_tier cfg tier prompt in
  ∃ r trace s',
    auto_route prompt system tier cfg health s = (r, s')
    ∧ monitor s' = monitor s1
    ∧ dispatched s' = dispatched s1 ++ trace
    ∧ match r with
      | Ok res =>
          search_outcome
            (filter (λ e, eligible health (monitor s1) e = true)
                    (candidates_of cfg detected))
            None trace (inl res)
      | Raise exc =>
          search_outcome
            (filter (λ e, eligible health (monitor s1) e = true)
                    (candidates_of cfg detected))
            None trace (inr (final_error None trace))
          ∧ exc = Exn RuntimeError (exhausted_msg detected (final_error None trace))
      end.
Proof.
  intros Href detected. unfold auto_route, bind at 1. rewrite Href.
  fold detected. unfold bind at 1.
  destruct (search_tiers_run cfg health (build_messages system prompt)
              (search_order detected) None s1)
    as (r & trace & s' & -> & Hm & Hd & Hr).
  destruct r as [res|last'].
  - exists (Ok res), trace, s'. by repeat split.
  - destruct Hr as (Hf & Hb & ->).
    exists (Raise (Exn RuntimeError (exhausted_msg detected (final_error None trace)))),
      trace, s'.
    by repeat split.
Qed.

Lemma filter_all_eligible (h : ServiceHealth) (l : list ModelEntry) :
  filter (λ e, eligible false h e = true) l = l.
Proof.
  induction l as [|e l IH]; [done|].
  rewrite filter_cons_True by done. by rewrite IH.
Qed.

Lemma candidates_fast_only (cfg : SwarmConfig) (m : ModelEntry) :
  models cfg = [m] → tier m = "fast" → candidates_of cfg "T3" = [m].
Proof.
  intros Hm Ht. unfold candidates_of, search_order, get_tier_models. simpl.
  rewrite Hm.
  rewrite (filter_cons_False _ m) by (rewrite Ht; discriminate).
  rewrite (filter_cons_False _ m) by (rewrite Ht; discriminate).
  rewrite (filter_cons_True _ m) by done. done.
Qed.

(** C1: the search order of a tier is the static table, T1 to [fast], T2 to
    [power, fast], T3 to [deep, power, fast]; the candidates are the entries
    of these tiers in that order, each tier in registration order, a tier
    without entries adding nothing; the requests [auto_route] makes go to
    the candidates that are not skipped, in that order, and stop at the first
    that succeeds.  With a single model, registered as "fast", and the tier
    forced to T3, the one request goes to that model, and its answer is the
    result. *)
Theorem auto_route_search_order prompt system tier cfg health (s s1 : state) :
  refresh_if health s = (Ok tt, s1) →
  let detected := detect_tier cfg tier prompt in
  (search_order "T1" = ["fast"]
   ∧ search_order "T2" = ["power"; "fast"]
   ∧ search_order "T3" = ["deep"; "power"; "fast"])
  ∧ candidates_of cfg detected
    = flat_map (λ t, filter (λ m, Config.tier m = t) (models cfg))
               (search_order detected)
  ∧ ∃ r trace s',
      auto_route prompt system tier cfg health s = (r, s')
      ∧ dispatched s' = dispatched s1 ++ trace
      ∧ (∃ rest,
           filter (λ e, eligible health (monitor s1) e = true)
                  (candidates_of cfg detected) = trace.*1 ++ rest
           ∧ match r with
             | Ok res =>
                 ∃ before e, trace = before ++ [(e, None)] ∧ Forall failed before
                             ∧ r_model res = model_id e ∧ r_tier res = Config.tier e
             | Raise _ => rest = [] ∧ Forall failed trace
             end)
      ∧ (∀ m, models cfg = [m] → Config.tier m = "fast" → detected = "T3" →
              health = false →
              ∃ err, trace = [(m, err)]
                     ∧ match r with
                       | Ok res => err = None ∧ r_model res = model_id m
                                   ∧ r_tier res = "fast"
                       | Raise _ => is_Some err
                       end).
Proof.
  intros Href detected. split; [done|]. split; [done|].
  destruct (auto_route_run prompt system tier cfg health s s1 Href)
    as (r & trace & s' & Hrun & Hm & Hd & Hr).
  fold detected in Hr.
  exists r, trace, s'. split; [done|]. split; [done|]. split.
  - destruct r as [res|exc].
    + destruct Hr as (before & e & rest & Hf & -> & Hb & Hmod & Htier).
      exists rest. split; [by rewrite Hf, fmap_app, <- app_assoc|].
      by exists before, e.
    + destruct Hr as [(Hf & Hb & _) _]. exists []. by rewrite app_nil_r.
  - intros m Hmodels Hfast Hdet ->.
    rewrite filter_all_eligible, Hdet, (candidates_fast_only cfg m) in Hr by done.
    destruct r as [res|exc].
    + destruct Hr as (before & e & rest & Hf & -> & Hb & Hmod & Htier).
      destruct before as [|b before].
      * simpl in Hf. injection Hf as <- <-. exists None. split; [done|].
        by rewrite Htier, Hfast.
      * exfalso. csimpl in Hf. injection Hf as _ Hf.
        by destruct (before.*1).
    + destruct Hr as [(Hf & Hb & _) _].
      destruct trace as [|[e err] [|p trace]]; try done.
      simpl in Hf. injection Hf as ->. exists err. split; [done|].
      by apply Forall_cons in Hb as [Hb _].
Qed.

(** C6: with a monitor, every request goes to an entry whose endpoint the
    monitor, as [auto_route] refreshed it, reports up; and when no request
    succeeds, every candidate having failed or been skipped, [auto_route]
    raises the [RuntimeError] whose text ends with the text of the last
    error, or with "None" when nothing was asked.  The one other way out is
    the [TimeoutError] of the refresh itself, before any request. *)
Theorem auto_route_skips_down prompt system tier cfg health (s : state) :
  let detected := detect_tier cfg tier prompt in
  ∃ r trace s',
    auto_route prompt system tier cfg health s = (r, s')
    ∧ dispatched s' = dispatched s ++ trace
    ∧ (health = true →
       Forall (λ p, is_up (monitor s') (name (endpoint p.1)) = true) trace)
    ∧ (Forall failed trace →
       (∃ exc, health = true ∧ refresh_if health s = (Raise exc, s')
               ∧ r = Raise exc ∧ exn_class_of exc = TimeoutError ∧ trace = [])
       ∨ (∃ last,
            r = Raise (Exn RuntimeError (exhausted_msg detected last))
            ∧ (∀ c, c ∈ candidates_of cfg detected →
                    (health = true ∧ is_up (monitor s') (name (endpoint c)) = false)
                    ∨ ∃ exc, (c, Some exc) ∈ trace)
            ∧ (trace = [] → last = None)
            ∧ (∀ tr c exc, trace = tr ++ [(c, Some exc)] →
                 last = Some exc
                 ∧ Spec.occurs (exn_msg exc) (exhausted_msg detected last)))).
Proof.
  intros detected.
  destruct (refresh_if health s) as [[[]|exc] s1] eqn:Href.
  - destruct (auto_route_run prompt system tier cfg health s s1 Href)
      as (r & trace & s' & Hrun & Hm & Hd & Hr).
    fold detected in Hr.
    assert (dispatched s1 = dispatched s) as Hd1.
    { destruct health; simpl in Href; [|by injection Href as <-].
      destruct (health_refresh_run s) as (r0 & s0 & Hrun0 & Hd0 & _).
      rewrite Hrun0 in Href. by injection Href as _ <-. }
    assert (∀ c, c ∈ trace.*1 → c ∈ filter (λ e, eligible health (monitor s1) e = true)
                                          (candidates_of cfg detected)) as Hsub.
    { intros c Hc. destruct r as [res|exc].
      - destruct Hr as (before & e & rest & -> & -> & _).
        rewrite fmap_app in Hc. apply elem_of_app in Hc as [Hc|Hc].
        + apply elem_of_app. by left.
        + apply list_elem_of_singleton in Hc as ->. apply elem_of_app.
          right. by left.
      - destruct Hr as [(<- & _) _]. done. }
    exists r, trace, s'. split; [done|]. split; [by rewrite Hd, Hd1|]. split.
    + intros ->. apply Forall_forall. intros [c err] Hin.
      assert (c ∈ trace.*1) as Hc.
      { apply list_elem_of_fmap. by exists (c, err). }
      apply Hsub, list_elem_of_filter in Hc as [Hel _].
      simpl. by rewrite Hm.
    + intros Hfailed. right. destruct r as [res|exc].
      * exfalso. destruct Hr as (before & e & rest & _ & -> & _).
        apply Forall_app in Hfailed as [_ Hf].
        apply Forall_cons in Hf as [[x Hx] _]. done.
      * destruct Hr as [(Hf & _ & _) ->].
        exists (final_error None trace). split; [done|]. split; [|split].
        -- intros c Hc.
           destruct (eligible health (monitor s1) c) eqn:Hel.
           ++ right.
              assert (c ∈ trace.*1) as Hin.
              { rewrite Hf. by apply list_elem_of_filter. }
              apply list_elem_of_fmap in Hin as [[c' err] [-> Hin]].
              rewrite Forall_forall in Hfailed.
              destruct (Hfailed _ Hin) as [exc Hexc]. simpl in Hexc. subst err.
              by exists exc.
           ++ left. unfold eligible in Hel.
              apply orb_false_iff in Hel as [Hh Hup].
              apply negb_false_iff in Hh. by rewrite Hm.
        -- by intros ->.
        -- intros tr c exc ->. rewrite final_error_last. split; [done|].
           unfold exhausted_msg. do 3 apply occurs_app_r. apply occurs_refl.
  - rewrite (auto_route_refresh_raises _ _ _ _ _ _ _ _ Href).
    destruct health; simpl in Href; [|discriminate].
    destruct (health_refresh_run s) as (r0 & s0 & Hrun0 & Hd0 & Hr0).
    rewrite Hrun0 in Href. injection Href as -> ->.
    exists (Raise exc), [], s1. split; [done|]. split; [by rewrite app_nil_r|].
    split; [by constructor|]. intros _. left. exists exc.
    destruct Hr0 as [_ Hcls]. by repeat split.
Qed.

(** C10: a monitor reports down every service without a successful probe:
    one that was never registered, and one that was registered and not yet
    refreshed.  So with a monitor no request of [auto_route] goes to an entry
    whose endpoint name the monitor has never heard of. *)
Theorem unknown_endpoint_never_dispatched :
  (∀ service, is_up init service = false)
  ∧ (∀ self service, _status self !! service = None → is_up self service = false)
  ∧ (∀ self name health_url headers,
       is_up (register self name health_url headers) name = false)
  ∧ (∀ prompt system tier cfg (s : state),
       ∃ r trace s',
         auto_route prompt system tier cfg true s = (r, s')
         ∧ dispatched s' = dispatched s ++ trace
         ∧ ∀ e, e ∈ trace.*1 → ¬ unknown_to (monitor s) (name (endpoint e))).
Proof.
  split; [exact is_up_init|]. split; [exact is_up_no_status|].
  split; [exact is_up_register|].
  intros prompt system tier cfg s.
  destruct (health_refresh_run s) as (r0 & s1 & Hrun0 & Hd0 & Hr0).
  destruct r0 as [[]|exc].
  - destruct (auto_route_run prompt system tier cfg true s s1 Hrun0)
      as (r & trace & s' & Hrun & Hm & Hd & Hr).
    exists r, trace, s'. split; [done|]. split; [by rewrite Hd, Hd0|].
    intros e He [Hne Hns].
    assert (e ∈ filter (λ e, eligible true (monitor s1) e = true)
                       (candidates_of cfg (detect_tier cfg tier prompt))) as Hin.
    { destruct r as [res|exc].
      - destruct Hr as (before & e' & rest & -> & -> & _).
        rewrite fmap_app in He. apply elem_of_app in He as [He|He].
        + apply elem_of_app. by left.
        + apply list_elem_of_singleton in He as ->. apply elem_of_app.
          right. by left.
      - destruct Hr as [(<- & _) _]. done. }
    apply list_elem_of_filter in Hin as [Hel _].
    unfold eligible, is_up in Hel. simpl in Hel.
    destruct Hr0 as [_ Hsame]. rewrite (Hsame _ Hne), Hns in Hel. done.
  - exists (Raise exc), [], s1.
    split; [by apply auto_route_refresh_raises|].
    split; [by rewrite app_nil_r|]. intros e He. by apply elem_of_nil in He.
Qed.

End Route.

(** The configuration with one "fast" model, the tier forced to T3 and a
    backend that answers: the one request goes to that model. *)
Lemma auto_route_search_order_witness :
  @refresh_if Script.runtime false (Script.start Script.hello_world)
  = (Ok tt, Script.start Script.hello_world)
  ∧ ∃ r trace s',
      @auto_route Script.runtime "Hi" None (Some "T3") Script.cfg_fast_only false
        (Script.start Script.hello_world) = (r, s')
      ∧ dispatched s' = trace
      ∧ ∃ err, trace = [(Script.fast_entry, err)]
               ∧ match r with
                 | Ok res => err = None ∧ r_model res = "fast-model-id"
                             ∧ r_tier res = "fast"
                 | Raise _ => is_Some err
                 end.
Proof.
  split; [reflexivity|].
  destruct (@auto_route_search_order Script.runtime "Hi" None (Some "T3")
              Script.cfg_fast_only false (Script.start Script.hello_world)
              (Script.start Script.hello_world) eq_refl)
    as (_ & _ & r & trace & s' & Hrun & Hd & _ & Hone).
  exists r, trace, s'. split; [exact Hrun|]. split; [exact Hd|].
  exact (Hone Script.fast_entry eq_refl eq_refl eq_refl eq_refl).
Defined.

End RouteFacts.

(** ** orchestrator.py: consensus and pipeline *)
Module ConsensusFacts.
Import Py Eff Eff.Notations Config Health Machine Orchestrator.
Import Spec MoreSpec Frame EffFacts HealthFacts RouteSpec PyFacts RouteFacts.
Local Open Scope list_scope.

Section Consensus.
Context `{Runtime}.

Lemma occurs_synthesis_question (prompt : string) (successful : list Answer) :
  occurs prompt (synthesis_prompt_of prompt successful).
Proof.
  unfold synthesis_prompt_of.
  do 3 apply occurs_app_r. apply occurs_app_l, occurs_cons, occurs_refl.
Qed.

Lemma occurs_synthesis_answer (prompt : string) (successful : list Answer)
    (r : Answer) :
  r ∈ successful →
  occurs (str (a_response r)) (synthesis_prompt_of prompt successful).
Proof.
  intros Hin. unfold synthesis_prompt_of.
  do 6 apply occurs_app_r. apply occurs_app_l.
  apply (occurs_concat (λ r, str (a_response r))); [|done].
  intros i y. unfold synthesis_block.
  do 5 apply occurs_app_r. apply occurs_app_l, occurs_cons, occurs_refl.
Qed.

Lemma consensus_unfold prompt models system max_workers call_timeout cfg health
    (s : state) :
  consensus prompt models system max_workers call_timeout cfg health s
  = match refresh_if health s with
    | (Raise e, s1) => (Raise e, s1)
    | (Ok _, s1) =>
        if (max_workers <=? 0)%Z
        then (Raise (Exn ValueError (errmsg ValueError (PNum (inject_Z max_workers)))),
              s1)
        else
          match pool_as_completed (consensus_tasks prompt models system cfg health)
                  (call_timeout + 10) s1 with
          | (Ok outcomes, s2) => synthesize prompt cfg health (map collect outcomes) s2
          | (Raise e, s2) => (Raise e, s2)
          end
    end.
Proof.
  unfold consensus, consensus_tasks, bind.
  destruct (refresh_if health s) as [[[]|e] s1]; [|done].
  destruct (max_workers <=? 0)%Z; [done|]. simpl.
  by destruct (pool_as_completed _ _ s1) as [[outs|e] s2].
Qed.

(** [consensus] is the collection of the answers followed by [synthesize]:
    it ends before [synthesize] only in the [ValueError] of a pool without
    workers or in a [TimeoutError], of the refresh or of the wait. *)
Lemma consensus_cases prompt models system max_workers call_timeout cfg health
    (s : state) :
  (∃ exc s', consensus prompt models system max_workers call_timeout cfg health s
             = (Raise exc, s')
             ∧ (exn_class_of exc = TimeoutError ∨ exn_class_of exc = ValueError))
  ∨ (∃ outcomes s1,
       consensus prompt models system max_workers call_timeout cfg health s
       = synthesize prompt cfg health (map collect outcomes) s1).
Proof.
  rewrite consensus_unfold.
  destruct (refresh_if health s) as [[[]|exc] s1] eqn:Href.
  2: { left. exists exc, s1. split; [done|]. left.
       destruct health; simpl in Href; [|discriminate].
       destruct (health_refresh_run s) as (r0 & s0 & Hrun0 & _ & Hr0).
       rewrite Hrun0 in Href. injection Href as -> ->. by destruct Hr0. }
  destruct (max_workers <=? 0)%Z.
  { left. eexists _, s1. split; [reflexivity|]. by right. }
  pose proof (pool_as_completed_cases
                (consensus_tasks prompt models system cfg health)
                (call_timeout + 10) s1) as Hc.
  cbv zeta in Hc. destruct (pick_order _ _) as [done [|t late]].
  - destruct Hc as (outs & s2 & -> & _). right. by exists outs, s2.
  - destruct Hc as (s2 & ->). left. eexists _, s2. split; [reflexivity|]. by left.
Qed.

(** The wait of [consensus] ends with a call still running: whatever the
    calls that finished returned, [consensus] raises [TimeoutError]. *)
Lemma consensus_late_raises prompt models system max_workers call_timeout cfg
    (s : state) :
  let tasks := consensus_tasks prompt models system cfg false in
  (0 < max_workers)%Z →
  (pick_order (completion_picks (length tasks) (call_timeout + 10) (world s)) tasks).2
  ≠ [] →
  ∃ s', consensus prompt models system max_workers call_timeout cfg false s
        = (Raise (Exn TimeoutError (errmsg TimeoutError PNone)), s').
Proof.
  intros tasks Hw Hlate. rewrite consensus_unfold. simpl.
  destruct (Z.leb_spec max_workers 0) as [?|_]; [lia|]. fold tasks.
  pose proof (pool_as_completed_cases tasks (call_timeout + 10) s) as Hc.
  cbv zeta in Hc. simpl in Hc.
  destruct (pick_order _ tasks) as [fin [|t late]]; [done|].
  destruct Hc as (s2 & ->). by exists s2.
Qed.

Lemma synthesize_some prompt cfg health (results : list Answer) (s : state)
    (a : Answer) (l : list Answer) :
  successful_of results = a :: l →
  synthesize prompt cfg health results s
  = (let '(r, s1) := auto_route (synthesis_prompt_of prompt (a :: l)) None
                       (Some "T2") cfg health s in
     (Ok {| merged := match r with
                      | Ok routed => r_response routed
                      | Raise _ => PStr (concatenation_of (a :: l))
                      end;
            individual := results;
            model_count := length (a :: l) |}, s1)).
Proof.
  intros Es. unfold synthesize. rewrite Es. unfold bind, try_except, ret.
  by destruct (auto_route _ None (Some "T2") cfg health s) as [[?|?] ?].
Qed.

Lemma _call_result cfg health messages_base (entry : ModelEntry) (s : state) :
  ∃ a, (_call cfg health messages_base entry s).1 = Ok a
       ∧ a_model a = model_id entry ∧ well_formed a.
Proof.
  unfold _call, bind at 1, gets.
  destruct (health && negb (is_up (monitor s) (name (endpoint entry)))).
  - eexists. split; [reflexivity|]. split; [done|]. split; [|done].
    simpl. split; [done|]. by intros [? ?].
  - unfold try_except, bind at 1, time_monotonic, gets, bind at 1.
    destruct (logged_chat_run entry (model_id entry) messages_base
                (url (endpoint entry)) (api_key (endpoint entry))
                (get_tier_timeout cfg (tier entry)) s) as (rc & s1 & -> & _).
    destruct rc as [resp|exc]; simpl.
    + eexists. split; [reflexivity|]. split; [done|]. split; [|done].
      simpl. split; [by eexists | done].
    + eexists. split; [reflexivity|]. split; [done|]. split; [|done].
      simpl. split; [done|]. by intros [? ?].
Qed.

Lemma answers_of_calls cfg health messages_base (l : list ModelEntry)
    (outs : list (result Answer)) :
  Forall2 (λ m o, ∃ s0, o = (_call cfg health messages_base m s0).1) l outs →
  map a_model (map collect outs) = map model_id l
  ∧ Forall well_formed (map collect outs).
Proof.
  induction 1 as [|m o l outs [s0 ->] _ [IHm IHw]]; [by split|].
  destruct (_call_result cfg health messages_base m s0) as (a & -> & Hm & Hw).
  simpl. split; [by rewrite Hm, IHm | by constructor].
Qed.

Lemma join_cons_app (sep p q : string) (l : list string) :
  join sep ((p +:+ q) :: l) = p +:+ join sep (q :: l).
Proof. destruct l as [|x l]; [done|]. cbn [join]. by rewrite app_assoc_str. Qed.

Lemma join_foldl (sep x : string) (l : list string) :
  join sep (x :: l) = foldl (λ text y, text +:+ sep +:+ y) x l.
Proof.
  revert x. induction l as [|y l IH]; intros x; [done|].
  cbn [foldl]. rewrite <- IH, join_cons_app.
  change (join sep (x :: y :: l)) with (x +:+ sep +:+ join sep (y :: l)).
  by rewrite join_cons_app.
Qed.

(** The fallback of the code is the literal concatenation of the labelled
    answers. *)
Lemma concatenation_of_labelled (successful : list Answer) :
  concatenation_of successful = labelled_answers successful.
Proof.
  unfold concatenation_of, labelled_answers.
  destruct successful as [|a others]; [done|]. cbn [map].
  rewrite join_foldl. fold (labelled a). generalize (labelled a).
  induction others as [|b others IH]; intros x; [done|]. cbn [map foldl].
  rewrite IH. done.
Qed.

(** C3 (as the code has it): once the answers of the calls are collected,
    [consensus] raises the all-failed [RuntimeError] exactly when no answer
    has a response that is true: an answer that is the empty text counts as
    failed.  Otherwise it returns, with every collected answer in
    [individual], the count of the answers with a response, and as [merged]
    the response [auto_route] gives, forced to T2, to a question that
    contains the prompt and every such answer, or, when that call raises,
    the literal concatenation of these answers, each under the label of its
    model and a separator between any two.  The collected answers are those
    of [_call] for the models asked, one for each. *)
Theorem consensus_outcome prompt models system max_workers call_timeout cfg health
    (s s1 s2 : state) (outs : list (result Answer)) :
  refresh_if health s = (Ok tt, s1) →
  (0 < max_workers)%Z →
  pool_as_completed
    (map (_call cfg health (build_messages system prompt))
         (default (default_models cfg) models))
    (call_timeout + 10) s1 = (Ok outs, s2) →
  let asked := default (default_models cfg) models in
  let results := map collect outs in
  let successful := filter (λ a, truthy (a_response a) = true) results in
  let question := synthesis_prompt_of prompt successful in
  (∃ order, order ≡ₚ asked
            ∧ Forall2 (λ m a, ∃ s0, (_call cfg health (build_messages system prompt)
                                       m s0).1 = Ok a)
                      order results)
  ∧ (successful = [] ↔
     consensus prompt models system max_workers call_timeout cfg health s
     = (Raise (Exn RuntimeError "All consensus models failed."), s2))
  ∧ (successful ≠ [] →
     ∃ text s',
       consensus prompt models system max_workers call_timeout cfg health s
       = (Ok {| merged := text; individual := results;
                model_count := length successful |}, s')
       ∧ occurs prompt question
       ∧ (∀ r, r ∈ successful → occurs (str (a_response r)) question)
       ∧ match auto_route question None (Some "T2") cfg health s2 with
         | (Ok routed, s3) => text = r_response routed ∧ s' = s3
         | (Raise _, s3) => text = PStr (labelled_answers successful) ∧ s' = s3
         end).
Proof.
  intros Href Hw Hpool asked results successful question.
  assert (consensus prompt models system max_workers call_timeout cfg health s
          = synthesize prompt cfg health results s2) as ->.
  { rewrite consensus_unfold, Href.
    assert ((max_workers <=? 0)%Z = false) as -> by (by apply Z.leb_gt).
    unfold consensus_tasks. by rewrite Hpool. }
  split.
  - apply pool_as_completed_Forall2 in Hpool as (fin & Hperm & Hall).
    apply Permutation_map_inv in Hperm as (order & -> & Horder).
    exists order. split; [by symmetry|].
    apply Forall2_fmap_l in Hall. apply Forall2_fmap_r.
    eapply Forall2_impl; [exact Hall|]. intros m o [s0 ->]. exists s0.
    by destruct (_call_result cfg health (build_messages system prompt) m s0)
      as (a & -> & _).
  - subst question successful.
    change (filter _ results) with (successful_of results).
    destruct (successful_of results) as [|a l] eqn:Es.
    + split; [|done]. split; [|done]. intros _. unfold synthesize. by rewrite Es.
    + pose proof (synthesize_some prompt cfg health results s2 a l Es) as Hrun.
      split; [split; [done|]|].
      * intros Hraise. rewrite Hraise in Hrun.
        by destruct (auto_route _ None (Some "T2") cfg health s2) as [[?|?] ?].
      * intros _. rewrite <- concatenation_of_labelled.
        destruct (auto_route _ None (Some "T2") cfg health s2) as [[routed|e] s3].
        -- exists (r_response routed), s3. split; [done|].
           split; [apply occurs_synthesis_question|].
           split; [apply occurs_synthesis_answer|]. done.
        -- exists (PStr (concatenation_of (a :: l))), s3. split; [done|].
           split; [apply occurs_synthesis_question|].
           split; [apply occurs_synthesis_answer|]. done.
Qed.

(** [_knowledge_search] never raises: a request that fails gives no
    results. *)
Lemma _knowledge_search_failure (knowledge_url query : string) (s s' : state)
    (exc : exn) :
  search_request knowledge_url query s = (Raise exc, s') →
  _knowledge_search knowledge_url query s = (Ok (PList []), s').
Proof. intros Hreq. unfold _knowledge_search, try_except. by rewrite Hreq. Qed.

Lemma _knowledge_add_returns (knowledge_url text dataset : string) (s : state) :
  ∃ b s', _knowledge_add knowledge_url text dataset s = (Ok b, s').
Proof.
  unfold _knowledge_add, try_except.
  destruct (bind _ _ s) as [[b|e] s']; by do 2 eexists.
Qed.

(** A search request that fails raises inside [_knowledge_search]. *)
Lemma search_request_fails (knowledge_url query : string) (s : state)
    (outcome : result Response) (w : World) :
  session_post (rstrip_slash knowledge_url +:+ "/search") None
    (PDict [ ("query", PStr query); ("query_type", PStr "GRAPH_COMPLETION") ])
    (5, 30)%Q (world s) = (outcome, w) →
  search_fails outcome →
  ∃ exc, search_request knowledge_url query s = (Raise exc, with_world w s).
Proof.
  intros Hpost Hfails. unfold search_request, bind, on_world.
  cbn [world_of state_HasWorld]. rewrite Hpost.
  destruct outcome as [r|exc]; [|by eexists].
  unfold raise_for_status.
  destruct ((400 <=? status_code r)%Z && (status_code r <? 600)%Z) eqn:Hcode;
    [by eexists|].
  destruct Hfails as [Hrange|Hjson].
  { apply andb_false_iff in Hcode as [Hc|Hc]; [apply Z.leb_gt in Hc|apply Z.ltb_ge in Hc];
      lia. }
  unfold ret, lift. cbv beta iota.
  destruct (json r) as [data|exc]; [|by eexists].
  destruct data; try done; by eexists.
Qed.

(** The first steps of [pipeline] when the search request fails. *)
Ltac pipeline_prelude :=
  match goal with
  | Href : refresh_if _ _ = _, Hk : knowledge_url _ = Some ?kurl,
    Htruthy : opt_truthy _ = true, Hreq : search_request _ _ _ = _,
    Hgen : generate _ _ _ _ _ _ = _ |- _ =>
      rewrite Href; cbv beta iota; rewrite Htruthy, Hk; cbn [andb default];
      cbv beta iota; change (id kurl) with kurl;
      rewrite (_knowledge_search_failure _ _ _ _ _ Hreq); cbv beta iota;
      unfold lift at 1;
      change (_format_context (PList [])) with (Ok (A := string) EmptyString);
      cbv beta iota; unfold ret at 1; cbv beta iota;
      unfold time_monotonic at 1, gets at 1; cbv beta iota;
      rewrite Hgen; cbv beta iota
  end.

(** After a search request that raised, [pipeline] is its second step on the
    prompt as it is. *)
Lemma pipeline_after_failed_search prompt store use_consensus tier cfg health
    (kurl : string) (s s1 s2 : state) (exc : exn) :
  knowledge_url cfg = Some kurl → kurl ≠ EmptyString →
  refresh_if health s = (Ok tt, s1) →
  search_request kurl prompt s1 = (Raise exc, s2) →
  match generate prompt use_consensus tier cfg health s2 with
  | (Raise e, s3) =>
      pipeline prompt true store use_consensus tier cfg health s = (Raise e, s3)
  | (Ok (text, info), s3) =>
      ∃ res s4,
        pipeline prompt true store use_consensus tier cfg health s = (Ok res, s4)
        ∧ answer res = text ∧ model_info res = info
        ∧ prompt_original res = prompt ∧ prompt_enriched res = prompt
        ∧ context_results_count res = 0%nat ∧ stored res = store
        ∧ total_latency_s res = round2 (monotonic (world s3) - monotonic (world s2))
        ∧ (store = false → s4 = s3)
  end.
Proof.
  intros Hk Hne Href Hreq.
  assert (opt_truthy (knowledge_url cfg) = true) as Htruthy.
  { rewrite Hk. by destruct kurl. }
  destruct (generate prompt use_consensus tier cfg health s2)
    as [[[text info]|e] s3] eqn:Hgen.
  - unfold pipeline, bind. pipeline_prelude.
    unfold time_monotonic at 1, gets at 1. cbv beta iota.
    destruct store; cbn [andb].
    + unfold gets at 1. cbv beta iota.
      match goal with
      | |- context [_knowledge_add ?u ?t ?d ?st] =>
          destruct (_knowledge_add_returns u t d st) as (b & s4 & ->)
      end.
      cbv beta iota. do 2 eexists. split; [reflexivity|]. by repeat split.
    + do 2 eexists. split; [reflexivity|]. by repeat split.
  - unfold pipeline, bind. by pipeline_prelude.
Qed.

(** C7 (as the code has it): with [enrich] set and a knowledge store
    configured, when the search request itself fails, that is, the store
    cannot be reached, or answers with an error status, or with a body that
    is no JSON, or with JSON that is neither a list nor an object, the
    search counts as empty and [pipeline] goes on to the generation with the
    prompt as it is: to [consensus] when [use_consensus] is set, to
    [auto_route] with the tier asked for otherwise.  When the generation
    returns, [pipeline] returns its answer, with the model information of
    the generation, no context results and the original prompt as enriched
    prompt; [pipeline] raises only what the generation raises. *)
Theorem pipeline_search_failure prompt store use_consensus tier cfg health
    (kurl : string) (s s1 : state) (outcome : result Response) (w : World) :
  knowledge_url cfg = Some kurl → kurl ≠ EmptyString →
  refresh_if health s = (Ok tt, s1) →
  session_post (rstrip_slash kurl +:+ "/search") None
    (PDict [ ("query", PStr prompt); ("query_type", PStr "GRAPH_COMPLETION") ])
    (5, 30)%Q (world s1) = (outcome, w) →
  search_fails outcome →
  let s2 := {| world := w; monitor := monitor s1; dispatched := dispatched s1 |} in
  let returns (text info : pyval) (s3 : state) :=
    ∃ res s4,
      pipeline prompt true store use_consensus tier cfg health s = (Ok res, s4)
      ∧ answer res = text ∧ model_info res = info
      ∧ prompt_original res = prompt ∧ prompt_enriched res = prompt
      ∧ context_results_count res = 0%nat ∧ stored res = store
      ∧ total_latency_s res = round2 (monotonic (world s3) - monotonic w)
      ∧ (store = false → s4 = s3) in
  if use_consensus
  then
    match consensus prompt None None 5 90 cfg health s2 with
    | (Raise e, s3) =>
        pipeline prompt true store use_consensus tier cfg health s = (Raise e, s3)
    | (Ok agreed, s3) =>
        returns (merged agreed)
          (PDict [ ("consensus", PBool true);
                   ("model_count", PNum (inject_Z (Z.of_nat (model_count agreed)))) ])
          s3
    end
  else
    match auto_route prompt None tier cfg health s2 with
    | (Raise e, s3) =>
        pipeline prompt true store use_consensus tier cfg health s = (Raise e, s3)
    | (Ok routed, s3) =>
        returns (r_response routed)
          (PDict [ ("model", PStr (r_model routed)); ("tier", PStr (r_tier routed)) ])
          s3
    end.
Proof.
  intros Hk Hne Href Hpost Hfails s2 returns.
  destruct (search_request_fails kurl prompt s1 outcome w Hpost Hfails) as [exc Hreq].
  change (with_world w s1) with s2 in Hreq.
  pose proof (pipeline_after_failed_search prompt store use_consensus tier cfg health
                kurl s s1 s2 exc Hk Hne Href Hreq) as Hrun.
  unfold generate, bind in Hrun. subst returns. cbv beta.
  destruct use_consensus.
  - destruct (consensus prompt None None 5 90 cfg health s2) as [[agreed|e] s3];
      exact Hrun.
  - destruct (auto_route prompt None tier cfg health s2) as [[routed|e] s3];
      exact Hrun.
Qed.

End Consensus.

(** Two models answer "A" and "B" and the backend then refuses the
    synthesis: [consensus] returns both answers and, as the merged text, the
    two labelled answers with the separator between them. *)
Lemma consensus_outcome_witness :
  ∃ first second s',
    (a_model first = "quick"%string ∧ a_response first = PStr "A")
    ∧ (a_model second = "slow"%string ∧ a_response second = PStr "B")
    ∧ @consensus Script.runtime "Q" None None 5 90 Script.cfg_two false
        (Script.start Runs.two_answer_world)
      = (Ok {| merged := PStr ("[quick]" +:+ String "010" "A"
                               +:+ String "010" (String "010" "---")
                               +:+ String "010" (String "010" "[slow]")
                               +:+ String "010" "B");
               individual := [first; second];
               model_count := 2 |}, s').
Proof.
  assert (∃ first second,
            @pool_as_completed Script.runtime _ _ _
              (map (@_call Script.runtime Script.cfg_two false (build_messages None "Q"))
                   (default (default_models Script.cfg_two) None))
              (90 + 10) (Script.start Runs.two_answer_world)
            = (Ok [Ok first; Ok second], Runs.two_answer_after)
            ∧ (a_model first = "quick"%string ∧ a_response first = PStr "A")
            ∧ (a_model second = "slow"%string ∧ a_response second = PStr "B"))
    as (first & second & Hpool & Hfirst & Hsecond)
    by (eexists _, _; split; [vm_compute; reflexivity | by repeat split]).
  destruct (@consensus_outcome Script.runtime "Q" None None 5 90 Script.cfg_two false
              (Script.start Runs.two_answer_world)
              (Script.start Runs.two_answer_world) Runs.two_answer_after
              [Ok first; Ok second] eq_refl eq_refl Hpool)
    as (_ & _ & Hsome).
  cbn [map collect] in Hsome.
  destruct first as [m1 r1 l1 e1], second as [m2 r2 l2 e2].
  cbn [a_model a_response] in Hfirst, Hsecond.
  destruct Hfirst as [-> ->], Hsecond as [-> ->].
  destruct Hsome as (text & s' & Hrun & _ & _ & Hroute); [done|].
  exists {| a_model := "quick"; a_response := PStr "A";
            a_latency_s := l1; a_error := e1 |},
         {| a_model := "slow"; a_response := PStr "B";
            a_latency_s := l2; a_error := e2 |}, s'.
  split; [done|]. split; [done|].
  rewrite Hrun.
  destruct (auto_route _ None (Some "T2") Script.cfg_two false Runs.two_answer_after)
    as [[routed|e] s3] eqn:Hsynth.
  - exfalso. vm_compute in Hsynth. discriminate.
  - destruct Hroute as [-> _]. reflexivity.
Defined.

(** C3 fails on the code as the specification has it: the only model asked
    answers, with status 200, the empty text; the call ends without an
    error and [consensus] raises the all-failed error. *)
Theorem consensus_empty_answer_fails :
  (∃ a s',
     @_call Script.runtime Script.cfg_fast_only false (build_messages None "Q")
       Script.fast_entry (Script.start Runs.empty_answer_world) = (Ok a, s')
     ∧ a_response a = PStr EmptyString ∧ a_error a = None)
  ∧ let '(r, s') := @consensus Script.runtime "Q" None None 5 90 Script.cfg_fast_only
                      false (Script.start Runs.empty_answer_world) in
    r = Raise (Exn RuntimeError "All consensus models failed.")
    ∧ dispatched s' = [(Script.fast_entry, None)].
Proof.
  split.
  - do 2 eexists. split; [vm_compute; reflexivity|]. split; reflexivity.
  - vm_compute. split; reflexivity.
Qed.

(** C4 fails on the code: of two calls the first returned its answer and the
    second was still running when the wait ended; [consensus] raises
    [TimeoutError] and returns no result. *)
Theorem consensus_late_call_raises :
  let '(r, s') := @consensus Script.runtime "Q" None None 5 90 Script.cfg_two false
                    (Script.start Script.one_late_world) in
  r = Raise (Exn TimeoutError "<error>")
  ∧ dispatched s' !! 0%nat = Some (Script.entry "quick" "fast", None).
Proof. vm_compute. split; reflexivity. Qed.

(** The knowledge store refuses the search and the backend answers "Hello":
    the pipeline returns that answer, with no context. *)
Lemma pipeline_search_failure_witness :
  ∃ res s4,
    @pipeline Script.runtime "Hi" true false false None Script.cfg_knowledge false
      (Script.start Script.store_down_world) = (Ok res, s4)
    ∧ answer res = PStr "Hello"
    ∧ model_info res = PDict [ ("model", PStr "fast-model-id"); ("tier", PStr "fast") ]
    ∧ prompt_original res = "Hi"%string ∧ prompt_enriched res = "Hi"%string
    ∧ context_results_count res = 0%nat ∧ stored res = false.
Proof.
  pose (s2 := @Build_state Script.runtime Script.store_down_after
               (monitor (Script.start Script.store_down_world))
               (dispatched (Script.start Script.store_down_world))).
  assert (∃ routed s3,
            @auto_route Script.runtime "Hi" None None Script.cfg_knowledge false s2
            = (Ok routed, s3)
            ∧ r_response routed = PStr "Hello"
            ∧ r_model routed = "fast-model-id"%string ∧ r_tier routed = "fast"%string)
    as (routed & s3 & Hroute & Hanswer & Hmodel & Htier)
    by (eexists _, _; split; [vm_compute; reflexivity | by repeat split]).
  pose proof (@pipeline_search_failure Script.runtime "Hi" false false None
                Script.cfg_knowledge false "http://localhost:8080/api/v1"
                (Script.start Script.store_down_world)
                (Script.start Script.store_down_world)
                (Raise Script.refused) Script.store_down_after
                eq_refl ltac:(discriminate) eq_refl eq_refl I) as Hrun.
  cbv zeta beta iota in Hrun. fold s2 in Hrun. rewrite Hroute in Hrun.
  destruct Hrun as (res & s4 & Hp & Ha & Hi & Ho & He & Hc & Hs & _).
  exists res, s4. rewrite Ha, Hi, Hanswer, Hmodel, Htier. by repeat split.
Defined.

(** C7 fails on the code as the specification has it: the store answers the
    search with an object that holds [true] where the results go; the
    search returns it, formatting it raises [TypeError], and [pipeline]
    raises it without any completion request. *)
Theorem pipeline_unsliceable_results_raise :
  (@_knowledge_search Script.runtime "http://localhost:8080/api/v1" "Hi"
     (Script.start Runs.store_true_world)).1 = Ok (PBool true)
  ∧ let '(r, s') := @pipeline Script.runtime "Hi" true false false None
                      Script.cfg_knowledge false (Script.start Runs.store_true_world) in
    r = Raise (Exn TypeError "<error>") ∧ dispatched s' = [].
Proof. split; [reflexivity|]. vm_compute. split; reflexivity. Qed.

End ConsensusFacts.

(** * Further properties *)

(** ** config.py *)
Module MoreConfig.
Import Py Spec Config ConfigEnv MoreSpec PyFacts ConfigFacts.
Local Open Scope list_scope.

(** X1: [add_model] appends: the new entry becomes the last candidate of its
    tier, the candidates of every other tier are what they were, and nothing
    else of the configuration changes. *)
Theorem add_model_get_tier_models (cfg : SwarmConfig) (mid t : string)
    (ep : option Endpoint) (lat : Q) (t' : string) :
  get_tier_models (add_model cfg mid t ep lat) t'
  = get_tier_models cfg t' ++ (if decide (t = t') then [registered cfg mid t ep lat]
                               else [])
  ∧ tier (registered cfg mid t ep lat) = t
  ∧ (ep = None → endpoint (registered cfg mid t ep lat) = primary cfg)
  ∧ (∀ prompt, classify_complexity (add_model cfg mid t ep lat) prompt
               = classify_complexity cfg prompt)
  ∧ (∀ u, get_tier_timeout (add_model cfg mid t ep lat) u = get_tier_timeout cfg u).
Proof.
  split.
  - unfold get_tier_models, add_model. simpl. rewrite filter_app.
    reflexivity.
  - split; [done|]. split; [intros Hep; by rewrite Hep|]. by split.
Qed.

Lemma add_model_get_tier_models_witness :
  get_tier_models Script.cfg_fast_only "fast" = [Script.fast_entry]
  ∧ get_tier_models Script.cfg_fast_only "deep" = []
  ∧ endpoint Script.fast_entry = Script.local.
Proof.
  destruct (add_model_get_tier_models (SwarmConfig_default Script.local)
              "fast-model-id" "fast" None 10 "fast") as (Hfast & _ & Hep & _).
  destruct (add_model_get_tier_models (SwarmConfig_default Script.local)
              "fast-model-id" "fast" None 10 "deep") as (Hdeep & _).
  split; [exact Hfast|]. split; [exact Hdeep|]. exact (Hep eq_refl).
Defined.

Lemma lower_char_idem (c : ascii) : lower_char (lower_char c) = lower_char c.
Proof. destruct c as [[] [] [] [] [] [] [] []]; reflexivity. Qed.

Lemma isspace_lower_char (c : ascii) : isspace (lower_char c) = isspace c.
Proof. destruct c as [[] [] [] [] [] [] [] []]; reflexivity. Qed.

Lemma lower_idem (s : string) : lower (lower s) = lower s.
Proof. induction s as [|c s IH]; simpl; [done|]. by rewrite lower_char_idem, IH. Qed.

Lemma lower_app (a b : string) : lower (a +:+ b) = lower a +:+ lower b.
Proof.
  induction a as [|c a IH]; [done|]. rewrite app_cons. simpl.
  by rewrite IH, app_cons.
Qed.

Lemma word_starts_lower (f : bool) (s : string) :
  word_starts f (lower s) = word_starts f s.
Proof.
  revert f. induction s as [|c s IH]; intros f; simpl; [done|].
  by rewrite isspace_lower_char, IH.
Qed.

(** X2: the tier does not depend on the case of the letters of the prompt:
    two prompts with the same lower-case form are classified alike. *)
Theorem classify_ignores_case (cfg : SwarmConfig) (p q : string) :
  lower p = lower q → classify_complexity cfg p = classify_complexity cfg q.
Proof.
  intros Hpq. unfold classify_complexity. rewrite !split_length, Hpq.
  unfold word_count. by rewrite <- (word_starts_lower true p), Hpq, word_starts_lower.
Qed.

Lemma classify_ignores_case_witness :
  lower "WHY Not" = lower "why not"
  ∧ classify_complexity (SwarmConfig_default Script.local) "WHY Not"
    = classify_complexity (SwarmConfig_default Script.local) "why not".
Proof.
  split; [reflexivity|].
  apply (classify_ignores_case (SwarmConfig_default Script.local)). reflexivity.
Defined.

Lemma word_starts_flag (s : string) : (word_starts true s ≤ S (word_starts false s))%nat.
Proof.
  destruct s as [|c s]; simpl; [lia|]. destruct (isspace c); simpl; lia.
Qed.

Lemma word_starts_le_flag (s : string) : (word_starts false s ≤ word_starts true s)%nat.
Proof.
  destruct s as [|c s]; simpl; [lia|]. destruct (isspace c); simpl; lia.
Qed.

Lemma word_starts_app (f : bool) (s b : string) :
  (word_starts f s ≤ word_starts f (s +:+ b))%nat.
Proof.
  revert f. induction s as [|c s IH]; intros f; [simpl; lia|].
  rewrite app_cons. simpl. specialize (IH (isspace c)). lia.
Qed.

Lemma word_count_prepend (a s : string) :
  (word_count s ≤ word_count (a +:+ s))%nat.
Proof.
  unfold word_count. induction a as [|c a IH]; [done|].
  rewrite app_cons. simpl. destruct (isspace c); simpl; [done|].
  pose proof (word_starts_flag (a +:+ s)). lia.
Qed.

Lemma word_count_embed (a s b : string) :
  (word_count s ≤ word_count (a +:+ s +:+ b))%nat.
Proof.
  etrans; [|apply word_count_prepend]. apply word_starts_app.
Qed.

Lemma deep_hit_embed (cfg : SwarmConfig) (a s b : string) :
  deep_hit cfg s → deep_hit cfg (a +:+ s +:+ b).
Proof.
  intros (kw & Hin & Ho). exists kw. split; [done|].
  rewrite !lower_app. by apply occurs_app_r, occurs_app_l.
Qed.

(** X3: for texts whose characters are all in the range U+0000..U+00FF,
    which is what a [string] holds, text added before or after a prompt
    never lowers its tier.  (In this range [str.lower] works character by
    character; beyond it, it does not: a capital sigma lowers differently
    at the end of a word.) *)
Theorem classify_monotone (cfg : SwarmConfig) (a p b : string) :
  (tier_rank (classify_complexity cfg p)
   ≤ tier_rank (classify_complexity cfg (a +:+ p +:+ b)))%nat.
Proof.
  pose proof (word_count_embed a p b) as Hw.
  destruct (classify_cases cfg p) as [[Hd ->]|[(Hn & H1 & ->)|(Hn & H1 & ->)]];
    destruct (classify_cases cfg (a +:+ p +:+ b))
      as [[Hd' ->]|[(Hn' & H1' & ->)|(Hn' & H1' & ->)]];
    try (vm_compute; lia); exfalso.
  - apply Hn'. destruct Hd as [Hd|Hd]; [left; by apply deep_hit_embed | right; lia].
  - apply Hn'. destruct Hd as [Hd|Hd]; [left; by apply deep_hit_embed | right; lia].
Qed.

Section Environ.
Variable float : string → result Q.

Lemma timeout_of_env_cases (env : gmap string string) (variable : string)
    (current : Q * Q) :
  match timeout_of_env float env variable current with
  | Ok t => timeout_of_env float env variable t = Ok t
  | Raise e => env_set (env !! variable) = true
               ∧ float (default EmptyString (env !! variable)) = Raise e
  end.
Proof.
  unfold timeout_of_env. destruct (env_set (env !! variable)) eqn:Hset; [|done].
  destruct (float _) as [q|e] eqn:Hf; simpl; [|done].
  done.
Qed.

(** X4: [default_config] registers one model, "default" in the tier "fast"
    on the primary endpoint, when the primary key of the environment is not
    the built-in "sk-default", and no model otherwise; it fails only on a
    timeout variable that is set and is not a number. *)
Theorem default_config_models (env : gmap string string) :
  match default_config float env with
  | Ok cfg =>
      primary cfg = primary_of_env env
      ∧ models cfg
        = (if decide (default "sk-default" (env !! "SWARM_PRIMARY_KEY") = "sk-default")
           then []
           else [ {| model_id := "default"; tier := "fast";
                     endpoint := primary_of_env env;
                     expected_latency_s := 5 |} ])
      ∧ get_tier_models cfg "power" = [] ∧ get_tier_models cfg "deep" = []
  | Raise e =>
      ∃ v, v ∈ [ "SWARM_TIMEOUT_FAST"; "SWARM_TIMEOUT_POWER"; "SWARM_TIMEOUT_DEEP" ]
           ∧ env_set (env !! v) = true
           ∧ float (default EmptyString (env !! v)) = Raise e
  end.
Proof.
  unfold default_config, SwarmConfig_new, __post_init__.
  pose proof (timeout_of_env_cases env "SWARM_TIMEOUT_FAST"
                (timeout_fast (SwarmConfig_default (primary_of_env env)))) as Hf.
  destruct (timeout_of_env float env "SWARM_TIMEOUT_FAST" _) as [tf|e]; simpl.
  2:{ exists "SWARM_TIMEOUT_FAST". split; [rewrite !elem_of_cons; auto|done]. }
  pose proof (timeout_of_env_cases env "SWARM_TIMEOUT_POWER"
                (timeout_power (SwarmConfig_default (primary_of_env env)))) as Hp.
  destruct (timeout_of_env float env "SWARM_TIMEOUT_POWER" _) as [tp|e]; simpl.
  2:{ exists "SWARM_TIMEOUT_POWER". split; [rewrite !elem_of_cons; auto|done]. }
  pose proof (timeout_of_env_cases env "SWARM_TIMEOUT_DEEP"
                (timeout_deep (SwarmConfig_default (primary_of_env env)))) as Hd.
  destruct (timeout_of_env float env "SWARM_TIMEOUT_DEEP" _) as [td|e]; simpl.
  2:{ exists "SWARM_TIMEOUT_DEEP". split; [rewrite !elem_of_cons; auto|done]. }
  destruct (decide (default "sk-default" (env !! "SWARM_PRIMARY_KEY") = "sk-default"))
    as [Hk|Hk].
  - rewrite bool_decide_eq_true_2 by exact Hk. simpl. done.
  - rewrite bool_decide_eq_false_2 by exact Hk. simpl. done.
Qed.

(** X5: running [__post_init__] again on a configuration it produced
    changes nothing, and it never touches the primary endpoint, the models,
    the thresholds or the keywords. *)
Theorem post_init_idempotent (env : gmap string string) (self cfg : SwarmConfig) :
  __post_init__ float env self = Ok cfg →
  __post_init__ float env cfg = Ok cfg
  ∧ primary cfg = primary self ∧ models cfg = models self
  ∧ t1_max_words cfg = t1_max_words self ∧ t2_max_words cfg = t2_max_words self
  ∧ deep_keywords cfg = deep_keywords self.
Proof.
  unfold __post_init__.
  pose proof (timeout_of_env_cases env "SWARM_TIMEOUT_FAST" (timeout_fast self)) as Hf.
  destruct (timeout_of_env float env "SWARM_TIMEOUT_FAST" _) as [tf|e]; simpl; [|done].
  pose proof (timeout_of_env_cases env "SWARM_TIMEOUT_POWER" (timeout_power self)) as Hp.
  destruct (timeout_of_env float env "SWARM_TIMEOUT_POWER" _) as [tp|e]; simpl; [|done].
  pose proof (timeout_of_env_cases env "SWARM_TIMEOUT_DEEP" (timeout_deep self)) as Hd.
  destruct (timeout_of_env float env "SWARM_TIMEOUT_DEEP" _) as [td|e]; simpl; [|done].
  intros [= <-]. simpl. rewrite Hf, Hp, Hd. simpl.
  split; [|done]. do 2 f_equal.
  - destruct (secondary self); [done|].
    by destruct (env_set (env !! "SWARM_SECONDARY_URL")
                 && env_set (env !! "SWARM_SECONDARY_KEY")).
  - destruct (knowledge_url self); [done|].
    by destruct (env !! "SWARM_KNOWLEDGE_URL").
Qed.

End Environ.

Lemma post_init_idempotent_witness :
  ∃ cfg,
    __post_init__ Runs.float Runs.env_fast_45 (SwarmConfig_default Script.local) = Ok cfg
    ∧ timeout_fast cfg = (5, 45)%Q
    ∧ knowledge_url cfg = Some "http://localhost:8080/api/v1"
    ∧ __post_init__ Runs.float Runs.env_fast_45 cfg = Ok cfg.
Proof.
  eexists. split; [vm_compute; reflexivity|]. split; [reflexivity|].
  split; [reflexivity|].
  apply (post_init_idempotent Runs.float Runs.env_fast_45
           (SwarmConfig_default Script.local)).
  vm_compute. reflexivity.
Defined.

End MoreConfig.

(** ** health.py and the monitor of cli.py *)
Module MoreHealth.
Import Py Eff Eff.Notations Config Health Machine Monitor Cli MoreSpec.
Import Frame EffFacts HealthFacts PyFacts.
Local Open Scope list_scope.

Lemma endpoints_init (n : string) : ¬ is_Some (_endpoints init !! n).
Proof. unfold init. simpl. rewrite lookup_empty. apply is_Some_None. Qed.

Lemma tracked_init : tracked init.
Proof. intros n. unfold init. simpl. by rewrite !lookup_empty. Qed.

Lemma endpoints_register (self : ServiceHealth) (n health_url : string)
    (headers : option (list (string * string))) (m : string) :
  is_Some (_endpoints (register self n health_url headers) !! m)
  ↔ m = n ∨ is_Some (_endpoints self !! m).
Proof.
  unfold register. simpl. destruct (decide (m = n)) as [->|Hne].
  - rewrite lookup_insert_eq. split; [by left | by eexists].
  - rewrite lookup_insert_ne by done. split; [by right | by intros [?|?]].
Qed.

Lemma tracked_register (self : ServiceHealth) (n health_url : string)
    (headers : option (list (string * string))) :
  tracked self → tracked (register self n health_url headers).
Proof.
  intros Ht k. unfold register. simpl. destruct (decide (k = n)) as [->|Hk].
  - rewrite !lookup_insert_eq. by split; eexists.
  - rewrite !lookup_insert_ne by done. apply Ht.
Qed.

Lemma is_up_register_all (self : ServiceHealth) (n health_url : string)
    (headers : option (list (string * string))) :
  (∀ m, is_up self m = false) →
  ∀ m, is_up (register self n health_url headers) m = false.
Proof.
  intros Hall m. unfold is_up, register. simpl.
  destruct (decide (m = n)) as [->|Hne].
  - by rewrite lookup_insert_eq.
  - rewrite lookup_insert_ne by done. apply Hall.
Qed.

(** X6: registering a service marks it down until the next refresh, also
    when it was up before, records its probe, and leaves every other service
    as it was. *)
Theorem register_marks_down (self : ServiceHealth) (n health_url : string)
    (headers : option (list (string * string))) (m : string) :
  is_up (register self n health_url headers) m
  = (if decide (m = n) then false else is_up self m)
  ∧ get_all (register self n health_url headers) !! m
    = (if decide (m = n) then Some false else get_all self !! m)
  ∧ _endpoints (register self n health_url headers) !! m
    = (if decide (m = n) then Some (health_url, default [] headers)
       else _endpoints self !! m)
  ∧ (tracked self → tracked (register self n health_url headers)).
Proof.
  pose proof (tracked_register self n health_url headers) as Htr.
  unfold is_up, get_all, register. simpl.
  destruct (decide (m = n)) as [->|Hne].
  - by rewrite !lookup_insert_eq.
  - by rewrite !lookup_insert_ne by done.
Qed.

Lemma register_marks_down_witness :
  is_up Runs.watched "primary" = false ∧ tracked Runs.watched.
Proof.
  destruct (register_marks_down init "primary"
              "http://localhost:4000/health/liveliness" None "primary")
    as (Hup & _ & _ & Htr).
  split; [exact Hup|]. apply Htr. intros n. unfold init. simpl.
  by rewrite !lookup_empty.
Defined.

Section Refresh.
Context `{HasWorld St}.

Lemma _probe_result (name url : string) (headers : list (string * string)) (s : St) :
  (_probe name url headers s).1
  = Ok (name, match (requests_get url headers (2, 5)%Q (world_of s)).1 with
              | Ok r => (status_code r <? 400)%Z
              | Raise _ => false
              end).
Proof.
  unfold _probe, try_except, bind, on_world, ret.
  by destruct (requests_get url headers _ (world_of s)) as [[r|e] w].
Qed.

Lemma fold_status_lookup (outs : list (result (string * bool)))
    (acc : gmap string bool) (n : string) (b : bool) :
  foldl (λ acc o, match o with
                  | Ok (n, ok) => <[n := ok]> acc
                  | Raise _ => acc
                  end) acc outs !! n = Some b →
  acc !! n = Some b ∨ Ok (n, b) ∈ outs.
Proof.
  revert acc. induction outs as [|o outs IH]; intros acc; simpl; [by left|].
  intros Hl. destruct (IH _ Hl) as [Hacc|Hin]; [|right; by right].
  destruct o as [[m ok]|e]; [|by left].
  destruct (decide (n = m)) as [->|Hne].
  - rewrite lookup_insert_eq in Hacc. injection Hacc as ->. right. by left.
  - rewrite lookup_insert_ne in Hacc by done. by left.
Qed.

Lemma fold_status_mem (outs : list (result (string * bool)))
    (acc : gmap string bool) (n : string) :
  is_Some (acc !! n) ∨ (∃ b, Ok (n, b) ∈ outs) →
  is_Some (foldl (λ acc o, match o with
                           | Ok (n, ok) => <[n := ok]> acc
                           | Raise _ => acc
                           end) acc outs !! n).
Proof.
  revert acc. induction outs as [|o outs IH]; intros acc; simpl.
  - intros [Hacc|[b Hin]]; [done|]. by apply elem_of_nil in Hin.
  - intros [Hacc|[b Hin]]; apply IH.
    + left. destruct o as [[m ok]|e]; [|done].
      destruct (decide (n = m)) as [->|Hne].
      * rewrite lookup_insert_eq. by eexists.
      * by rewrite lookup_insert_ne.
    + apply elem_of_cons in Hin as [<-|Hin]; [|right; by exists b].
      left. rewrite lookup_insert_eq. by eexists.
Qed.

(** A refresh that returns has probed every registered service, once. *)
Lemma refresh_inv (self : ServiceHealth) (s : St) (self' : ServiceHealth) (s' : St) :
  refresh self s = (Ok self', s') →
  ∃ fin outs,
    fin ≡ₚ map_to_list (_endpoints self)
    ∧ Forall2 (λ e o, ∃ s0, o = (_probe e.1 e.2.1 e.2.2 s0).1) fin outs
    ∧ self' = {| _endpoints := _endpoints self;
                 _status := foldl (λ acc o, match o with
                                            | Ok (n, ok) => <[n := ok]> acc
                                            | Raise _ => acc
                                            end) ∅ outs ∪ _status self |}.
Proof.
  unfold refresh, bind.
  set (f := λ '(name, (url, hdrs)), _probe name url hdrs).
  destruct (pool_as_completed (map f (map_to_list (_endpoints self))) 10 s)
    as [[outs|e] s1] eqn:Hpool; [|done].
  unfold ret. intros [= <- <-].
  apply pool_as_completed_Forall2 in Hpool as (fin & Hperm & Hall).
  apply Permutation_map_inv in Hperm as (l & -> & Hl).
  exists l, outs. split; [by symmetry|]. split; [|done].
  apply Forall2_fmap_l in Hall. eapply Forall2_impl; [exact Hall|].
  intros [name [url hdrs]] o [s0 ->]. by exists s0.
Qed.

(** X7: after a refresh that returns, the registered services are the same,
    each of them has a status, and a service is reported up only when a
    probe of its registered URL, with its registered headers, was answered
    with a status below 400.  A service that was never registered keeps the
    status it had. *)
Theorem refresh_statuses (self : ServiceHealth) (s : St) (self' : ServiceHealth)
    (s' : St) :
  refresh self s = (Ok self', s') →
  _endpoints self' = _endpoints self
  ∧ (∀ n probe_url hdrs, _endpoints self !! n = Some (probe_url, hdrs) →
       ∃ b, _status self' !! n = Some b ∧ is_up self' n = b
            ∧ (b = true →
               ∃ w r w', requests_get probe_url hdrs (2, 5)%Q w = (Ok r, w')
                         ∧ (status_code r < 400)%Z))
  ∧ (∀ n, _endpoints self !! n = None → _status self' !! n = _status self !! n)
  ∧ (tracked self → tracked self').
Proof.
  intros Hrun. destruct (refresh_inv _ _ _ _ Hrun) as (fin & outs & Hperm & Hall & ->).
  simpl. set (result := foldl _ ∅ outs).
  assert (∀ n b, result !! n = Some b →
            ∃ e s0, e ∈ fin ∧ (_probe e.1 e.2.1 e.2.2 s0).1 = Ok (n, b)) as Hfrom.
  { intros n b Hl. apply fold_status_lookup in Hl as [Hl|Hin].
    { by rewrite lookup_empty in Hl. }
    apply list_elem_of_lookup in Hin as [i Hi].
    destruct (Forall2_lookup_r _ _ _ _ _ Hall Hi) as (e & He & s0 & Ho).
    exists e, s0. split; [by eapply list_elem_of_lookup_2|done]. }
  assert (∀ e, e ∈ fin → _endpoints self !! e.1 = Some e.2) as Hfin.
  { intros [n v] Hin. rewrite Hperm in Hin. by apply elem_of_map_to_list in Hin. }
  assert (∀ n, is_Some (result !! n) → is_Some (_endpoints self !! n)) as Hdom.
  { intros n [b Hb]. destruct (Hfrom n b Hb) as (e & s0 & Hin & Hp).
    rewrite _probe_result in Hp. injection Hp as <- _. rewrite (Hfin e Hin).
    by eexists. }
  assert (∀ n, is_Some (_endpoints self !! n) → is_Some (result !! n)) as Hcov.
  { intros n [v Hv]. apply fold_status_mem. right.
    assert ((n, v) ∈ fin) as Hin by (rewrite Hperm; by apply elem_of_map_to_list).
    apply list_elem_of_lookup in Hin as [i Hi].
    destruct (Forall2_lookup_l _ _ _ _ _ Hall Hi) as (o & Ho & s0 & ->).
    rewrite _probe_result in Ho. eexists. by eapply list_elem_of_lookup_2. }
  split; [done|]. split; [|split].
  - intros n probe_url hdrs Hn.
    destruct (Hcov n (ex_intro _ _ Hn)) as [b Hb]. exists b.
    assert ((result ∪ _status self) !! n = Some b) as Hu
      by (by apply lookup_union_Some_l).
    split; [done|]. split; [unfold is_up; simpl; by rewrite Hu|].
    intros ->. destruct (Hfrom n true Hb) as ([n' [u' h']] & s0 & Hin & Hp).
    pose proof (Hfin _ Hin) as He. simpl in He, Hp.
    rewrite _probe_result in Hp. injection Hp as -> Hok.
    rewrite Hn in He. injection He as <- <-.
    destruct (requests_get probe_url hdrs (2, 5)%Q (world_of s0)) as [[r|e] w] eqn:Hg;
      simpl in Hok; [|done].
    exists (world_of s0), r, w. split; [done|]. by apply Z.ltb_lt.
  - intros n Hn. apply lookup_union_r.
    destruct (result !! n) as [b|] eqn:Hb; [|done].
    destruct (Hdom n (ex_intro _ _ Hb)) as [v Hv]. congruence.
  - intros Ht n. simpl. rewrite lookup_union_is_Some. split.
    + intros Hn. left. by apply Hcov.
    + intros [Hr|Hs]; [by apply Hdom | by apply Ht].
Qed.

(** X25: a monitor without services is refreshed without a probe: it
    comes back as it was, and so does the world. *)
Theorem refresh_no_service (self : ServiceHealth) (s : St) :
  _endpoints self = ∅ → refresh self s = (Ok self, s).
Proof.
  intros Hnone. unfold refresh, bind. rewrite Hnone, map_to_list_empty. simpl.
  rewrite pool_as_completed_nil. unfold ret. simpl.
  rewrite (left_id_L ∅ (∪)). destruct self as [eps st]. simpl in *. by subst.
Qed.

End Refresh.

Lemma refresh_no_service_witness :
  @refresh Script.runtime _ (@World_HasWorld Script.runtime) init Runs.primary_up
  = (Ok init, Runs.primary_up).
Proof.
  apply (@refresh_no_service Script.runtime _ (@World_HasWorld Script.runtime)).
  reflexivity.
Defined.

Lemma refresh_statuses_witness :
  ∃ self' s',
    @refresh Script.runtime _ (@World_HasWorld Script.runtime) Runs.watched
      Runs.primary_up = (Ok self', s')
    ∧ _endpoints self' = _endpoints Runs.watched
    ∧ is_up self' "primary" = true.
Proof.
  assert (∃ self' s',
            @refresh Script.runtime _ (@World_HasWorld Script.runtime) Runs.watched
              Runs.primary_up = (Ok self', s')
            ∧ is_up self' "primary" = true) as (self' & s' & Hrun & Hup).
  { do 2 eexists. split; vm_compute; reflexivity. }
  exists self', s'. split; [exact Hrun|]. split; [|exact Hup].
  exact (proj1 (@refresh_statuses Script.runtime _ (@World_HasWorld Script.runtime)
                  Runs.watched Runs.primary_up self' s' Hrun)).
Defined.

(** X8: the monitor that the command line builds watches the primary
    endpoint under the name "primary", the secondary one when there is one,
    and the knowledge store when its URL is set; every service starts down. *)
Theorem _build_health_services (config : SwarmConfig) :
  let h := _build_health config in
  (∀ n, is_Some (_endpoints h !! n) ↔
        n = "primary"
        ∨ (n = "secondary" ∧ is_Some (secondary config))
        ∨ (n = "knowledge" ∧ ∃ c k, knowledge_url config = Some (String c k)))
  ∧ _endpoints h !! "primary"
    = Some (url (primary config) +:+ "/health/liveliness",
            [ ("Authorization", "Bearer " +:+ api_key (primary config)) ])
  ∧ (∀ n, is_up h n = false)
  ∧ tracked h.
Proof.
  intros h. subst h. unfold _build_health.
  pose proof endpoints_init as Hinit.
  destruct (secondary config) as [sec|];
    destruct (knowledge_url config) as [[|c k]|].
  all: split; [intros n; rewrite ?endpoints_register; specialize (Hinit n)
              |split; [reflexivity
                      |split; [repeat apply is_up_register_all; apply is_up_init
                              |repeat apply tracked_register; apply tracked_init]]].
  - split; [intros [->|[->|?]]; [right; left; by split; [|eexists] | by left | done]
           |intros [->|[[-> _]|[_ (? & ? & [=])]]]; auto].
  - split; [intros [->|[->|[->|?]]];
              [right; right; split; [done|by do 2 eexists]
              |right; left; by split; [|eexists] | by left | done]
           |intros [->|[[-> _]|[-> _]]]; auto].
  - split; [intros [->|[->|?]]; [right; left; by split; [|eexists] | by left | done]
           |intros [->|[[-> _]|[_ (? & ? & [=])]]]; auto].
  - split; [intros [->|?]; [by left | done]
           |intros [->|[[_ [? [=]]]|[_ (? & ? & [=])]]]; auto].
  - split; [intros [->|[->|?]];
              [right; right; split; [done|by do 2 eexists] | by left | done]
           |intros [->|[[_ [? [=]]]|[-> _]]]; auto].
  - split; [intros [->|?]; [by left | done]
           |intros [->|[[_ [? [=]]]|[_ (? & ? & [=])]]]; auto].
Qed.

End MoreHealth.

(** ** swarm.py: the fan-out *)
Module MoreSwarm.
Import Py Eff Eff.Notations Config Machine Swarm SortSpec SwarmSpec SortFacts.
Local Open Scope list_scope.

Section SwarmCall.
Context `{HasWorld St}.

(** The runtime cancels some awaited request. *)
Local Abbreviation cancels :=
  (∃ u h p t w, (wait_for_http_post u h p t w).1 = None).

Lemma call_model_model (entry : ModelEntry) (prompt : string) (timeout : Z) (s : St) :
  ∃ ended s', call_model entry prompt timeout s = (Ok ended, s')
    ∧ match ended with
      | Some cr => model cr = model_id entry
      | None => cancels
      end.
Proof.
  unfold call_model.
  unfold Eff.bind, Eff.try_except, time_monotonic, Eff.gets, await, Eff.lift, Eff.ret.
  destruct (wait_for_http_post _ _ _ _ (world_of s)) as [[[response|e]|] w] eqn:Hw.
  - destruct (getitem errmsg response "choices") as [choices|e1]; simpl;
      [|destruct (decide _); by do 2 eexists].
    destruct (getitem0 errmsg choices) as [first|e1]; simpl;
      [|destruct (decide _); by do 2 eexists].
    destruct (getitem errmsg first "message") as [message|e1]; simpl;
      [|destruct (decide _); by do 2 eexists].
    destruct (getitem errmsg message "content") as [text|e1]; simpl;
      [|destruct (decide _); by do 2 eexists].
    destruct (get errmsg response "usage" (PDict [])) as [usage|e1]; simpl;
      [|destruct (decide _); by do 2 eexists].
    destruct (get errmsg usage "total_tokens" PNone) as [total|e1]; simpl;
      [|destruct (decide _); by do 2 eexists].
    by do 2 eexists.
  - destruct (decide _); by do 2 eexists.
  - do 2 eexists. split; [reflexivity|]. do 5 eexists. by rewrite Hw.
Qed.

Lemma for_each_call_model (selected : list ModelEntry) (prompt : string)
    (timeout : Z) (s : St) :
  ∃ ended s',
    for_each selected (λ m, call_model m prompt timeout) s = (Ok ended, s')
    ∧ match gather ended with
      | Some results => map model results = map model_id selected
      | None => cancels
      end.
Proof.
  revert s. induction selected as [|m selected IH]; intros s; simpl.
  - by exists [], s.
  - unfold bind at 1.
    destruct (call_model_model m prompt timeout s) as (o & s1 & -> & Hm).
    unfold bind at 1. destruct (IH s1) as (ended & s2 & -> & Hr).
    exists (o :: ended), s2. split; [done|]. simpl.
    destruct o as [cr|]; [|done].
    destruct (gather ended) as [results|]; [|done]. simpl. by rewrite Hm, Hr.
Qed.

(** [l[:n]] is a prefix of [l]: its first [n] elements, or all but the last
    [-n] ones. *)
Lemma slice_to_prefix {A} (n : Z) (l : list A) :
  ∃ rest, l = slice_to n l ++ rest
          ∧ length (slice_to n l)
            = if (0 <=? n)%Z then Nat.min (Z.to_nat n) (length l)
              else (length l - Z.to_nat (- n))%nat.
Proof.
  unfold slice_to. destruct (0 <=? n)%Z eqn:Hn.
  - exists (drop (Z.to_nat n) l). by rewrite take_drop, length_take.
  - exists (drop (Z.to_nat (Z.of_nat (length l) + n)) l).
    rewrite take_drop, length_take. split; [done|].
    apply Z.leb_gt in Hn. lia.
Qed.

Lemma result_map_raise {A B} (f : A → result B) (l : list A) (e : exn) :
  result_map f l = Raise e → ∃ x, x ∈ l ∧ f x = Raise e.
Proof.
  induction l as [|x l IH]; simpl; [done|].
  destruct (f x) as [y|e'] eqn:Hx; simpl.
  - destruct (result_map f l) as [ys|e'']; simpl; [done|].
    intros [= ->]. destruct (IH eq_refl) as (x' & Hin & Hx').
    exists x'. split; [by right | done].
  - intros [= ->]. exists x. split; [by left | done].
Qed.

Lemma _score_result_raise (r : CallResult) (e : exn) :
  _score_result r = Raise e →
  (exn_class_of e = TypeError ∨ exn_class_of e = AttributeError)
  ∧ status r = "ok" ∧ ∀ text, content r ≠ PStr text.
Proof.
  unfold _score_result.
  destruct (bool_decide (status r = "ok")) eqn:Hs; simpl; [|done].
  apply bool_decide_eq_true in Hs.
  destruct (truthy (content r)); simpl; [|done].
  destruct (content r); intros [= <-]; simpl; (split; [by auto|]); by split.
Qed.

(** X9: [swarm_call] calls the models of [candidates[:max_models]], a
    prefix of the models of the tier in registration order: the first
    [max_models] of them, or all but the last [-max_models] when
    [max_models] is negative.  Unless a call is cancelled it returns one
    result for each model called; an empty selection gives the empty list and
    no request.  It fails only when a backend answered "ok" with a content
    that is not text. *)
Theorem swarm_call_models (prompt : string) (t : string) (max_models : Z)
    (timeout : Z) (cfg : SwarmConfig) (s : St) :
  let candidates := get_tier_models cfg t in
  let selected := slice_to max_models candidates in
  ∃ r s',
    swarm_call prompt t max_models timeout cfg s = (r, s')
    ∧ (selected = [] → r = Ok (Some []) ∧ s' = s)
    ∧ Forall (λ m, tier m = t ∧ m ∈ models cfg) selected
    ∧ (∃ rest, candidates = selected ++ rest)
    ∧ length selected
      = (if (0 <=? max_models)%Z
         then Nat.min (Z.to_nat max_models) (length candidates)
         else (length candidates - Z.to_nat (- max_models))%nat)
    ∧ match r with
      | Ok (Some ranked) => map model ranked ≡ₚ map model_id selected
      | Ok None => ∃ u h p t w, (wait_for_http_post u h p t w).1 = None
      | Raise e => exn_class_of e = TypeError ∨ exn_class_of e = AttributeError
      end.
Proof.
  intros candidates selected. unfold swarm_call. fold candidates. fold selected.
  unfold bind at 1.
  destruct (for_each_call_model selected prompt timeout s)
    as (ended & s1 & Hrun & Hended).
  rewrite Hrun.
  destruct (slice_to_prefix max_models candidates) as (rest & Hrest & Hlen).
  fold selected in Hrest, Hlen.
  assert (Forall (λ m, tier m = t ∧ m ∈ models cfg) selected) as Hsel.
  { apply Forall_forall. intros m Hin.
    assert (m ∈ candidates) as Hc by (rewrite Hrest; apply elem_of_app; by left).
    subst candidates. unfold get_tier_models in Hc.
    by apply list_elem_of_filter in Hc. }
  destruct (gather ended) as [results|] eqn:Hg.
  - unfold bind, lift. exists (match rank_results results with
                               | Ok ranked => Ok (Some ranked)
                               | Raise e => Raise e
                               end), s1.
    split; [by destruct (rank_results results)|]. split; [|split; [done|split]].
    + intros Hnil. rewrite Hnil in Hrun. simpl in Hrun. unfold ret in Hrun.
      injection Hrun as <- <-. simpl in Hg. injection Hg as <-. by split.
    + by exists rest.
    + split; [done|].
      unfold rank_results. destruct (sorted _score_result true results)
        as [out|e] eqn:Hs.
      * pose proof (sorted_reverse_perm _ _ _ Hs) as Hperm.
        by rewrite Hperm, Hended.
      * unfold sorted in Hs.
        destruct (result_map _score_result results) as [ks|e'] eqn:Hk;
          simpl in Hs; [done|].
        injection Hs as ->. apply result_map_raise in Hk as (x & _ & Hx).
        by apply _score_result_raise in Hx as [Hc _].
  - exists (Ok None), s1. split; [done|]. split; [|split; [done|split]].
    + intros Hnil. rewrite Hnil in Hrun. simpl in Hrun. unfold ret in Hrun.
      injection Hrun as <- <-. done.
    + by exists rest.
    + by split.
Qed.

End SwarmCall.

Lemma swarm_call_models_witness :
  @swarm_call Script.runtime _ (@World_HasWorld Script.runtime) "Hi" "fast" 3 60
    Runs.cfg_empty Script.dead_world = (Ok (Some []), Script.dead_world)
  ∧ ∃ ranked s',
      @swarm_call Script.runtime _ (@World_HasWorld Script.runtime) "Hi" "fast"
        (-1) 60 Runs.cfg_three_fast Script.dead_world = (Ok (Some ranked), s')
      ∧ map model ranked ≡ₚ ["one"; "two"].
Proof.
  split.
  - destruct (@swarm_call_models Script.runtime _ (@World_HasWorld Script.runtime)
                "Hi" "fast" 3 60 Runs.cfg_empty Script.dead_world)
      as (r & s' & Hrun & Hnil & _).
    destruct (Hnil eq_refl) as [-> ->]. exact Hrun.
  - destruct (@swarm_call_models Script.runtime _ (@World_HasWorld Script.runtime)
                "Hi" "fast" (-1) 60 Runs.cfg_three_fast Script.dead_world)
      as (r & s' & Hrun & _ & _ & _ & _ & Hr).
    destruct r as [[ranked|]|e].
    + exists ranked, s'. split; [exact Hrun | exact Hr].
    + exfalso. destruct Hr as (u & h & p & t & w & Hw). revert Hw.
      simpl. by destruct (Script.script_urlopen w).
    + exfalso. revert Hrun. vm_compute. discriminate.
Defined.

Section Ranking.
Context `{Runtime}.

Lemma _score_result_scorable (r : CallResult) (q : Float64.float) :
  _score_result r = Ok q → scorable r.
Proof.
  unfold _score_result, scorable.
  destruct (bool_decide (status r = "ok")) eqn:Hs; simpl.
  - destruct (truthy (content r)) eqn:Ht; simpl; [|by auto].
    destruct (content r); try done. intros _. right. right. by eexists.
  - intros _. left. by apply bool_decide_eq_false in Hs.
Qed.

Lemma result_map_ok {A B} (f : A → result B) (l : list A) (ys : list B) :
  result_map f l = Ok ys → ∀ x, x ∈ l → ∃ y, f x = Ok y.
Proof.
  revert ys. induction l as [|x l IH]; intros ys; simpl.
  - intros _ x Hx. by apply elem_of_nil in Hx.
  - destruct (f x) as [y|e] eqn:Hx; simpl; [|done].
    destruct (result_map f l) as [ys'|e]; simpl; [|done].
    intros _ x' Hin. apply elem_of_cons in Hin as [->|Hin]; [by eexists|].
    by apply (IH ys').
Qed.

(** X24: [rank_results] returns exactly when every result can be scored:
    each is not "ok", or has a content that is false, or has text for
    content.  Otherwise it raises the [TypeError] or [AttributeError] of a
    result that is "ok" with a content that is true and is not text. *)
Theorem rank_results_returns_iff (results : list CallResult) :
  ((∃ out, rank_results results = Ok out) ↔ ∀ r, r ∈ results → scorable r)
  ∧ (∀ e, rank_results results = Raise e →
          (exn_class_of e = TypeError ∨ exn_class_of e = AttributeError)
          ∧ ∃ r, r ∈ results ∧ status r = "ok" ∧ truthy (content r) = true
                 ∧ ∀ text, content r ≠ PStr text).
Proof.
  split; [split|].
  - intros [out Hout] r Hr. unfold rank_results, sorted in Hout.
    destruct (result_map _score_result results) as [ks|e] eqn:Hk; [|done].
    destruct (result_map_ok _ _ _ Hk r Hr) as [q Hq].
    by apply (_score_result_scorable r q).
  - intros Hall. apply sorted_reverse_total. intros r Hr.
    by apply SwarmFacts.scorable_scores, Hall.
  - intros e He. unfold rank_results, sorted in He.
    destruct (result_map _score_result results) as [ks|e'] eqn:Hk; [done|].
    simpl in He. injection He as ->.
    apply result_map_raise in Hk as (r & Hin & Hr).
    destruct (_score_result_raise r e Hr) as (Hc & Hs & Hn).
    split; [done|]. exists r. split; [done|]. split; [done|]. split; [|done].
    unfold _score_result in Hr. rewrite Hs in Hr. simpl in Hr.
    by destruct (truthy (content r)).
Qed.

End Ranking.

Lemma rank_results_returns_iff_witness :
  ∃ out, @rank_results Script.runtime [Script.r_long; Script.r_timeout] = Ok out.
Proof.
  apply (proj1 (@rank_results_returns_iff Script.runtime
                  [Script.r_long; Script.r_timeout])).
  intros r Hr. rewrite !elem_of_cons, elem_of_nil in Hr.
  destruct Hr as [->|[->|[]]].
  - right. right. by eexists.
  - left. discriminate.
Defined.

End MoreSwarm.

(** ** orchestrator.py: more on the router *)
Module MoreRoute.
Import Py Eff Eff.Notations Config Health Machine Orchestrator.
Import Frame EffFacts HealthFacts RouteSpec PyFacts RouteFacts.
Local Open Scope list_scope.

Section Route.
Context `{Runtime}.

(** X10: [_extract_text] returns what the envelope holds at
    [choices[0].message.content], whatever it is, and the printed response
    when the response is no envelope; it never raises. *)
Theorem _extract_text_envelope (response : pyval) :
  (∀ d rest f m v,
     response = PDict d →
     dict_lookup "choices" d = Some (PList (PDict f :: rest)) →
     dict_lookup "message" f = Some (PDict m) →
     dict_lookup "content" m = Some v →
     _extract_text response = v)
  ∧ ((∀ d, response ≠ PDict d) → _extract_text response = PStr (str response))
  ∧ (∀ d, response = PDict d → dict_lookup "choices" d = None →
          _extract_text response = PStr (repr response))
  ∧ (∀ d, response = PDict d → dict_lookup "choices" d = Some (PList []) →
          _extract_text response = PStr (repr response)).
Proof.
  split; [|split; [|split]].
  - intros d rest f m v -> Hc Hm Hv. unfold _extract_text. simpl.
    rewrite Hc. simpl. rewrite Hm. simpl. by rewrite Hv.
  - intros Hnd. unfold _extract_text.
    destruct response; try reflexivity. by destruct (Hnd d).
  - intros d -> Hc. unfold _extract_text. simpl. by rewrite Hc.
  - intros d -> Hc. unfold _extract_text. simpl. by rewrite Hc.
Qed.

Lemma try_candidates_first (messages : pyval) (t : string) (timeout : Q * Q)
    (e : ModelEntry) (rest : list ModelEntry) (last : option exn) (s : state)
    (resp : Response) (w' : World) (body : pyval) :
  session_post (rstrip_slash (url (endpoint e)) +:+ "/v1/chat/completions")
    (Some [ ("Authorization", "Bearer " +:+ api_key (endpoint e));
            ("Content-Type", "application/json") ])
    (PDict [ ("model", PStr (model_id e)); ("messages", messages);
             ("temperature", PNum (7 # 10)); ("max_tokens", PNum 2048) ])
    timeout (world s) = (Ok resp, w') →
  (status_code resp < 400 ∨ 600 ≤ status_code resp)%Z →
  json resp = Ok body →
  try_candidates false messages t timeout (e :: rest) last s
  = (Ok (inl {| r_model := model_id e; r_tier := t;
                r_response := _extract_text body;
                r_latency_s := round2 (monotonic w' - monotonic (world s)) |}),
     {| world := w'; monitor := monitor s;
        dispatched := dispatched s ++ [(e, None)] |}).
Proof.
  intros Hpost Hcode Hjson. cbn [try_candidates andb].
  unfold bind, gets, attempt, time_monotonic, logged, _chat_completion, on_world,
    raise_for_status, lift, ret, gets, bind.
  cbn [world_of with_world state_HasWorld]. rewrite Hpost.
  assert (((400 <=? status_code resp) && (status_code resp <? 600))%Z = false) as ->.
  { apply andb_false_iff. destruct Hcode; [left; by apply Z.leb_gt
                                          |right; by apply Z.ltb_ge]. }
  cbn [world monitor dispatched]. by rewrite Hjson.
Qed.

Lemma search_tiers_first (cfg : SwarmConfig) (messages : pyval)
    (order : list string) (last : option exn) (s : state)
    (e : ModelEntry) (rest : list ModelEntry)
    (resp : Response) (w' : World) (body : pyval) :
  flat_map (get_tier_models cfg) order = e :: rest →
  session_post (rstrip_slash (url (endpoint e)) +:+ "/v1/chat/completions")
    (Some [ ("Authorization", "Bearer " +:+ api_key (endpoint e));
            ("Content-Type", "application/json") ])
    (PDict [ ("model", PStr (model_id e)); ("messages", messages);
             ("temperature", PNum (7 # 10)); ("max_tokens", PNum 2048) ])
    (get_tier_timeout cfg (tier e)) (world s) = (Ok resp, w') →
  (status_code resp < 400 ∨ 600 ≤ status_code resp)%Z →
  json resp = Ok body →
  search_tiers cfg false messages order last s
  = (Ok (inl {| r_model := model_id e; r_tier := tier e;
                r_response := _extract_text body;
                r_latency_s := round2 (monotonic w' - monotonic (world s)) |}),
     {| world := w'; monitor := monitor s;
        dispatched := dispatched s ++ [(e, None)] |}).
Proof.
  intros Hflat Hpost Hcode Hjson.
  induction order as [|t order IH]; [done|].
  cbn [search_tiers flat_map] in *.
  destruct (get_tier_models cfg t) as [|e' l] eqn:Hg.
  - simpl in Hflat. cbn [try_candidates]. unfold bind at 1, ret at 1.
    by apply IH.
  - simpl in Hflat. injection Hflat as -> _.
    assert (tier e = t) as Ht.
    { assert (e ∈ get_tier_models cfg t) as Hin by (rewrite Hg; by left).
      unfold get_tier_models in Hin. by apply list_elem_of_filter in Hin as [-> _]. }
    unfold bind at 1. rewrite <- Ht.
    by rewrite (try_candidates_first _ _ _ _ _ _ _ _ _ _ Hpost Hcode Hjson).
Qed.

(** X11: without a monitor, when the completion request for the first
    candidate of the search order is answered with a status outside 4xx and
    5xx and a JSON body, [auto_route] returns at once: the model is that
    candidate, the tier is the tier it is registered in, the response is
    what [_extract_text] makes of the body, and no other request is made.
    The hypothesis spells the request out: URL, headers, payload and the
    timeout of the tier of the candidate. *)
Theorem auto_route_first_answers (prompt : string) (system tier : option string)
    (cfg : SwarmConfig) (s : state) (e : ModelEntry) (rest : list ModelEntry)
    (resp : Response) (w' : World) (body : pyval) :
  candidates_of cfg (detect_tier cfg tier prompt) = e :: rest →
  session_post (rstrip_slash (url (endpoint e)) +:+ "/v1/chat/completions")
    (Some [ ("Authorization", "Bearer " +:+ api_key (endpoint e));
            ("Content-Type", "application/json") ])
    (PDict [ ("model", PStr (model_id e));
             ("messages", build_messages system prompt);
             ("temperature", PNum (7 # 10)); ("max_tokens", PNum 2048) ])
    (get_tier_timeout cfg (Config.tier e)) (world s) = (Ok resp, w') →
  (status_code resp < 400 ∨ 600 ≤ status_code resp)%Z →
  json resp = Ok body →
  auto_route prompt system tier cfg false s
  = (Ok {| r_model := model_id e; r_tier := Config.tier e;
           r_response := _extract_text body;
           r_latency_s := round2 (monotonic w' - monotonic (world s)) |},
     {| world := w'; monitor := monitor s;
        dispatched := dispatched s ++ [(e, None)] |}).
Proof.
  intros Hc Hpost Hcode Hjson. unfold auto_route, refresh_if.
  unfold bind at 1, ret at 1. unfold bind at 1.
  by rewrite (search_tiers_first _ _ _ _ _ _ _ _ _ _ Hc Hpost Hcode Hjson).
Qed.

Lemma search_order_other (t : string) :
  t ≠ "T1" → t ≠ "T2" → t ≠ "T3" → search_order t = ["fast"].
Proof.
  intros H1 H2 H3. unfold search_order.
  destruct (decide (t = "T1")); [done|]. destruct (decide (t = "T2")); [done|].
  by destruct (decide (t = "T3")).
Qed.

Lemma refresh_if_run (health : bool) (s : state) :
  ∃ r s1, refresh_if health s = (r, s1) ∧ dispatched s1 = dispatched s
          ∧ match r with
            | Ok _ => True
            | Raise e => exn_class_of e = TimeoutError
            end.
Proof.
  destruct health; simpl.
  - destruct (health_refresh_run s) as (r & s1 & Hrun & Hd & Hr).
    exists r, s1. split; [done|]. split; [done|]. by destruct r as [|e]; [|destruct Hr].
  - exists (Ok tt), s. by repeat split.
Qed.

(** X12: a tier argument other than "T1", "T2" and "T3" (the name of a
    model tier, say) is searched like "T1": only the models registered in
    "fast" are asked, and a result always has the tier "fast". *)
Theorem auto_route_other_tier (prompt : string) (system : option string)
    (t : string) (cfg : SwarmConfig) (health : bool) (s : state) :
  t ≠ EmptyString → t ≠ "T1" → t ≠ "T2" → t ≠ "T3" →
  ∃ r trace s',
    auto_route prompt system (Some t) cfg health s = (r, s')
    ∧ dispatched s' = dispatched s ++ trace
    ∧ (∃ rest, filter (λ e, eligible health (monitor s') e = true)
                      (get_tier_models cfg "fast") = trace.*1 ++ rest)
    ∧ match r with
      | Ok res => r_tier res = "fast"
      | Raise exc =>
          exn_class_of exc = TimeoutError
          ∨ ∃ last, exc = Exn RuntimeError (exhausted_msg t last)
      end.
Proof.
  intros Hne H1 H2 H3.
  assert (detect_tier cfg (Some t) prompt = t) as Hdet by (by destruct t).
  assert (candidates_of cfg t = get_tier_models cfg "fast") as Hcand.
  { unfold candidates_of. rewrite search_order_other by done. simpl.
    by rewrite app_nil_r. }
  destruct (refresh_if_run health s) as ([[]|exc] & s1 & Href & Hd1 & Hcls).
  - destruct (auto_route_run prompt system (Some t) cfg health s s1 Href)
      as (r & trace & s' & Hrun & Hm & Hd & Hr).
    rewrite Hdet, Hcand in Hr.
    exists r, trace, s'. split; [done|]. split; [congruence|]. rewrite Hm.
    destruct r as [res|exc].
    + destruct Hr as (before & e & rest & Hf & -> & Hb & Hmod & Htier).
      split.
      * exists rest. rewrite Hf, fmap_app. simpl. by rewrite <- app_assoc.
      * assert (e ∈ get_tier_models cfg "fast") as Hin.
        { assert (e ∈ filter (λ e, eligible health (monitor s1) e = true)
                             (get_tier_models cfg "fast")) as Hin'
            by (rewrite Hf; apply elem_of_app; right; by left).
          by apply list_elem_of_filter in Hin' as [_ Hin']. }
        unfold get_tier_models in Hin. apply list_elem_of_filter in Hin as [Hin _].
        congruence.
    + destruct Hr as [(Hf & Hb & _) ->]. split.
      * exists []. by rewrite app_nil_r.
      * right. by eexists.
  - exists (Raise exc), [], s1.
    split; [by apply auto_route_refresh_raises|].
    split; [by rewrite app_nil_r|]. split; [by eexists|]. by left.
Qed.

(** X13: when no candidate can be asked, because the tiers of the search
    order have no model or because the monitor reports every one of them
    down, [auto_route] makes no request and raises the [RuntimeError] whose
    text ends in "Last error: None". *)
Theorem auto_route_no_candidate (prompt : string) (system tier : option string)
    (cfg : SwarmConfig) (health : bool) (s s1 : state) :
  refresh_if health s = (Ok tt, s1) →
  filter (λ e, eligible health (monitor s1) e = true)
         (candidates_of cfg (detect_tier cfg tier prompt)) = [] →
  ∃ s', auto_route prompt system tier cfg health s
        = (Raise (Exn RuntimeError
                    ("All models exhausted for tier " +:+ detect_tier cfg tier prompt
                     +:+ ". Last error: None")), s')
        ∧ monitor s' = monitor s1 ∧ dispatched s' = dispatched s1.
Proof.
  intros Href Hnone.
  destruct (auto_route_run prompt system tier cfg health s s1 Href)
    as (r & trace & s' & Hrun & Hm & Hd & Hr).
  rewrite Hnone in Hr. destruct r as [res|exc].
  - destruct Hr as (before & e & rest & Hf & _). by destruct (before.*1).
  - destruct Hr as [(Hf & _) ->].
    assert (trace = []) as -> by (by destruct trace).
    exists s'. simpl. split; [done|]. split; [done|]. by rewrite Hd, app_nil_r.
Qed.

End Route.

Lemma _extract_text_envelope_witness :
  @_extract_text Script.runtime (Script.envelope (PStr "Hello")) = PStr "Hello".
Proof.
  destruct (@_extract_text_envelope Script.runtime
              (Script.envelope (PStr "Hello"))) as [Henv _].
  by eapply Henv.
Defined.

Lemma auto_route_first_answers_witness :
  candidates_of Script.cfg_fast_only
    (detect_tier Script.cfg_fast_only None "Hi") = [Script.fast_entry]
  ∧ ∃ res s', @auto_route Script.runtime "Hi" None None Script.cfg_fast_only false
                (Script.start Script.hello_world) = (Ok res, s')
              ∧ r_model res = "fast-model-id" ∧ r_tier res = "fast"
              ∧ r_response res = PStr "Hello"
              ∧ dispatched s' = [(Script.fast_entry, None)].
Proof.
  split; [reflexivity|]. do 2 eexists. split.
  - apply (@auto_route_first_answers Script.runtime "Hi" None None
             Script.cfg_fast_only (Script.start Script.hello_world)
             Script.fast_entry [] {| status_code := 200;
                                     json := Ok (Script.envelope (PStr "Hello")) |}
             (Script.tick Script.hello_world [] [] [])
             (Script.envelope (PStr "Hello")));
      [reflexivity|reflexivity|left; reflexivity|reflexivity].
  - repeat split; reflexivity.
Defined.

Lemma auto_route_other_tier_witness :
  ∃ r trace s',
    @auto_route Script.runtime "Hi" None (Some "deep") Script.cfg_two false
      (Script.start Script.hello_world) = (r, s')
    ∧ dispatched s' = [] ++ trace
    ∧ (∃ rest, filter (λ e, eligible false (monitor s') e = true)
                      (get_tier_models Script.cfg_two "fast") = trace.*1 ++ rest)
    ∧ match r with
      | Ok res => r_tier res = "fast"
      | Raise exc =>
          exn_class_of exc = TimeoutError
          ∨ ∃ last, exc = Exn RuntimeError (exhausted_msg "deep" last)
      end.
Proof.
  apply (@auto_route_other_tier Script.runtime "Hi" None "deep" Script.cfg_two false
           (Script.start Script.hello_world)); discriminate.
Defined.

Lemma auto_route_no_candidate_witness :
  ∃ s', @auto_route Script.runtime "Hi" None None Runs.cfg_empty false
          (Script.start Script.hello_world)
        = (Raise (Exn RuntimeError
                    "All models exhausted for tier T1. Last error: None"), s')
        ∧ dispatched s' = [].
Proof.
  destruct (@auto_route_no_candidate Script.runtime "Hi" None None Runs.cfg_empty
              false (Script.start Script.hello_world)
              (Script.start Script.hello_world) eq_refl eq_refl)
    as (s' & Hrun & _ & Hd).
  exists s'. split; [exact Hrun | exact Hd].
Defined.

End MoreRoute.

(** ** orchestrator.py: more on consensus *)
Module MoreConsensus.
Import Py Eff Eff.Notations Config Health Machine Orchestrator.
Import Spec MoreSpec Frame EffFacts HealthFacts RouteSpec PyFacts RouteFacts.
Import ConsensusFacts.
Local Open Scope list_scope.

Section Consensus.
Context `{Runtime}.

(** X14: when [consensus] returns, [individual] has one entry for each
    model that was asked, labelled with its model id (never "unknown"),
    each with a latency exactly when it has no error; [model_count] is the
    number of entries with a response, at least one and at most the number
    of models. *)
Theorem consensus_individual prompt models system max_workers call_timeout cfg health
    (s : state) (res : ConsensusResult) (s' : state) :
  consensus prompt models system max_workers call_timeout cfg health s = (Ok res, s') →
  let asked := default (default_models cfg) models in
  map a_model (individual res) ≡ₚ map model_id asked
  ∧ model_count res = length (successful_of (individual res))
  ∧ (1 ≤ model_count res ≤ length asked)%nat
  ∧ Forall well_formed (individual res).
Proof.
  intros Hrun asked. rewrite consensus_unfold in Hrun.
  destruct (refresh_if health s) as [[[]|e] s1]; [|done].
  destruct (max_workers <=? 0)%Z; [done|].
  destruct (pool_as_completed _ _ s1) as [[outs|e] s2] eqn:Hpool; [|done].
  apply pool_as_completed_Forall2 in Hpool as (fin & Hperm & Hall).
  unfold consensus_tasks in Hperm. fold asked in Hperm.
  apply Permutation_map_inv in Hperm as (l & -> & Hl).
  apply Forall2_fmap_l in Hall.
  destruct (answers_of_calls _ _ _ _ _ Hall) as [Hmodels Hwf].
  pose proof (Forall2_length _ _ _ Hall) as Hlen.
  destruct (successful_of (map collect outs)) as [|a l0] eqn:Hsucc.
  - unfold synthesize in Hrun. rewrite Hsucc in Hrun. discriminate.
  - rewrite (synthesize_some _ _ _ _ _ _ _ Hsucc) in Hrun.
    destruct (auto_route _ None (Some "T2") cfg health s2) as [r s3].
    injection Hrun as <- <-. cbn [individual model_count]. rewrite Hsucc.
    split; [by rewrite Hmodels, Hl|]. split; [done|]. split; [|done].
    split; [simpl; lia|]. change (S (length l0)) with (length (a :: l0)).
    rewrite <- Hsucc. unfold successful_of.
    etrans; [apply length_filter|]. rewrite length_map, <- Hlen.
    by rewrite Hl.
Qed.

(** X15: without a model to ask, because none was given or because no tier
    has one, [consensus] makes no request and raises the all-failed
    [RuntimeError]. *)
Theorem consensus_no_models prompt models system max_workers call_timeout cfg
    (s : state) :
  (0 < max_workers)%Z →
  default (default_models cfg) models = [] →
  consensus prompt models system max_workers call_timeout cfg false s
  = (Raise (Exn RuntimeError "All consensus models failed."), s).
Proof.
  intros Hw Hnone. rewrite consensus_unfold. simpl.
  assert ((max_workers <=? 0)%Z = false) as -> by (by apply Z.leb_gt).
  unfold consensus_tasks. rewrite Hnone. simpl.
  by rewrite pool_as_completed_nil.
Qed.

End Consensus.

Lemma consensus_individual_witness :
  ∃ res s',
    @consensus Script.runtime "Q" None None 5 90 Script.cfg_two false
      (Script.start Script.hello_world) = (Ok res, s')
    ∧ map a_model (individual res) ≡ₚ ["quick"; "slow"]
    ∧ model_count res = 1%nat.
Proof.
  assert (∃ res s',
            @consensus Script.runtime "Q" None None 5 90 Script.cfg_two false
              (Script.start Script.hello_world) = (Ok res, s')
            ∧ model_count res = 1%nat) as (res & s' & Hrun & Hcount).
  { do 2 eexists. split; vm_compute; reflexivity. }
  exists res, s'. split; [exact Hrun|]. split; [|exact Hcount].
  exact (proj1 (@consensus_individual Script.runtime "Q" None None 5 90
                  Script.cfg_two false _ res s' Hrun)).
Defined.

Lemma consensus_no_models_witness :
  @consensus Script.runtime "Q" None None 5 90 Runs.cfg_empty false
    (Script.start Script.hello_world)
  = (Raise (Exn RuntimeError "All consensus models failed."),
     Script.start Script.hello_world).
Proof.
  apply (@consensus_no_models Script.runtime); [reflexivity|reflexivity].
Defined.

End MoreConsensus.

(** ** orchestrator.py: the knowledge store and the pipeline *)
Module MoreKnowledge.
Import Py Eff Eff.Notations Config Health Machine Orchestrator.
Import Spec MoreSpec Frame EffFacts HealthFacts RouteSpec PyFacts RouteFacts.
Local Open Scope list_scope.

Section Knowledge.
Context `{Runtime}.

(** X16: [_knowledge_search] never raises.  It returns the body of the
    answer when that is a list, the value at "results" when the body is a
    dict that has the key, the one-element list of the body when it is a
    dict without the key, and the empty list in every other case: a
    transport error, a status 4xx or 5xx, a body that is no JSON or a JSON
    value of another kind.  It makes one request and no completion
    request. *)
Theorem _knowledge_search_result (knowledge_url query : string) (s : state) :
  ∃ v s',
    _knowledge_search knowledge_url query s = (Ok v, s')
    ∧ monitor s' = monitor s ∧ dispatched s' = dispatched s
    ∧ match session_post (rstrip_slash knowledge_url +:+ "/search") None
              (PDict [ ("query", PStr query);
                       ("query_type", PStr "GRAPH_COMPLETION") ])
              (5, 30)%Q (world s) with
      | (Ok r, w') =>
          world s' = w'
          ∧ v = (if ((400 <=? status_code r) && (status_code r <? 600))%Z
                 then PList []
                 else match json r with
                      | Ok (PList l) => PList l
                      | Ok (PDict d) =>
                          default (PList [PDict d]) (dict_lookup "results" d)
                      | _ => PList []
                      end)
      | (Raise _, w') => world s' = w' ∧ v = PList []
      end.
Proof.
  unfold _knowledge_search, search_request, try_except, bind, on_world,
    raise_for_status, lift, ret, raise.
  cbn [world_of with_world state_HasWorld].
  destruct (session_post _ None _ _ (world s)) as [[r|e] w'].
  - destruct ((400 <=? status_code r) && (status_code r <? 600))%Z.
    + do 2 eexists. split; [reflexivity|]. by repeat split.
    + destruct (json r) as [[| | | | |]|]; simpl;
        do 2 eexists; (split; [reflexivity|]); by repeat split.
  - do 2 eexists. split; [reflexivity|]. by repeat split.
Qed.

(** X17: [_knowledge_add] never raises; it returns [True] exactly when the
    request was answered with a status outside 4xx and 5xx, whatever the
    body. *)
Theorem _knowledge_add_result (knowledge_url text dataset : string) (s : state) :
  ∃ b s',
    _knowledge_add knowledge_url text dataset s = (Ok b, s')
    ∧ monitor s' = monitor s ∧ dispatched s' = dispatched s
    ∧ match session_post (rstrip_slash knowledge_url +:+ "/add") None
              (PDict [ ("text", PStr text); ("dataset_name", PStr dataset) ])
              (5, 60)%Q (world s) with
      | (Ok r, w') =>
          world s' = w'
          ∧ b = negb ((400 <=? status_code r) && (status_code r <? 600))%Z
      | (Raise _, w') => world s' = w' ∧ b = false
      end.
Proof.
  unfold _knowledge_add, try_except, bind, on_world, raise_for_status, ret, raise.
  cbn [world_of with_world state_HasWorld].
  destruct (session_post _ None _ _ (world s)) as [[r|e] w'].
  - destruct ((400 <=? status_code r) && (status_code r <? 600))%Z;
      do 2 eexists; (split; [reflexivity|]); by repeat split.
  - do 2 eexists. split; [reflexivity|]. by repeat split.
Qed.

Lemma join_header (sep h : string) (lines : list string) :
  ∃ rest, join sep (h :: lines) = h +:+ rest.
Proof.
  destruct lines as [|x lines].
  - exists EmptyString. simpl. by rewrite app_empty_r.
  - by eexists.
Qed.

(** X18: [_format_context] gives the empty string for no results; otherwise
    its text begins with the heading, and only the first five results
    count: what follows them changes nothing. *)
Theorem _format_context_first_five (results : pyval) :
  (truthy results = false → _format_context results = Ok EmptyString)
  ∧ (∀ ctx, truthy results = true → _format_context results = Ok ctx →
            ∃ rest, ctx = "RELEVANT KNOWLEDGE FROM MEMORY:" +:+ rest)
  ∧ (∀ l extra, results = PList (l ++ extra) → (5 ≤ length l)%nat →
                _format_context results = _format_context (PList l)).
Proof.
  split; [|split].
  - intros Hf. unfold _format_context. by rewrite Hf.
  - intros ctx Ht. unfold _format_context. rewrite Ht. simpl.
    destruct (first_five results) as [items|e]; simpl; [|done].
    destruct (context_lines 1 items) as [lines|e]; simpl; [|done].
    intros [= <-]. apply join_header.
  - intros l extra -> Hlen. unfold _format_context.
    assert (truthy (PList (l ++ extra)) = true) as ->.
    { destruct l; [simpl in Hlen; lia | done]. }
    assert (truthy (PList l) = true) as ->.
    { destruct l; [simpl in Hlen; lia | done]. }
    simpl. by rewrite take_app_le by done.
Qed.

Lemma _format_context_nonempty (results : pyval) (ctx : string) :
  truthy results = true → _format_context results = Ok ctx → ctx ≠ EmptyString.
Proof.
  intros Ht. unfold _format_context. rewrite Ht. simpl.
  destruct (first_five results) as [items|e]; simpl; [|done].
  destruct (context_lines 1 items) as [lines|e]; simpl; [|done].
  intros [= <-]. destruct lines as [|x lines]; [done|].
  cbn [join]. by rewrite app_cons.
Qed.

(** X19: when the knowledge store is not configured, or both [enrich] and
    [store] are off, [pipeline] is the generation of the answer for the
    prompt as it is: it makes no other request, counts no context result,
    and still reports [stored] as the flag [store] it was given. *)
Theorem pipeline_without_store prompt enrich store use_consensus tier cfg health
    (s s1 : state) :
  opt_truthy (knowledge_url cfg) = false ∨ (enrich = false ∧ store = false) →
  refresh_if health s = (Ok tt, s1) →
  match generate prompt use_consensus tier cfg health s1 with
  | (Raise e, s2) =>
      pipeline prompt enrich store use_consensus tier cfg health s = (Raise e, s2)
  | (Ok (text, info), s2) =>
      pipeline prompt enrich store use_consensus tier cfg health s
      = (Ok {| answer := text;
               prompt_original := prompt;
               prompt_enriched := prompt;
               context_results_count := 0;
               model_info := info;
               total_latency_s := round2 (monotonic (world s2) - monotonic (world s1));
               stored := store |}, s2)
  end.
Proof.
  intros Hoff Href.
  assert (enrich && opt_truthy (knowledge_url cfg) = false) as He.
  { destruct Hoff as [->|[-> _]]; [apply andb_false_r | done]. }
  assert (store && opt_truthy (knowledge_url cfg) = false) as Hs.
  { destruct Hoff as [->|[_ ->]]; [apply andb_false_r | done]. }
  destruct (generate prompt use_consensus tier cfg health s1)
    as [[[text info]|e] s2] eqn:Hgen.
  - unfold pipeline, bind. rewrite Href. cbv beta iota. rewrite He, Hs.
    unfold ret at 1. cbv beta iota.
    unfold time_monotonic at 1, gets at 1. cbv beta iota.
    rewrite Hgen. cbv beta iota.
    unfold time_monotonic, gets, ret, lift. simpl. by destruct enrich.
  - unfold pipeline, bind. rewrite Href. cbv beta iota. rewrite He.
    unfold ret at 1. cbv beta iota.
    unfold time_monotonic at 1, gets at 1. cbv beta iota.
    by rewrite Hgen.
Qed.

(** X20: with [enrich] set, when the search returns a number that is not
    zero where the results go, [pipeline] raises the [TypeError] of slicing
    it, before any completion request. *)
Theorem pipeline_number_results prompt store use_consensus tier cfg health
    (kurl : string) (s s1 s2 : state) (q : Q) :
  knowledge_url cfg = Some kurl → kurl ≠ EmptyString →
  refresh_if health s = (Ok tt, s1) →
  search_request kurl prompt s1 = (Ok (PNum q), s2) →
  ¬ (q == 0)%Q →
  pipeline prompt true store use_consensus tier cfg health s
  = (Raise (Exn TypeError (errmsg TypeError (PNum q))), s2).
Proof.
  intros Hk Hne Href Hreq Hq.
  assert (opt_truthy (knowledge_url cfg) = true) as Htruthy.
  { rewrite Hk. by destruct kurl. }
  unfold pipeline, bind. rewrite Href. cbv beta iota. rewrite Htruthy, Hk.
  cbn [andb default]. cbv beta iota. change (id kurl) with kurl.
  unfold _knowledge_search, try_except. rewrite Hreq. cbv beta iota.
  unfold lift at 1, _format_context. cbn [truthy].
  assert (Qeq_bool q 0 = false) as ->.
  { destruct (Qeq_bool q 0) eqn:Heq; [|done]. by apply Qeq_bool_iff in Heq. }
  reflexivity.
Qed.

(** X21: with [enrich] set and [store] off, when the search returns a list
    of results that is not empty and can be formatted, the generation gets
    the context, a line "USER QUESTION:" and the prompt; the result carries
    this enriched prompt and counts all the results of the search, also
    those beyond the five that the context shows. *)
Theorem pipeline_enriched prompt use_consensus tier cfg health
    (kurl : string) (s s1 s2 : state) (items : list pyval) (ctx : string) :
  knowledge_url cfg = Some kurl → kurl ≠ EmptyString →
  refresh_if health s = (Ok tt, s1) →
  search_request kurl prompt s1 = (Ok (PList items), s2) →
  items ≠ [] →
  _format_context (PList items) = Ok ctx →
  let enriched :=
    ctx +:+ String "010" (String "010" "USER QUESTION:") +:+ String "010" prompt in
  match generate enriched use_consensus tier cfg health s2 with
  | (Raise e, s3) =>
      pipeline prompt true false use_consensus tier cfg health s = (Raise e, s3)
  | (Ok (text, info), s3) =>
      pipeline prompt true false use_consensus tier cfg health s
      = (Ok {| answer := text;
               prompt_original := prompt;
               prompt_enriched := enriched;
               context_results_count := length items;
               model_info := info;
               total_latency_s := round2 (monotonic (world s3) - monotonic (world s2));
               stored := false |}, s3)
  end.
Proof.
  intros Hk Hne Href Hreq Hitems Hctx enriched.
  assert (opt_truthy (knowledge_url cfg) = true) as Htruthy.
  { rewrite Hk. by destruct kurl. }
  assert (ctx ≠ EmptyString) as Hnonempty.
  { apply (_format_context_nonempty (PList items)); [by destruct items | done]. }
  destruct (generate enriched use_consensus tier cfg health s2)
    as [[[text info]|e] s3] eqn:Hgen.
  - unfold pipeline, bind. rewrite Href. cbv beta iota. rewrite Htruthy, Hk.
    cbn [andb default]. cbv beta iota. change (id kurl) with kurl.
    unfold _knowledge_search, try_except. rewrite Hreq. cbv beta iota.
    unfold lift at 1. rewrite Hctx. cbv beta iota.
    destruct ctx as [|c ctx]; [done|]. unfold ret at 1. cbv beta iota.
    unfold time_monotonic at 1, gets at 1. cbv beta iota.
    fold enriched. rewrite Hgen. cbv beta iota.
    unfold time_monotonic, gets, ret, lift. reflexivity.
  - unfold pipeline, bind. rewrite Href. cbv beta iota. rewrite Htruthy, Hk.
    cbn [andb default]. cbv beta iota. change (id kurl) with kurl.
    unfold _knowledge_search, try_except. rewrite Hreq. cbv beta iota.
    unfold lift at 1. rewrite Hctx. cbv beta iota.
    destruct ctx as [|c ctx]; [done|]. unfold ret at 1. cbv beta iota.
    unfold time_monotonic at 1, gets at 1. cbv beta iota.
    fold enriched. by rewrite Hgen.
Qed.

End Knowledge.

Lemma _format_context_first_five_witness :
  @_format_context Script.runtime
    (PList (replicate 5 (PStr "a") ++ [PStr "b"; PNum 1]))
  = @_format_context Script.runtime (PList (replicate 5 (PStr "a"))).
Proof.
  destruct (@_format_context_first_five Script.runtime
              (PList (replicate 5 (PStr "a") ++ [PStr "b"; PNum 1])))
    as (_ & _ & Hfive).
  apply (Hfive (replicate 5 (PStr "a")) [PStr "b"; PNum 1]);
    [reflexivity | simpl; lia].
Defined.

Lemma pipeline_without_store_witness :
  match @generate Script.runtime "Hi" false None Script.cfg_fast_only false
          (Script.start Script.hello_world) with
  | (Raise e, s2) =>
      @pipeline Script.runtime "Hi" true true false None Script.cfg_fast_only false
        (Script.start Script.hello_world) = (Raise e, s2)
  | (Ok (text, info), s2) =>
      @pipeline Script.runtime "Hi" true true false None Script.cfg_fast_only false
        (Script.start Script.hello_world)
      = (Ok {| answer := text;
               prompt_original := "Hi";
               prompt_enriched := "Hi";
               context_results_count := 0;
               model_info := info;
               total_latency_s := round2 (Script.clock (world s2) - 0);
               stored := true |}, s2)
  end.
Proof.
  apply (@pipeline_without_store Script.runtime "Hi" true true false None
           Script.cfg_fast_only false (Script.start Script.hello_world)
           (Script.start Script.hello_world)); [left|]; reflexivity.
Defined.

Lemma pipeline_number_results_witness :
  @search_request Script.runtime "http://localhost:8080/api/v1" "Hi"
    (Script.start Runs.store_odd_world)
  = (Ok (PNum 5), Script.start Runs.store_odd_after)
  ∧ @pipeline Script.runtime "Hi" true true false None Script.cfg_knowledge false
      (Script.start Runs.store_odd_world)
    = (Raise (Exn TypeError "<error>"), Script.start Runs.store_odd_after).
Proof.
  assert (@search_request Script.runtime "http://localhost:8080/api/v1" "Hi"
            (Script.start Runs.store_odd_world)
          = (Ok (PNum 5), Script.start Runs.store_odd_after)) as Hreq
    by (vm_compute; reflexivity).
  split; [exact Hreq|].
  apply (@pipeline_number_results Script.runtime "Hi" true false None
           Script.cfg_knowledge false "http://localhost:8080/api/v1"
           (Script.start Runs.store_odd_world) (Script.start Runs.store_odd_world)
           (Script.start Runs.store_odd_after) 5);
    [reflexivity | discriminate | reflexivity | exact Hreq | discriminate].
Defined.

Lemma pipeline_enriched_witness :
  @search_request Script.runtime "http://localhost:8080/api/v1" "Hi"
    (Script.start Runs.store_up_world)
  = (Ok Runs.one_fact, Script.start Script.store_down_after)
  ∧ @_format_context Script.runtime Runs.one_fact = Ok Runs.one_fact_context
  ∧ match @generate Script.runtime
            (Runs.one_fact_context +:+ String "010" (String "010" "USER QUESTION:")
             +:+ String "010" "Hi")
            false None Script.cfg_knowledge false
            (Script.start Script.store_down_after) with
    | (Raise e, s3) =>
        @pipeline Script.runtime "Hi" true false false None Script.cfg_knowledge
          false (Script.start Runs.store_up_world) = (Raise e, s3)
    | (Ok (text, info), s3) =>
        @pipeline Script.runtime "Hi" true false false None Script.cfg_knowledge
          false (Script.start Runs.store_up_world)
        = (Ok {| answer := text;
                 prompt_original := "Hi";
                 prompt_enriched :=
                   Runs.one_fact_context
                   +:+ String "010" (String "010" "USER QUESTION:")
                   +:+ String "010" "Hi";
                 context_results_count := 1;
                 model_info := info;
                 total_latency_s := round2 (Script.clock (world s3) - 1);
                 stored := false |}, s3)
    end.
Proof.
  assert (@search_request Script.runtime "http://localhost:8080/api/v1" "Hi"
            (Script.start Runs.store_up_world)
          = (Ok Runs.one_fact, Script.start Script.store_down_after)) as Hreq
    by (vm_compute; reflexivity).
  assert (@_format_context Script.runtime Runs.one_fact = Ok Runs.one_fact_context)
    as Hctx by (vm_compute; reflexivity).
  split; [exact Hreq|]. split; [exact Hctx|].
  apply (@pipeline_enriched Script.runtime "Hi" false None Script.cfg_knowledge
           false "http://localhost:8080/api/v1"
           (Script.start Runs.store_up_world) (Script.start Runs.store_up_world)
           (Script.start Script.store_down_after)
           [ PDict [ ("text", PStr "fact") ] ] Runs.one_fact_context);
    [reflexivity | discriminate | reflexivity | exact Hreq | discriminate
    | exact Hctx].
Defined.

End MoreKnowledge.

(** ** orchestrator.py: the default choice of models *)
Module MoreDefaults.
Import Py Config Orchestrator.
Local Open Scope list_scope.

(** X22: by default [consensus] asks at most three models: for each of the
    tiers "fast", "power" and "deep" that has a model, in this order, the
    model registered first in it. *)
Theorem default_models_first_of_tier (cfg : SwarmConfig) :
  (length (default_models cfg) ≤ 3)%nat
  ∧ sublist (map tier (default_models cfg)) ["fast"; "power"; "deep"]
  ∧ (∀ m, m ∈ default_models cfg →
          ∃ rest, get_tier_models cfg (tier m) = m :: rest)
  ∧ (∀ t, t ∈ ["fast"; "power"; "deep"] → get_tier_models cfg t ≠ [] →
          t ∈ map tier (default_models cfg)).
Proof.
  unfold default_models. simpl.
  assert (∀ t m l, get_tier_models cfg t = m :: l → tier m = t) as Htier.
  { intros t m l Hg. assert (m ∈ get_tier_models cfg t) as Hin by (rewrite Hg; by left).
    unfold get_tier_models in Hin. by apply list_elem_of_filter in Hin as [? _]. }
  destruct (get_tier_models cfg "fast") as [|f lf] eqn:Hf;
    destruct (get_tier_models cfg "power") as [|p lp] eqn:Hp;
    destruct (get_tier_models cfg "deep") as [|d ld] eqn:Hd; simpl;
    rewrite ?(Htier _ _ _ Hf), ?(Htier _ _ _ Hp), ?(Htier _ _ _ Hd).
  all: split; [lia|]; split;
    [repeat first [apply sublist_nil | apply sublist_skip | apply sublist_cons]|];
    split.
  all: try (intros m Hm;
            repeat (apply elem_of_cons in Hm as [->|Hm]);
            try (by apply elem_of_nil in Hm);
            rewrite ?(Htier _ _ _ Hf), ?(Htier _ _ _ Hp), ?(Htier _ _ _ Hd),
              ?Hf, ?Hp, ?Hd; by eexists).
  all: intros t Ht Hne; rewrite !elem_of_cons, elem_of_nil in Ht;
    destruct Ht as [->|[->|[->|[]]]]; rewrite ?Hf, ?Hp, ?Hd in Hne; try done;
    rewrite ?elem_of_cons; auto.
Qed.

Lemma default_models_first_of_tier_witness :
  Script.entry "quick" "fast" ∈ default_models Script.cfg_two
  ∧ ∃ rest, get_tier_models Script.cfg_two "fast" = Script.entry "quick" "fast" :: rest.
Proof.
  assert (Script.entry "quick" "fast" ∈ default_models Script.cfg_two) as Hin
    by (vm_compute; by left).
  split; [exact Hin|].
  destruct (default_models_first_of_tier Script.cfg_two) as (_ & _ & Hfirst & _).
  exact (Hfirst _ Hin).
Defined.

End MoreDefaults.

(** ** mcp_bridge.py *)
Module MoreBridge.
Import Py Eff Eff.Notations Config Machine Bridge.
Local Open Scope list_scope.

Section Dispatcher.
Context `{Runtime} {St : Type}.
Variable TOOLS : pyval.
Variables _tool_query _tool_swarm _tool_status : pyval → SwarmConfig → M St string.

Local Abbreviation handle :=
  (handle_request TOOLS _tool_query _tool_swarm _tool_status).
Local Abbreviation handlers :=
  (TOOL_HANDLERS _tool_query _tool_swarm _tool_status).


End Dispatcher.


End MoreBridge.
